(** * Sockeye layers and layer-normalised recurrent cells

    A shallow embedding of [sockeye/layers.py] and [sockeye/rnn.py].

    Tensors are row-major arrays with an explicit shape, as MXNet's NDArray.
    Entries of numeric tensors are real numbers: rounding of the floating-point
    format is not modelled.  Operations of the tensor runtime that check the
    shapes of their operands return in an error monad. *)

From Stdlib Require Import String Ascii DecimalString.
From Stdlib Require Import Reals Lra.
From Stdlib Require Import List Arith ZArith Lia Bool.
Import ListNotations.

Set Implicit Arguments.

(** * Part I: the embedding *)

(** ** Errors *)

Inductive error : Type :=
| SockeyeError (msg : string)      (* raised by utils.check_condition *)
| NotImplementedError
| AssertionError
| ZeroDivisionError
| IndexError
| ValueError
| TypeError
| MXNetError.                      (* shape errors of the tensor runtime *)

Inductive result (A : Type) : Type :=
| Ok (a : A)
| Raise (e : error).

Arguments Ok {A} a.
Arguments Raise {A} e.

Definition bind {A B} (m : result A) (k : A -> result B) : result B :=
  match m with
  | Ok a => k a
  | Raise e => Raise e
  end.

Declare Scope result_scope.
Delimit Scope result_scope with result.
Notation "x <- m ;; k" := (bind m (fun x => k))
  (at level 61, m at next level, right associativity) : result_scope.
Notation "' pat <- m ;; k" := (bind m (fun x => match x with pat => k end))
  (at level 61, pat pattern, m at next level, right associativity) : result_scope.
Open Scope result_scope.

Definition is_config_error {A} (r : result A) : bool :=
  match r with
  | Raise (SockeyeError _) => true
  | _ => false
  end.

(** ** Tensors *)

Class Default (A : Type) : Type := dflt : A.
#[global] Instance Default_R : Default R := 0%R.
#[global] Instance Default_nat : Default nat := 0%nat.

Record tensor (A : Type) : Type := mkTensor {
  shape : list nat;
  data : list A
}.

Definition size (sh : list nat) : nat := fold_right Nat.mul 1 sh.

Definition wf {A} (t : tensor A) : Prop := length (data t) = size (shape t).

(** Row-major offset of a multi-index, and its inverse. *)
Fixpoint ravel (sh idx : list nat) : nat :=
  match sh, idx with
  | _ :: sh', i :: idx' => i * size sh' + ravel sh' idx'
  | _, _ => 0
  end.

Fixpoint unravel (sh : list nat) (j : nat) : list nat :=
  match sh with
  | [] => []
  | _ :: sh' => j / size sh' :: unravel sh' (j mod size sh')
  end.

Definition in_bounds (sh idx : list nat) : Prop := Forall2 lt idx sh.

Definition tget {A} `{Default A} (t : tensor A) (idx : list nat) : A :=
  nth (ravel (shape t) idx) (data t) dflt.

Definition tabulate {A} (sh : list nat) (f : list nat -> A) : tensor A :=
  mkTensor sh (map (fun j => f (unravel sh j)) (seq 0 (size sh))).

Definition full {A} (sh : list nat) (v : A) : tensor A := tabulate sh (fun _ => v).

Definition tmap {A B} `{Default A} (f : A -> B) (t : tensor A) : tensor B :=
  tabulate (shape t) (fun idx => f (tget t idx)).

Definition shape_eqb (s1 s2 : list nat) : bool :=
  if list_eq_dec Nat.eq_dec s1 s2 then true else false.


Definition tset {A} (n : nat) (v : A) (l : list A) : list A :=
  firstn n l ++ match skipn n l with [] => [] | _ :: r => v :: r end.

Definition rank {A} (t : tensor A) : nat := length (shape t).

Fixpoint rsum (n : nat) (f : nat -> R) : R :=
  match n with
  | O => 0%R
  | S n' => (rsum n' f + f n')%R
  end.

(** Python sequences: indexing and tuple unpacking. *)
Definition getitem {A} (l : list A) (i : nat) : result A :=
  match nth_error l i with
  | Some a => Ok a
  | None => Raise IndexError
  end.

Definition unpack3 {A} (l : list A) : result (A * A * A) :=
  match l with
  | [a; b; c] => Ok (a, b, c)
  | _ => Raise ValueError
  end.

Definition unpack4 {A} (l : list A) : result (A * A * A * A) :=
  match l with
  | [a; b; c; d] => Ok (a, b, c, d)
  | _ => Raise ValueError
  end.

(** Python's ["%d" % z] and ["%s" % prefix] for an optional string. *)
Definition fmt_d (z : Z) : string := NilZero.string_of_int (Z.to_int z).

Definition fmt_s (s : option string) : string :=
  match s with
  | Some s => s
  | None => "None"
  end.

(** ** The MXNet operators the source calls

    Modelled after the operator documentation of MXNet: a shape check first,
    then the result given entry by entry. *)

Module mx.
Module sym.

(** A symbolic variable, mx.sym.Variable: its name and the attributes given at
    creation ([Variable] is a keyword here, the constructor is [Var]).  Its
    value is looked up by name in the arguments bound at execution. *)
Record Symbol : Type := Var {
  var_name : string;
  var_shape : option (list Z);
  var_init : option R              (* mx.init.Constant(value) *)
}.

Definition args : Type := string -> tensor R.

Definition eval (a : args) (s : Symbol) : tensor R := a (var_name s).

(** *** reshape, with the special codes 0, -1, -2, -3 and -4 *)

Definition split_dim (d0 : nat) (p1 p2 : Z) : result (nat * nat) :=
  if ((p1 =? -1) && (p2 =? -1))%Z then Raise MXNetError
  else
    let d1 := if (p1 =? -1)%Z then d0 / Z.to_nat p2 else Z.to_nat p1 in
    let d2 := if (p2 =? -1)%Z then d0 / Z.to_nat p1 else Z.to_nat p2 in
    if ((p1 <? -1) || (p2 <? -1) || (p1 =? 0) || (p2 =? 0))%Z then Raise MXNetError
    else if d1 * d2 =? d0 then Ok (d1, d2) else Raise MXNetError.

(** The dimensions of the target shape; [None] stands for the one to infer. *)
Fixpoint infer_reshape (src : list nat) (spec : list Z) : result (list (option nat)) :=
  match spec with
  | [] => Ok []
  | p :: spec' =>
    if (p =? 0)%Z then
      match src with
      | d :: src' => r <- infer_reshape src' spec' ;; Ok (Some d :: r)
      | [] => Raise MXNetError
      end
    else if (p =? -1)%Z then
      r <- infer_reshape (tl src) spec' ;; Ok (None :: r)
    else if (p =? -2)%Z then
      r <- infer_reshape [] spec' ;; Ok (map Some src ++ r)
    else if (p =? -3)%Z then
      match src with
      | d1 :: d2 :: src' => r <- infer_reshape src' spec' ;; Ok (Some (d1 * d2) :: r)
      | _ => Raise MXNetError
      end
    else if (p =? -4)%Z then
      match src, spec' with
      | d0 :: src', p1 :: p2 :: spec'' =>
        ' (d1, d2) <- split_dim d0 p1 p2 ;;
        r <- infer_reshape src' spec'' ;;
        Ok (Some d1 :: Some d2 :: r)
      | _, _ => Raise MXNetError
      end
    else if (0 <? p)%Z then
      r <- infer_reshape (tl src) spec' ;; Ok (Some (Z.to_nat p) :: r)
    else Raise MXNetError
  end.

Definition known_dim (o : option nat) : nat :=
  match o with
  | Some d => d
  | None => 1
  end.

Definition is_None {A} (o : option A) : bool :=
  match o with
  | None => true
  | Some _ => false
  end.

Definition fill_inferred (total : nat) (dims : list (option nat)) : result (list nat) :=
  let known := size (map known_dim dims) in
  match List.length (filter is_None dims) with
  | 0 => Ok (map known_dim dims)
  | 1 =>
    if known =? 0 then Raise MXNetError
    else Ok (map (fun o => match o with Some d => d | None => total / known end) dims)
  | _ => Raise MXNetError
  end.

Definition reshape {A} (t : tensor A) (spec : list Z) : result (tensor A) :=
  dims <- infer_reshape (shape t) spec ;;
  sh <- fill_inferred (size (shape t)) dims ;;
  if size sh =? size (shape t) then Ok (mkTensor sh (data t)) else Raise MXNetError.

(** *** transpose: axis [p] of the result is axis [axes[p]] of the operand *)

Fixpoint index_of (a : nat) (l : list nat) : nat :=
  match l with
  | [] => 0
  | x :: l' => if x =? a then 0 else S (index_of a l')
  end.

Definition is_permutation (axes : list nat) (n : nat) : bool :=
  (List.length axes =? n) && forallb (fun a => existsb (Nat.eqb a) axes) (seq 0 n).

Definition transpose {A} `{Default A} (t : tensor A) (axes : list nat) : result (tensor A) :=
  if is_permutation axes (rank t) then
    Ok (tabulate (map (fun a => nth a (shape t) 0) axes)
                 (fun idx => tget t (map (fun a => nth (index_of a axes) idx 0) (seq 0 (rank t)))))
  else Raise MXNetError.

(** *** expand_dims and broadcast_to *)

Definition expand_dims {A} (t : tensor A) (axis : nat) : result (tensor A) :=
  if axis <=? rank t then
    Ok (mkTensor (firstn axis (shape t) ++ 1 :: skipn axis (shape t)) (data t))
  else Raise MXNetError.

(** The index read in an operand of shape [sh] for the index [idx] of the
    broadcast result: 0 along the axes of size 1. *)
Fixpoint bcast_index (sh idx : list nat) : list nat :=
  match sh, idx with
  | d :: sh', i :: idx' => (if d =? 1 then 0 else i) :: bcast_index sh' idx'
  | _, _ => []
  end.

Fixpoint broadcast_to_shape (src : list nat) (spec : list Z) : result (list nat) :=
  match src, spec with
  | [], [] => Ok []
  | d :: src', p :: spec' =>
    let o := if (p =? 0)%Z then d else Z.to_nat p in
    if (p <? 0)%Z then Raise MXNetError
    else if (d =? o) || (d =? 1) then r <- broadcast_to_shape src' spec' ;; Ok (o :: r)
    else Raise MXNetError
  | _, _ => Raise MXNetError
  end.

Definition broadcast_to {A} `{Default A} (t : tensor A) (spec : list Z) : result (tensor A) :=
  sh <- broadcast_to_shape (shape t) spec ;;
  Ok (tabulate sh (fun idx => tget t (bcast_index (shape t) idx))).

(** *** Elementwise operators *)

(** [lhs + rhs], [lhs * rhs] on symbols: both operands have one shape. *)
Definition elemwise (f : R -> R -> R) (lhs rhs : tensor R) : result (tensor R) :=
  if shape_eqb (shape lhs) (shape rhs) then
    Ok (tabulate (shape lhs) (fun idx => f (tget lhs idx) (tget rhs idx)))
  else Raise MXNetError.

Definition _plus := elemwise Rplus.
Definition _mul := elemwise Rmult.

(** [x + c], [x * c] and [c - x] for a Python scalar [c]. *)
Definition _plus_scalar (x : tensor R) (c : R) : tensor R := tmap (fun v => v + c)%R x.
Definition _mul_scalar (x : tensor R) (c : R) : tensor R := tmap (fun v => v * c)%R x.
Definition _rminus_scalar (c : R) (x : tensor R) : tensor R := tmap (fun v => c - v)%R x.

Definition square (x : tensor R) : tensor R := tmap (fun v => v * v)%R x.
Definition rsqrt (x : tensor R) : tensor R := tmap (fun v => / sqrt v)%R x.
Definition zeros_like (x : tensor R) : tensor R := tabulate (shape x) (fun _ => 0%R).

Definition sigmoid (v : R) : R := (1 / (1 + exp (- v)))%R.
Definition relu (v : R) : R := Rmax 0 v.

Definition Activation (x : tensor R) (act_type : string) : result (tensor R) :=
  if String.eqb act_type "relu" then Ok (tmap relu x)
  else if String.eqb act_type "sigmoid" then Ok (tmap sigmoid x)
  else if String.eqb act_type "tanh" then Ok (tmap tanh x)
  else Raise MXNetError.

(** *** Broadcasting binary operators: shapes are aligned on the right *)

Definition pad_shape (n : nat) (sh : list nat) : list nat :=
  repeat 1 (n - List.length sh) ++ sh.

Fixpoint broadcast_shape (l r : list nat) : result (list nat) :=
  match l, r with
  | [], [] => Ok []
  | dl :: l', dr :: r' =>
    if dl =? dr then s <- broadcast_shape l' r' ;; Ok (dl :: s)
    else if (dl =? 0) || (dr =? 0) then s <- broadcast_shape l' r' ;; Ok (0 :: s)
    else if (dl =? 1) || (dr =? 1) then s <- broadcast_shape l' r' ;; Ok (Nat.max dl dr :: s)
    else Raise MXNetError
  | _, _ => Raise MXNetError
  end.

Definition broadcast (f : R -> R -> R) (lhs rhs : tensor R) : result (tensor R) :=
  let n := Nat.max (rank lhs) (rank rhs) in
  let sl := pad_shape n (shape lhs) in
  let sr := pad_shape n (shape rhs) in
  sh <- broadcast_shape sl sr ;;
  Ok (tabulate sh (fun idx =>
        f (tget (mkTensor sl (data lhs)) (bcast_index sl idx))
          (tget (mkTensor sr (data rhs)) (bcast_index sr idx)))).

Definition broadcast_minus := broadcast Rminus.
Definition broadcast_mul := broadcast Rmult.
Definition broadcast_add := broadcast Rplus.

(** *** mean(data, axis, keepdims=True) *)

Definition mean (x : tensor R) (axis : nat) : result (tensor R) :=
  if axis <? rank x then
    let n := nth axis (shape x) 0 in
    Ok (tabulate (tset axis 1 (shape x))
                 (fun idx => (rsum n (fun j => tget x (tset axis j idx)) / INR n)%R))
  else Raise MXNetError.

(** *** split(data, num_outputs, axis) *)

Definition split {A} `{Default A} (x : tensor A) (num_outputs : nat) (axis : nat)
  : result (list (tensor A)) :=
  let d := nth axis (shape x) 0 in
  if (axis <? rank x) && (0 <? num_outputs) && (d mod num_outputs =? 0) then
    let w := d / num_outputs in
    Ok (map (fun k => tabulate (tset axis w (shape x))
                        (fun idx => tget x (tset axis (k * w + nth axis idx 0) idx)))
            (seq 0 num_outputs))
  else Raise MXNetError.

(** *** FullyConnected(data, weight, bias, num_hidden)

    [data] is flattened to two axes; [weight] has shape (num_hidden, input). *)

Definition FullyConnected (x weight bias : tensor R) (num_hidden : Z) : result (tensor R) :=
  match shape x with
  | n :: rest =>
    let k := size rest in
    let o := Z.to_nat num_hidden in
    if (0 <? num_hidden)%Z && shape_eqb (shape weight) [o; k] && shape_eqb (shape bias) [o] then
      let x2 := mkTensor [n; k] (data x) in
      Ok (tabulate [n; o] (fun idx =>
            let i := nth 0 idx 0 in
            let j := nth 1 idx 0 in
            (rsum k (fun c => tget x2 [i; c] * tget weight [j; c]) + tget bias [j])%R))
    else Raise MXNetError
  | [] => Raise MXNetError
  end.

(** *** batch_dot(lhs, rhs, transpose_b) *)

Definition batch_dot (lhs rhs : tensor R) (transpose_b : bool) : result (tensor R) :=
  match shape lhs, shape rhs with
  | [b; m; k], [b'; r1; r2] =>
    let k' := if transpose_b then r2 else r1 in
    let n := if transpose_b then r1 else r2 in
    if (b =? b') && (k =? k') then
      Ok (tabulate [b; m; n] (fun idx =>
            let i := nth 0 idx 0 in
            let p := nth 1 idx 0 in
            let q := nth 2 idx 0 in
            rsum k (fun c => tget lhs [i; p; c] *
                             tget rhs (if transpose_b then [i; q; c] else [i; c; q]))%R))
    else Raise MXNetError
  | _, _ => Raise MXNetError
  end.

(** *** SequenceMask(data, use_sequence_length=True, sequence_length, value)

    [data] has the time axis first and the batch axis second; entries at a time
    step at or beyond the length of their batch entry are set to [value].
    Lengths hold integral values and are carried as natural numbers. *)

Definition SequenceMask (x : tensor R) (sequence_length : tensor nat) (value : R)
  : result (tensor R) :=
  match shape x with
  | _ :: b :: _ =>
    if shape_eqb (shape sequence_length) [b] then
      Ok (tabulate (shape x) (fun idx =>
            let t := nth 0 idx 0 in
            let i := nth 1 idx 0 in
            if t <? tget sequence_length [i] then tget x idx else value))
    else Raise MXNetError
  | _ => Raise MXNetError
  end.

(** *** softmax(data, axis) *)

Definition norm_axis (n : nat) (axis : Z) : result nat :=
  let a := if (axis <? 0)%Z then (Z.of_nat n + axis)%Z else axis in
  if ((0 <=? a) && (a <? Z.of_nat n))%Z then Ok (Z.to_nat a) else Raise MXNetError.

Definition softmax (x : tensor R) (axis : Z) : result (tensor R) :=
  a <- norm_axis (rank x) axis ;;
  let n := nth a (shape x) 0 in
  Ok (tabulate (shape x) (fun idx =>
        (exp (tget x idx) / rsum n (fun j => exp (tget x (tset a j idx))))%R)).

(** *** Dropout(data, p)

    The runtime draws a mask for each call; [mask] gives the factor (0 or
    1/(1-p)) it applies to each entry. *)

Definition Dropout (mask : list nat -> R) (x : tensor R) (p : R) : result (tensor R) :=
  Ok (tabulate (shape x) (fun idx => (tget x idx * mask idx)%R)).

End sym.

(** ** mx.rnn: parameter containers and the base cells *)

Module rnn.

(** RNNParams: variables created on first use, keyed by prefix + name. *)
Record RNNParams : Type := mkRNNParams {
  params_prefix : string;
  params_dict : list (string * sym.Symbol)
}.

Fixpoint lookup (name : string) (d : list (string * sym.Symbol)) : option sym.Symbol :=
  match d with
  | [] => None
  | (k, v) :: d' => if String.eqb k name then Some v else lookup name d'
  end.

Definition get (p : RNNParams) (name : string) (shape : option (list Z)) (init : option R)
  : sym.Symbol * RNNParams :=
  let name := (params_prefix p ++ name)%string in
  match lookup name (params_dict p) with
  | Some v => (v, p)
  | None =>
    let v := sym.Var name shape init in
    (v, mkRNNParams (params_prefix p) ((name, v) :: params_dict p))
  end.

(** What the constructors of LSTMCell and GRUCell set up: the four projection
    variables.  The call counter of BaseRNNCell starts at -1 (reset). *)
Record BaseCell : Type := mkBaseCell {
  _num_hidden : Z;
  _prefix : string;
  params : RNNParams;
  _iW : sym.Symbol;
  _iB : sym.Symbol;
  _hW : sym.Symbol;
  _hB : sym.Symbol
}.

Definition BaseCell_init (num_hidden : Z) (prefix : string) (params : option RNNParams)
  : BaseCell :=
  let p := match params with Some p => p | None => mkRNNParams prefix [] end in
  let '(iW, p) := get p "i2h_weight" None None in
  let '(hW, p) := get p "h2h_weight" None None in
  let '(iB, p) := get p "i2h_bias" None None in
  let '(hB, p) := get p "h2h_bias" None None in
  mkBaseCell num_hidden prefix p iW iB hW hB.

Definition LSTMCell_init (num_hidden : Z) (prefix : string) (params : option RNNParams)
  (forget_bias : R) : BaseCell :=
  BaseCell_init num_hidden prefix params.

Definition GRUCell_init (num_hidden : Z) (prefix : string) (params : option RNNParams)
  : BaseCell :=
  BaseCell_init num_hidden prefix params.

Definition reset_counter : Z := (-1)%Z.

End rnn.
End mx.

Import mx.sym.

(** ** sockeye.utils *)

Module utils.

(** Modelled from the spec: utils.check_condition is defined in sockeye/utils.py,
    which is not among the sources; the specification says that a failed
    condition is a configuration error raised at once.  It raises the one
    configuration-error kind, [SockeyeError], with the given message. *)
Definition check_condition (condition : bool) (error_message : string) : result unit :=
  if condition then Ok tt else Raise (SockeyeError error_message).

End utils.

(** Python's [%] and [//] on integers: the sign follows the divisor, as
    [Z.modulo] and [Z.div]; a zero divisor raises. *)
Definition py_mod (a b : Z) : result Z :=
  if (b =? 0)%Z then Raise ZeroDivisionError else Ok (a mod b)%Z.

Definition py_floordiv (a b : Z) : result Z :=
  if (b =? 0)%Z then Raise ZeroDivisionError else Ok (a / b)%Z.

(** [x ** -0.5] for an integer [x]: zero raises, a negative base gives a
    complex number, which no tensor operator accepts. *)
Definition py_pow_neg_half (x : Z) : result R :=
  if (x =? 0)%Z then Raise ZeroDivisionError
  else if (0 <? x)%Z then Ok (Rpower (IZR x) (- (1 / 2)))%R
  else Raise TypeError.

(** ** sockeye/layers.py *)

Module LayerNormalization.

Record t : Type := mk {
  prefix : option string;
  scale : Symbol;
  shift : Symbol
}.

Definition scale_init_default : R := 1%R.
Definition shift_init_default : R := 0%R.
Definition eps_default : R := (1 / 100000)%R.

Definition __init__ (num_hidden : Z) (prefix : option string) (scale shift : option Symbol)
  (scale_init shift_init : R) : result t :=
  _ <- utils.check_condition (1 <? num_hidden)%Z
         "Layer normalization should only be applied to layers with more than 1 neuron." ;;
  Ok (mk prefix
        (match scale with
         | Some s => s
         | None => Var (fmt_s prefix ++ "_gamma") (Some [num_hidden]) (Some scale_init)
         end)
        (match shift with
         | Some s => s
         | None => Var (fmt_s prefix ++ "_beta") (Some [num_hidden]) (Some shift_init)
         end)).

Definition moments (inputs : tensor R) : result (tensor R * tensor R) :=
  mean <- mean inputs 1 ;;
  centred <- broadcast_minus inputs mean ;;
  var <- mx.sym.mean (square centred) 1 ;;
  Ok (mean, var).

Definition normalize (a : args) (self : t) (inputs : tensor R) (eps : R) : result (tensor R) :=
  ' (mean, var) <- moments inputs ;;
  inputs_norm <- broadcast_minus inputs mean ;;
  inputs_norm <- broadcast_mul inputs_norm (rsqrt (_plus_scalar var eps)) ;;
  inputs_norm <- broadcast_mul inputs_norm (eval a (scale self)) ;;
  inputs_norm <- broadcast_add inputs_norm (eval a (shift self)) ;;
  Ok inputs_norm.

End LayerNormalization.

Definition split_heads {A} `{Default A} (x : tensor A) (length heads : Z) : result (tensor A) :=
  (* (batch, length, heads, depth_per_head) *)
  x <- reshape x [0; length; heads; -1]%Z ;;
  (* (batch, heads, length, depth/heads) *)
  x <- transpose x [0; 2; 1; 3] ;;
  (* (batch * heads, length, depth/heads) *)
  reshape x [-3; length; -1]%Z.

Definition combine_heads {A} `{Default A} (x : tensor A) (length heads : Z) : result (tensor A) :=
  (* (batch, heads, length, depth_per_head) *)
  x <- reshape x [-4; -1; heads; length; 0]%Z ;;
  (* (batch, length, heads, depth_per_head) *)
  x <- transpose x [0; 2; 1; 3] ;;
  (* (batch, length, depth) *)
  reshape x [-1; length; -3]%Z.

Definition broadcast_lengths {A} `{Default A} (x : tensor A) (heads : Z) : result (tensor A) :=
  x <- expand_dims x 1 ;;
  x <- broadcast_to x [0; heads]%Z ;;
  reshape x [-3]%Z.

Module MultiHeadAttention.

Record t : Type := mk {
  prefix : string;
  depth : Z;
  heads : Z;
  depth_out : Z;
  dropout : R;
  depth_per_head : Z;
  w_i2h : Symbol;
  b_i2h : Symbol;
  w_h2o : Symbol;
  b_h2o : Symbol
}.

Definition heads_message (heads depth_att : Z) : string :=
  "Number of heads (" ++ fmt_d heads ++ ") must divide attention depth (" ++ fmt_d depth_att ++ ")".

Definition __init__ (prefix : string) (depth_att heads depth_out : Z) (dropout : R) : result t :=
  m <- py_mod depth_att heads ;;
  _ <- utils.check_condition (m =? 0)%Z (heads_message heads depth_att) ;;
  depth_per_head <- py_floordiv depth_att heads ;;
  Ok (mk prefix depth_att heads depth_out dropout depth_per_head
        (Var (prefix ++ "i2h_weight") None None)
        (Var (prefix ++ "i2h_bias") None None)
        (Var (prefix ++ "h2o_weight") None None)
        (Var (prefix ++ "h2o_bias") None None)).

(** The value the masked logits are set to. *)
Definition mask_value : R := (- 99999999)%R.

(** Lines 167-196 of [on]: the projection, the three chunks, the scaled
    query, the heads and the logits. *)
Definition on_logits (a : args) (self : t) (inputs : tensor R) (length : Z)
  : result (tensor R * tensor R) :=
  inputs <- reshape inputs [-3; -1]%Z ;;
  combined <- FullyConnected inputs (eval a (w_i2h self)) (eval a (b_i2h self)) (depth self * 3) ;;
  combined <- reshape combined [-1; length; depth self * 3]%Z ;;
  ' (q, k, v) <- (chunks <- split combined 3 2 ;; unpack3 chunks) ;;
  c <- py_pow_neg_half (depth_per_head self) ;;
  let q := _mul_scalar q c in
  q <- split_heads q length (heads self) ;;
  k <- split_heads k length (heads self) ;;
  v <- split_heads v length (heads self) ;;
  logits <- batch_dot q k true ;;
  Ok (logits, v).

(** Lines 199-205 of [on]: the length mask along the key axis. *)
Definition on_mask (self : t) (logits : tensor R) (inputs_length : tensor nat)
  : result (tensor R) :=
  (* (masked_length, batch*heads, length) *)
  logits <- transpose logits [2; 0; 1] ;;
  sequence_length <- broadcast_lengths inputs_length (heads self) ;;
  logits <- SequenceMask logits sequence_length mask_value ;;
  (* (batch*heads, length, masked_length) *)
  transpose logits [1; 2; 0].

(** Lines 206-226 of [on]: the softmax over the key axis, the dropout, the
    contexts and the output projection. *)
Definition on_contexts (a : args) (mask : list nat -> R) (self : t)
  (logits v : tensor R) (length : Z) : result (tensor R) :=
  probs <- softmax logits (-1) ;;
  probs <- (if Rgt_dec (dropout self) 0 then Dropout mask probs (dropout self) else Ok probs) ;;
  contexts <- batch_dot probs v false ;;
  contexts <- combine_heads contexts length (heads self) ;;
  if (depth_out self =? depth self)%Z then Ok contexts
  else
    contexts <- reshape contexts [-3; -1]%Z ;;
    contexts <- FullyConnected contexts (eval a (w_h2o self)) (eval a (b_h2o self)) (depth_out self) ;;
    reshape contexts [-1; length; depth_out self]%Z.

Definition on (a : args) (mask : list nat -> R) (self : t)
  (inputs : tensor R) (inputs_length : tensor nat) (length : Z) : result (tensor R) :=
  ' (logits, v) <- on_logits a self inputs length ;;
  logits <- on_mask self logits inputs_length ;;
  on_contexts a mask self logits v length.

End MultiHeadAttention.

Module FFNRelu.

Record t : Type := mk {
  prefix : string;
  num_hidden : Z;
  num_model : Z;
  dropout : R;
  w_i2h : Symbol;
  b_i2h : Symbol;
  w_h2o : Symbol;
  b_h2o : Symbol
}.

Definition __init__ (prefix : string) (num_hidden num_model : Z) (dropout : R) : t :=
  mk prefix num_hidden num_model dropout
     (Var (prefix ++ "i2h_weight") None None)
     (Var (prefix ++ "i2h_bias") None None)
     (Var (prefix ++ "h2o_weight") None None)
     (Var (prefix ++ "h2o_bias") None None).

Definition apply (a : args) (mask : list nat -> R) (self : t) (x : tensor R) (length : Z)
  : result (tensor R) :=
  x <- reshape x [-3; -1]%Z ;;
  h <- FullyConnected x (eval a (w_i2h self)) (eval a (b_i2h self)) (num_hidden self) ;;
  h <- Activation h "relu" ;;
  h <- (if Rgt_dec (dropout self) 0 then Dropout mask h (dropout self) else Ok h) ;;
  y <- FullyConnected h (eval a (w_h2o self)) (eval a (b_h2o self)) (num_model self) ;;
  reshape y [-1; length; num_model self]%Z.

End FFNRelu.

(** ** sockeye/rnn.py *)

(** The cell-type identifiers of sockeye/constants.py, which is not among the
    sources: they are taken as a parameter of the stack builder. *)
Record constants : Type := mkConstants {
  LSTM_TYPE : string;
  LNLSTM_TYPE : string;
  LNGLSTM_TYPE : string;
  GRU_TYPE : string;
  LNGRU_TYPE : string;
  LNGGRU_TYPE : string
}.

Record RNNConfig : Type := mkRNNConfig {
  cell_type : string;
  num_hidden : Z;
  num_layers : Z;
  dropout : R;
  residual : bool;
  forget_bias : R
}.

(** The per-instance state a call reads and writes: the call counter of
    BaseRNNCell and the placeholder of the across-gates cells. *)
Record cell_state : Type := mkCellState {
  _counter : Z;
  _shape_fix : option (tensor R)
}.

Definition fresh_state : cell_state := mkCellState mx.rnn.reset_counter None.

Definition norm_scale_default : R := 1%R.
Definition norm_shift_default : R := 0%R.
Definition forget_bias_default : R := 1%R.

Definition get_constant (p : mx.rnn.RNNParams) (name : string) (n : Z) (value : R)
  : Symbol * mx.rnn.RNNParams :=
  mx.rnn.get p name (Some [n]) (Some value).

Definition with_params (b : mx.rnn.BaseCell) (p : mx.rnn.RNNParams) : mx.rnn.BaseCell :=
  mx.rnn.mkBaseCell (mx.rnn._num_hidden b) (mx.rnn._prefix b) p
    (mx.rnn._iW b) (mx.rnn._iB b) (mx.rnn._hW b) (mx.rnn._hB b).

Module LayerNormLSTMCell.

Record t : Type := mk {
  base : mx.rnn.BaseCell;
  _iN : LayerNormalization.t;
  _hN : LayerNormalization.t;
  _cN : LayerNormalization.t
}.

Definition __init__ (num_hidden : Z) (prefix : string) (params : option mx.rnn.RNNParams)
  (forget_bias norm_scale norm_shift : R) : result t :=
  let b := mx.rnn.LSTMCell_init num_hidden prefix params forget_bias in
  let p := mx.rnn.params b in
  let '(i_scale, p) := get_constant p "i2h_scale" (num_hidden * 4) norm_scale in
  let '(i_shift, p) := get_constant p "i2h_shift" (num_hidden * 4) norm_shift in
  iN <- LayerNormalization.__init__ (num_hidden * 4) (Some (prefix ++ "i2h")%string)
          (Some i_scale) (Some i_shift)
          LayerNormalization.scale_init_default LayerNormalization.shift_init_default ;;
  let '(h_scale, p) := get_constant p "h2h_scale" (num_hidden * 4) norm_scale in
  let '(h_shift, p) := get_constant p "h2h_shift" (num_hidden * 4) norm_shift in
  hN <- LayerNormalization.__init__ (num_hidden * 4) (Some (prefix ++ "h2h")%string)
          (Some h_scale) (Some h_shift)
          LayerNormalization.scale_init_default LayerNormalization.shift_init_default ;;
  let '(c_scale, p) := get_constant p "c_scale" num_hidden norm_scale in
  let '(c_shift, p) := get_constant p "c_shift" num_hidden norm_shift in
  cN <- LayerNormalization.__init__ num_hidden (Some (prefix ++ "c")%string)
          (Some c_scale) (Some c_shift)
          LayerNormalization.scale_init_default LayerNormalization.shift_init_default ;;
  Ok (mk (with_params b p) iN hN cN).

Definition __call__ (a : args) (self : t) (st : cell_state)
  (inputs : tensor R) (states : list (tensor R))
  : result (tensor R * list (tensor R) * cell_state) :=
  let b := base self in
  let counter := (_counter st + 1)%Z in
  i2h <- FullyConnected inputs (eval a (mx.rnn._iW b)) (eval a (mx.rnn._iB b))
           (mx.rnn._num_hidden b * 4) ;;
  shape_fix <- (if (counter =? 0)%Z then Ok (zeros_like i2h)
                else match _shape_fix st with
                     | Some z => Ok z
                     | None => Raise AssertionError
                     end) ;;
  h_prev <- getitem states 0 ;;
  h2h <- FullyConnected h_prev (eval a (mx.rnn._hW b)) (eval a (mx.rnn._hB b))
           (mx.rnn._num_hidden b * 4) ;;
  i2h_n <- LayerNormalization.normalize a (_iN self) i2h LayerNormalization.eps_default ;;
  h2h_fixed <- _plus shape_fix h2h ;;
  h2h_n <- LayerNormalization.normalize a (_hN self) h2h_fixed LayerNormalization.eps_default ;;
  gates <- _plus i2h_n h2h_n ;;
  ' (in_gate, forget_gate, in_transform, out_gate) <-
      (chunks <- split gates 4 1 ;; unpack4 chunks) ;;
  in_gate <- Activation in_gate "sigmoid" ;;
  forget_gate <- Activation forget_gate "sigmoid" ;;
  in_transform <- Activation in_transform "tanh" ;;
  out_gate <- Activation out_gate "sigmoid" ;;
  c_prev <- getitem states 1 ;;
  kept <- _mul forget_gate c_prev ;;
  written <- _mul in_gate in_transform ;;
  next_c <- _plus kept written ;;
  c_n <- LayerNormalization.normalize a (_cN self) next_c LayerNormalization.eps_default ;;
  c_act <- Activation c_n "tanh" ;;
  next_h <- _mul out_gate c_act ;;
  Ok (next_h, [next_h; next_c], mkCellState counter (Some shape_fix)).

End LayerNormLSTMCell.

Module LayerNormPerGateLSTMCell.

Record t : Type := mk {
  base : mx.rnn.BaseCell;
  _norm_layers : list LayerNormalization.t
}.

(** The loop of the constructor over the gate names. *)
Fixpoint norm_layers_loop (names : list string) (num_hidden : Z) (prefix : string)
  (forget_bias norm_scale norm_shift : R)
  (p : mx.rnn.RNNParams) (layers : list LayerNormalization.t)
  : result (mx.rnn.RNNParams * list LayerNormalization.t) :=
  match names with
  | [] => Ok (p, layers)
  | name :: names' =>
    let '(scale, p) := get_constant p (name ++ "_shift") num_hidden norm_shift in
    let '(shift, p) := get_constant p (name ++ "_scale") num_hidden
                         (if negb (String.eqb name "f") then norm_scale else forget_bias) in
    layer <- LayerNormalization.__init__ num_hidden (Some (prefix ++ name)%string)
               (Some scale) (Some shift)
               LayerNormalization.scale_init_default LayerNormalization.shift_init_default ;;
    norm_layers_loop names' num_hidden prefix forget_bias norm_scale norm_shift
      p (layers ++ [layer])
  end.

Definition __init__ (num_hidden : Z) (prefix : string) (params : option mx.rnn.RNNParams)
  (forget_bias norm_scale norm_shift : R) : result t :=
  let b := mx.rnn.LSTMCell_init num_hidden prefix params forget_bias in
  ' (p, layers) <- norm_layers_loop ["i"; "f"; "c"; "o"; "s"]%string num_hidden prefix
                     forget_bias norm_scale norm_shift (mx.rnn.params b) [] ;;
  Ok (mk (with_params b p) layers).

Definition __call__ (a : args) (self : t) (_counter : Z)
  (inputs : tensor R) (states : list (tensor R))
  : result (tensor R * list (tensor R) * Z) :=
  let b := base self in
  let counter := (_counter + 1)%Z in
  i2h <- FullyConnected inputs (eval a (mx.rnn._iW b)) (eval a (mx.rnn._iB b))
           (mx.rnn._num_hidden b * 4) ;;
  h_prev <- getitem states 0 ;;
  h2h <- FullyConnected h_prev (eval a (mx.rnn._hW b)) (eval a (mx.rnn._hB b))
           (mx.rnn._num_hidden b * 4) ;;
  gates <- _plus i2h h2h ;;
  ' (in_gate, forget_gate, in_transform, out_gate) <-
      (chunks <- split gates 4 1 ;; unpack4 chunks) ;;
  n0 <- getitem (_norm_layers self) 0 ;;
  in_gate <- LayerNormalization.normalize a n0 in_gate LayerNormalization.eps_default ;;
  n1 <- getitem (_norm_layers self) 1 ;;
  forget_gate <- LayerNormalization.normalize a n1 forget_gate LayerNormalization.eps_default ;;
  n2 <- getitem (_norm_layers self) 2 ;;
  in_transform <- LayerNormalization.normalize a n2 in_transform LayerNormalization.eps_default ;;
  n3 <- getitem (_norm_layers self) 3 ;;
  out_gate <- LayerNormalization.normalize a n3 out_gate LayerNormalization.eps_default ;;
  in_gate <- Activation in_gate "sigmoid" ;;
  forget_gate <- Activation forget_gate "sigmoid" ;;
  in_transform <- Activation in_transform "tanh" ;;
  out_gate <- Activation out_gate "sigmoid" ;;
  c_prev <- getitem states 1 ;;
  kept <- _mul forget_gate c_prev ;;
  written <- _mul in_gate in_transform ;;
  next_c <- _plus kept written ;;
  n4 <- getitem (_norm_layers self) 4 ;;
  c_n <- LayerNormalization.normalize a n4 next_c LayerNormalization.eps_default ;;
  c_act <- Activation c_n "tanh" ;;
  next_h <- _mul out_gate c_act ;;
  Ok (next_h, [next_h; next_c], counter).

End LayerNormPerGateLSTMCell.

Module LayerNormGRUCell.

Record t : Type := mk {
  base : mx.rnn.BaseCell;
  _iN : LayerNormalization.t;
  _hN : LayerNormalization.t
}.

Definition __init__ (num_hidden : Z) (prefix : string) (params : option mx.rnn.RNNParams)
  (norm_scale norm_shift : R) : result t :=
  let b := mx.rnn.GRUCell_init num_hidden prefix params in
  let p := mx.rnn.params b in
  let '(i_scale, p) := get_constant p "i2h_scale" (num_hidden * 3) norm_scale in
  let '(i_shift, p) := get_constant p "i2h_shift" (num_hidden * 3) norm_shift in
  iN <- LayerNormalization.__init__ (num_hidden * 3) (Some (prefix ++ "i2h")%string)
          (Some i_scale) (Some i_shift)
          LayerNormalization.scale_init_default LayerNormalization.shift_init_default ;;
  let '(h_scale, p) := get_constant p "h2h_scale" (num_hidden * 3) norm_scale in
  let '(h_shift, p) := get_constant p "h2h_shift" (num_hidden * 3) norm_shift in
  hN <- LayerNormalization.__init__ (num_hidden * 3) (Some (prefix ++ "h2h")%string)
          (Some h_scale) (Some h_shift)
          LayerNormalization.scale_init_default LayerNormalization.shift_init_default ;;
  Ok (mk (with_params b p) iN hN).

Definition __call__ (a : args) (self : t) (st : cell_state)
  (inputs : tensor R) (states : list (tensor R))
  : result (tensor R * list (tensor R) * cell_state) :=
  let b := base self in
  let counter := (_counter st + 1)%Z in
  prev_state_h <- getitem states 0 ;;
  i2h <- FullyConnected inputs (eval a (mx.rnn._iW b)) (eval a (mx.rnn._iB b))
           (mx.rnn._num_hidden b * 3) ;;
  h2h <- FullyConnected prev_state_h (eval a (mx.rnn._hW b)) (eval a (mx.rnn._hB b))
           (mx.rnn._num_hidden b * 3) ;;
  shape_fix <- (if (counter =? 0)%Z then Ok (zeros_like i2h)
                else match _shape_fix st with
                     | Some z => Ok z
                     | None => Raise AssertionError
                     end) ;;
  i2h <- LayerNormalization.normalize a (_iN self) i2h LayerNormalization.eps_default ;;
  h2h_fixed <- _plus shape_fix h2h ;;
  h2h <- LayerNormalization.normalize a (_hN self) h2h_fixed LayerNormalization.eps_default ;;
  ' (i2h_r, i2h_z, i2h) <- (chunks <- split i2h 3 1 ;; unpack3 chunks) ;;
  ' (h2h_r, h2h_z, h2h) <- (chunks <- split h2h 3 1 ;; unpack3 chunks) ;;
  r_sum <- _plus i2h_r h2h_r ;;
  reset_gate <- Activation r_sum "sigmoid" ;;
  z_sum <- _plus i2h_z h2h_z ;;
  update_gate <- Activation z_sum "sigmoid" ;;
  gated <- _mul reset_gate h2h ;;
  h_sum <- _plus i2h gated ;;
  next_h_tmp <- Activation h_sum "tanh" ;;
  fresh <- _mul (_rminus_scalar 1 update_gate) next_h_tmp ;;
  kept <- _mul update_gate prev_state_h ;;
  next_h <- _plus fresh kept ;;
  Ok (next_h, [next_h], mkCellState counter (Some shape_fix)).

End LayerNormGRUCell.

Module LayerNormPerGateGRUCell.

Record t : Type := mk {
  base : mx.rnn.BaseCell;
  _norm_layers : list LayerNormalization.t
}.

Fixpoint norm_layers_loop (names : list string) (num_hidden : Z) (prefix : string)
  (norm_scale norm_shift : R)
  (p : mx.rnn.RNNParams) (layers : list LayerNormalization.t)
  : result (mx.rnn.RNNParams * list LayerNormalization.t) :=
  match names with
  | [] => Ok (p, layers)
  | name :: names' =>
    let '(scale, p) := get_constant p (name ++ "_shift") num_hidden norm_shift in
    let '(shift, p) := get_constant p (name ++ "_scale") num_hidden norm_scale in
    layer <- LayerNormalization.__init__ num_hidden (Some (prefix ++ name)%string)
               (Some scale) (Some shift)
               LayerNormalization.scale_init_default LayerNormalization.shift_init_default ;;
    norm_layers_loop names' num_hidden prefix norm_scale norm_shift p (layers ++ [layer])
  end.

Definition __init__ (num_hidden : Z) (prefix : string) (params : option mx.rnn.RNNParams)
  (norm_scale norm_shift : R) : result t :=
  let b := mx.rnn.GRUCell_init num_hidden prefix params in
  ' (p, layers) <- norm_layers_loop ["r"; "z"; "o"]%string num_hidden prefix
                     norm_scale norm_shift (mx.rnn.params b) [] ;;
  Ok (mk (with_params b p) layers).

Definition __call__ (a : args) (self : t) (_counter : Z)
  (inputs : tensor R) (states : list (tensor R))
  : result (tensor R * list (tensor R) * Z) :=
  let b := base self in
  let counter := (_counter + 1)%Z in
  prev_state_h <- getitem states 0 ;;
  i2h <- FullyConnected inputs (eval a (mx.rnn._iW b)) (eval a (mx.rnn._iB b))
           (mx.rnn._num_hidden b * 3) ;;
  h2h <- FullyConnected prev_state_h (eval a (mx.rnn._hW b)) (eval a (mx.rnn._hB b))
           (mx.rnn._num_hidden b * 3) ;;
  ' (i2h_r, i2h_z, i2h) <- (chunks <- split i2h 3 1 ;; unpack3 chunks) ;;
  ' (h2h_r, h2h_z, h2h) <- (chunks <- split h2h 3 1 ;; unpack3 chunks) ;;
  n0 <- getitem (_norm_layers self) 0 ;;
  r_sum <- _plus i2h_r h2h_r ;;
  r_n <- LayerNormalization.normalize a n0 r_sum LayerNormalization.eps_default ;;
  reset_gate <- Activation r_n "sigmoid" ;;
  n1 <- getitem (_norm_layers self) 1 ;;
  z_sum <- _plus i2h_z h2h_z ;;
  z_n <- LayerNormalization.normalize a n1 z_sum LayerNormalization.eps_default ;;
  update_gate <- Activation z_n "sigmoid" ;;
  n2 <- getitem (_norm_layers self) 2 ;;
  gated <- _mul reset_gate h2h ;;
  h_sum <- _plus i2h gated ;;
  h_n <- LayerNormalization.normalize a n2 h_sum LayerNormalization.eps_default ;;
  next_h_tmp <- Activation h_n "tanh" ;;
  fresh <- _mul (_rminus_scalar 1 update_gate) next_h_tmp ;;
  kept <- _mul update_gate prev_state_h ;;
  next_h <- _plus fresh kept ;;
  Ok (next_h, [next_h], counter).

End LayerNormPerGateGRUCell.

(** *** The stack builder *)

Inductive cell : Type :=
| LSTMCell (c : mx.rnn.BaseCell) (forget_bias : R)
| GRUCell (c : mx.rnn.BaseCell)
| LNLSTMCell (c : LayerNormLSTMCell.t)
| LNGLSTMCell (c : LayerNormPerGateLSTMCell.t)
| LNGRUCell (c : LayerNormGRUCell.t)
| LNGGRUCell (c : LayerNormPerGateGRUCell.t)
| ResidualCell (c : cell)
| DropoutCell (dropout : R) (prefix : string).

(** mx.rnn.SequentialRNNCell: the cells in the order they were added. *)
Definition SequentialRNNCell : Type := list cell.

Definition range (n : Z) : list Z := map Z.of_nat (seq 0 (Z.to_nat n)).

(** The body of the loop of [get_stacked_rnn], for one layer. *)
Definition get_stacked_rnn_layer (C : constants) (config : RNNConfig) (prefix : string)
  (rnn : SequentialRNNCell) (layer : Z) : result SequentialRNNCell :=
  let cell_prefix := (prefix ++ "l" ++ fmt_d layer ++ "_")%string in
  c <- (if String.eqb (cell_type config) (LSTM_TYPE C) then
          Ok (LSTMCell (mx.rnn.LSTMCell_init (num_hidden config) cell_prefix None
                          (forget_bias config)) (forget_bias config))
        else if String.eqb (cell_type config) (LNLSTM_TYPE C) then
          c <- LayerNormLSTMCell.__init__ (num_hidden config) cell_prefix None
                 (forget_bias config) norm_scale_default norm_shift_default ;;
          Ok (LNLSTMCell c)
        else if String.eqb (cell_type config) (LNGLSTM_TYPE C) then
          c <- LayerNormPerGateLSTMCell.__init__ (num_hidden config) cell_prefix None
                 (forget_bias config) norm_scale_default norm_shift_default ;;
          Ok (LNGLSTMCell c)
        else if String.eqb (cell_type config) (GRU_TYPE C) then
          Ok (GRUCell (mx.rnn.GRUCell_init (num_hidden config) cell_prefix None))
        else if String.eqb (cell_type config) (LNGRU_TYPE C) then
          c <- LayerNormGRUCell.__init__ (num_hidden config) cell_prefix None
                 norm_scale_default norm_shift_default ;;
          Ok (LNGRUCell c)
        else if String.eqb (cell_type config) (LNGGRU_TYPE C) then
          c <- LayerNormPerGateGRUCell.__init__ (num_hidden config) cell_prefix None
                 norm_scale_default norm_shift_default ;;
          Ok (LNGGRUCell c)
        else Raise NotImplementedError) ;;
  let c := if residual config && (0 <? layer)%Z then ResidualCell c else c in
  let rnn := rnn ++ [c] in
  if Rgt_dec (dropout config) 0 then
    Ok (rnn ++ [DropoutCell (dropout config) (cell_prefix ++ "_dropout")%string])
  else Ok rnn.

Fixpoint for_each {S X} (body : S -> X -> result S) (xs : list X) (s : S) : result S :=
  match xs with
  | [] => Ok s
  | x :: xs' => s' <- body s x ;; for_each body xs' s'
  end.

Definition get_stacked_rnn (C : constants) (config : RNNConfig) (prefix : string)
  : result SequentialRNNCell :=
  for_each (get_stacked_rnn_layer C config prefix) (range (num_layers config)) [].

(** ** Closed forms and specification-level definitions *)

(** The tensor [split_heads] returns for an operand of shape
    (b, L, h * d): entry (i, j, l, c) of the intermediate
    (b, h, L, d) tensor is entry (i, l, j, c) of the operand read as
    (b, L, h, d). *)
Definition heads_split {A} `{Default A} (b L h d : nat) (x : tensor A) : tensor A :=
  mkTensor [b * h; L; d]
    (data (tabulate [b; h; L; d]
       (fun idx => tget (mkTensor [b; L; h; d] (data x))
                     [nth 0 idx 0; nth 2 idx 0; nth 1 idx 0; nth 3 idx 0]))).

(** ** Concrete inputs *)

Definition example_tensor : tensor nat := mkTensor [1; 2; 4] [1; 2; 3; 4; 5; 6; 7; 8].

(** The identifiers of sockeye/constants.py as released. *)
Definition sockeye_constants : constants :=
  mkConstants "lstm" "lnlstm" "lnglstm" "gru" "lngru" "lnggru".

Definition known_cell_type (C : constants) (name : string) : bool :=
  String.eqb name (LSTM_TYPE C) || String.eqb name (LNLSTM_TYPE C) ||
  String.eqb name (LNGLSTM_TYPE C) || String.eqb name (GRU_TYPE C) ||
  String.eqb name (LNGRU_TYPE C) || String.eqb name (LNGGRU_TYPE C).

Definition unknown_config (layers : Z) : RNNConfig :=
  mkRNNConfig "transformer" 8 layers 0 false 0.

(** An attention unit with two heads over depth 4, and inputs for one
    sequence of length 2, of which the first position is valid. *)
Definition example_attention : MultiHeadAttention.t :=
  MultiHeadAttention.mk "att_" 4 2 4 0 2
    (Var "att_i2h_weight" None None) (Var "att_i2h_bias" None None)
    (Var "att_h2o_weight" None None) (Var "att_h2o_bias" None None).

Definition example_args : args :=
  fun name =>
    if String.eqb name "att_i2h_weight" then full [12; 4] 1%R
    else if String.eqb name "att_i2h_bias" then full [12] 0%R
    else full [1] 0%R.

Definition example_inputs : tensor R := full [1; 2; 4] 1%R.
Definition example_logits : tensor R := full [2; 2; 2] 0%R.
Definition example_lengths : tensor nat := mkTensor [1] [1].

(** *** Layer normalisation, in the words of the specification *)

(** The mean of a row of [H] entries. *)
Definition row_mean (H : nat) (row : nat -> R) : R := (rsum H row / INR H)%R.

(** Its variance: the mean of the squared deviations from the mean. *)
Definition row_var (H : nat) (row : nat -> R) : R :=
  (rsum H (fun j => (row j - row_mean H row) * (row j - row_mean H row)) / INR H)%R.

(** scale * (x - mean) / sqrt(var + eps) + shift, entry [j] of the row. *)
Definition layer_norm (H : nat) (scale shift : nat -> R) (eps : R) (row : nat -> R) (j : nat)
  : R :=
  (scale j * (row j - row_mean H row) / sqrt (row_var H row + eps) + shift j)%R.

(** The parameters of a normalisation unit, as functions of the position. *)
Definition scale_at (a : args) (ln : LayerNormalization.t) (j : nat) : R :=
  tget (eval a (LayerNormalization.scale ln)) [j].

Definition shift_at (a : args) (ln : LayerNormalization.t) (j : nat) : R :=
  tget (eval a (LayerNormalization.shift ln)) [j].

(** Row [i] of a (batch, hidden) tensor. *)
Definition row (t : tensor R) (i : nat) : nat -> R := fun j => tget t [i; j].

(** Linear(x): the projection of a row of [n] entries by the weight matrix
    and the bias bound to two variables. *)
Definition linear (a : args) (W b : Symbol) (n : nat) (x : nat -> R) (j : nat) : R :=
  (rsum n (fun c => x c * tget (eval a W) [j; c]) + tget (eval a b) [j])%R.

(** norm(row), for a normalisation unit over [n] entries. *)
Definition unit_norm (a : args) (ln : LayerNormalization.t) (n : nat) (x : nat -> R) : nat -> R :=
  layer_norm n (scale_at a ln) (shift_at a ln) LayerNormalization.eps_default x.

(** The state of a cell is ready for a call on projections of shape [sh]
    when the next call is the first one (the counter is at its reset value),
    or the placeholder of the first call, zeros of that shape, is stored. *)
Definition placeholder_ready (st : cell_state) (sh : list nat) : Prop :=
  _counter st = mx.rnn.reset_counter \/ _shape_fix st = Some (full sh 0%R).

(** What a call returns, without the state it leaves in the cell. *)
Definition outputs {X S T} (r : result (X * S * T)) : result (X * S) :=
  match r with
  | Ok (o, s, _) => Ok (o, s)
  | Raise e => Raise e
  end.

(** *** The across-gates LSTM step, in the words of the specification *)

Section LSTMSpec.

Variable a : args.
Variable self : LayerNormLSTMCell.t.
Variables I H : nat.
Variables x h_prev c_prev : nat -> R.

Definition lstm_gatesRaw (j : nat) : R :=
  (unit_norm a (LayerNormLSTMCell._iN self) (H * 4)
     (linear a (mx.rnn._iW (LayerNormLSTMCell.base self))
        (mx.rnn._iB (LayerNormLSTMCell.base self)) I x) j +
   unit_norm a (LayerNormLSTMCell._hN self) (H * 4)
     (linear a (mx.rnn._hW (LayerNormLSTMCell.base self))
        (mx.rnn._hB (LayerNormLSTMCell.base self)) H h_prev) j)%R.

Definition lstm_inGate (j : nat) : R := sigmoid (lstm_gatesRaw j).
Definition lstm_forgetGate (j : nat) : R := sigmoid (lstm_gatesRaw (H + j)).
Definition lstm_candidate (j : nat) : R := tanh (lstm_gatesRaw (2 * H + j)).
Definition lstm_outGate (j : nat) : R := sigmoid (lstm_gatesRaw (3 * H + j)).

Definition lstm_c (j : nat) : R :=
  (lstm_forgetGate j * c_prev j + lstm_inGate j * lstm_candidate j)%R.

Definition lstm_h (j : nat) : R :=
  (lstm_outGate j * tanh (unit_norm a (LayerNormLSTMCell._cN self) H lstm_c j))%R.

End LSTMSpec.

(** *** The across-gates GRU step, in the words of the specification *)

Section GRUSpec.

Variable a : args.
Variable self : LayerNormGRUCell.t.
Variables I H : nat.
Variables x h_prev : nat -> R.

Definition gru_i2h : nat -> R :=
  unit_norm a (LayerNormGRUCell._iN self) (H * 3)
    (linear a (mx.rnn._iW (LayerNormGRUCell.base self))
       (mx.rnn._iB (LayerNormGRUCell.base self)) I x).

Definition gru_h2h : nat -> R :=
  unit_norm a (LayerNormGRUCell._hN self) (H * 3)
    (linear a (mx.rnn._hW (LayerNormGRUCell.base self))
       (mx.rnn._hB (LayerNormGRUCell.base self)) H h_prev).

Definition gru_resetGate (j : nat) : R := sigmoid (gru_i2h j + gru_h2h j).
Definition gru_updateGate (j : nat) : R := sigmoid (gru_i2h (H + j) + gru_h2h (H + j)).
Definition gru_candidate (j : nat) : R :=
  tanh (gru_i2h (2 * H + j) + gru_resetGate j * gru_h2h (2 * H + j)).

Definition gru_h (j : nat) : R :=
  ((1 - gru_updateGate j) * gru_candidate j + gru_updateGate j * h_prev j)%R.

End GRUSpec.

(** The arguments bound to the variables of an across-gates LSTM cell with
    [H] hidden units and inputs of [I] entries have the shapes the cell
    declares. *)
Definition lstm_shapes (a : args) (self : LayerNormLSTMCell.t) (I H : nat) : Prop :=
  let b := LayerNormLSTMCell.base self in
  mx.rnn._num_hidden b = Z.of_nat H /\
  shape (eval a (mx.rnn._iW b)) = [H * 4; I] /\
  shape (eval a (mx.rnn._iB b)) = [H * 4] /\
  shape (eval a (mx.rnn._hW b)) = [H * 4; H] /\
  shape (eval a (mx.rnn._hB b)) = [H * 4] /\
  shape (eval a (LayerNormalization.scale (LayerNormLSTMCell._iN self))) = [H * 4] /\
  shape (eval a (LayerNormalization.shift (LayerNormLSTMCell._iN self))) = [H * 4] /\
  shape (eval a (LayerNormalization.scale (LayerNormLSTMCell._hN self))) = [H * 4] /\
  shape (eval a (LayerNormalization.shift (LayerNormLSTMCell._hN self))) = [H * 4] /\
  shape (eval a (LayerNormalization.scale (LayerNormLSTMCell._cN self))) = [H] /\
  shape (eval a (LayerNormalization.shift (LayerNormLSTMCell._cN self))) = [H].

Definition gru_shapes (a : args) (self : LayerNormGRUCell.t) (I H : nat) : Prop :=
  let b := LayerNormGRUCell.base self in
  mx.rnn._num_hidden b = Z.of_nat H /\
  shape (eval a (mx.rnn._iW b)) = [H * 3; I] /\
  shape (eval a (mx.rnn._iB b)) = [H * 3] /\
  shape (eval a (mx.rnn._hW b)) = [H * 3; H] /\
  shape (eval a (mx.rnn._hB b)) = [H * 3] /\
  shape (eval a (LayerNormalization.scale (LayerNormGRUCell._iN self))) = [H * 3] /\
  shape (eval a (LayerNormalization.shift (LayerNormGRUCell._iN self))) = [H * 3] /\
  shape (eval a (LayerNormalization.scale (LayerNormGRUCell._hN self))) = [H * 3] /\
  shape (eval a (LayerNormalization.shift (LayerNormGRUCell._hN self))) = [H * 3].

(** The recurrences on whole (batch, hidden) tensors: the output and the new
    state of a step, with no placeholder. *)
Definition lstm_step (a : args) (self : LayerNormLSTMCell.t) (B I H : nat)
  (x h_prev c_prev : tensor R) : tensor R * list (tensor R) :=
  let c := tabulate [B; H] (fun idx =>
             lstm_c a self I H (row x (nth 0 idx 0)) (row h_prev (nth 0 idx 0))
               (row c_prev (nth 0 idx 0)) (nth 1 idx 0)) in
  let h := tabulate [B; H] (fun idx =>
             lstm_h a self I H (row x (nth 0 idx 0)) (row h_prev (nth 0 idx 0))
               (row c_prev (nth 0 idx 0)) (nth 1 idx 0)) in
  (h, [h; c]).

Definition gru_step (a : args) (self : LayerNormGRUCell.t) (B I H : nat)
  (x h_prev : tensor R) : tensor R * list (tensor R) :=
  let h := tabulate [B; H] (fun idx =>
             gru_h a self I H (row x (nth 0 idx 0)) (row h_prev (nth 0 idx 0))
               (nth 1 idx 0)) in
  (h, [h]).

(** ** Concrete cells: two hidden units, inputs of one entry, one sequence *)

Definition example_ln (prefix : string) (n : Z) : LayerNormalization.t :=
  LayerNormalization.mk (Some prefix)
    (Var (prefix ++ "_scale") (Some [n]) (Some 1%R))
    (Var (prefix ++ "_shift") (Some [n]) (Some 0%R)).

Definition example_base (prefix : string) : mx.rnn.BaseCell :=
  mx.rnn.BaseCell_init 2 prefix None.

Definition example_lstm : LayerNormLSTMCell.t :=
  LayerNormLSTMCell.mk (example_base "lnlstm_")
    (example_ln "lnlstm_i2h" 8) (example_ln "lnlstm_h2h" 8) (example_ln "lnlstm_c" 2).

Definition example_gru : LayerNormGRUCell.t :=
  LayerNormGRUCell.mk (example_base "lngru_")
    (example_ln "lngru_i2h" 6) (example_ln "lngru_h2h" 6).

(** Arguments for a cell whose projections have [n] outputs: every
    variable is bound to ones of its shape. *)
Definition example_cell_args (prefix : string) (n : nat) : args :=
  fun name =>
    if String.eqb name (prefix ++ "i2h_weight") then full [n; 1] 1%R
    else if String.eqb name (prefix ++ "h2h_weight") then full [n; 2] 1%R
    else if String.eqb name (prefix ++ "c_scale") then full [2] 1%R
    else if String.eqb name (prefix ++ "c_shift") then full [2] 1%R
    else full [n] 1%R.

Definition example_x : tensor R := full [1; 1] 1%R.
Definition example_h : tensor R := full [1; 2] 0%R.

Definition example_norm_args : args := fun _ => full [2] 1%R.

Definition is_dropout (c : cell) : bool :=
  match c with
  | DropoutCell _ _ => true
  | _ => false
  end.

Definition example_ffn : FFNRelu.t := FFNRelu.__init__ "ffn_" 4 2 0.

(** ** Shapes of the per-gate cells *)

(** A normalisation unit over [H] entries: its scale and its shift are bound
    to vectors of [H] entries. *)
Definition unit_shapes (a : args) (H : nat) (ln : LayerNormalization.t) : Prop :=
  shape (eval a (LayerNormalization.scale ln)) = [H] /\
  shape (eval a (LayerNormalization.shift ln)) = [H].

(** The projections of a base cell with [k] gates of [H] units each. *)
Definition base_shapes (a : args) (b : mx.rnn.BaseCell) (k I H : nat) : Prop :=
  mx.rnn._num_hidden b = Z.of_nat H /\
  shape (eval a (mx.rnn._iW b)) = [H * k; I] /\
  shape (eval a (mx.rnn._iB b)) = [H * k] /\
  shape (eval a (mx.rnn._hW b)) = [H * k; H] /\
  shape (eval a (mx.rnn._hB b)) = [H * k].

(** ** Concrete per-gate cells *)

Definition example_units (prefix : string) (names : list string) : list LayerNormalization.t :=
  map (fun n => example_ln (prefix ++ n) 2) names.

Definition example_pg_lstm : LayerNormPerGateLSTMCell.t :=
  LayerNormPerGateLSTMCell.mk (example_base "lnglstm_")
    (example_units "lnglstm_" ["i"; "f"; "c"; "o"; "s"]%string).

Definition example_pg_gru : LayerNormPerGateGRUCell.t :=
  LayerNormPerGateGRUCell.mk (example_base "lnggru_")
    (example_units "lnggru_" ["r"; "z"; "o"]%string).

(** Arguments for a per-gate cell whose projections have [n] outputs: the
    weights and biases are ones of their shape, the unit parameters ones of
    two entries. *)
Definition example_pg_args (prefix : string) (n : nat) : args :=
  fun name =>
    if String.eqb name (prefix ++ "i2h_weight") then full [n; 1] 1%R
    else if String.eqb name (prefix ++ "h2h_weight") then full [n; 2] 1%R
    else if String.eqb name (prefix ++ "i2h_bias") then full [n] 1%R
    else if String.eqb name (prefix ++ "h2h_bias") then full [n] 1%R
    else full [2] 1%R.

(** ** Closed forms for the heads *)

(** The tensor [combine_heads] returns for an operand of shape
    (b * h, L, d): entry (i, l, j, c) of the intermediate (b, L, h, d) tensor
    is entry (i, j, l, c) of the operand read as (b, h, L, d). *)
Definition heads_combined {A} `{Default A} (b L h d : nat) (y : tensor A) : tensor A :=
  mkTensor [b; L; h * d]
    (data (tabulate [b; L; h; d]
       (fun idx => tget (mkTensor [b; h; L; d] (data y))
                     [nth 0 idx 0; nth 2 idx 0; nth 1 idx 0; nth 3 idx 0]))).

Definition example_heads : tensor nat := mkTensor [2; 2; 2] [1; 2; 5; 6; 3; 4; 7; 8].
Definition example_ragged : tensor nat := mkTensor [1; 2; 3] [1; 2; 3; 4; 5; 6].

(** ** Shapes of the attention and of the feed-forward network *)


Definition ffn_shapes (a : args) (self : FFNRelu.t) (D K M : nat) : Prop :=
  FFNRelu.num_hidden self = Z.of_nat K /\
  FFNRelu.num_model self = Z.of_nat M /\
  shape (eval a (FFNRelu.w_i2h self)) = [K; D] /\
  shape (eval a (FFNRelu.b_i2h self)) = [K] /\
  shape (eval a (FFNRelu.w_h2o self)) = [M; K] /\
  shape (eval a (FFNRelu.b_h2o self)) = [M].



Definition example_ffn_args : args :=
  fun name =>
    if String.eqb name "ffn_i2h_weight" then full [4; 4] 1%R
    else if String.eqb name "ffn_i2h_bias" then full [4] 0%R
    else if String.eqb name "ffn_h2o_weight" then full [2; 4] 1%R
    else full [2] 0%R.

(** ** The layout of a stack *)

(** A cell as a constructor call of the builder returns it: neither the
    residual wrapper nor a dropout cell. *)
Definition is_layer_cell (c : cell) : bool :=
  match c with
  | ResidualCell _ | DropoutCell _ _ => false
  | _ => true
  end.

(** What layer [layer] adds to the stack, given the cell built for it. *)
Definition layer_cells (config : RNNConfig) (prefix : string) (layer : nat) (c : cell)
  : list cell :=
  (if residual config && (0 <? layer) then ResidualCell c else c)
  :: (if Rgt_dec (dropout config) 0
      then [DropoutCell (dropout config)
              ((prefix ++ "l" ++ fmt_d (Z.of_nat layer) ++ "_") ++ "_dropout")%string]
      else []).

Definition example_config (cell_type : string) (num_hidden num_layers : Z) (dropout : R)
  : RNNConfig :=
  mkRNNConfig cell_type num_hidden num_layers dropout true 0.

(** ** A cell called step after step *)

(** The calls of one across-gates cell on a sequence of steps, each with its
    inputs and its states, the cell state threaded through: the state the
    cell is left in, or the first error. *)
Fixpoint lstm_calls (a : args) (self : LayerNormLSTMCell.t) (st : cell_state)
  (steps : list (tensor R * list (tensor R))) : result cell_state :=
  match steps with
  | [] => Ok st
  | (inputs, states) :: steps' =>
    r <- LayerNormLSTMCell.__call__ a self st inputs states ;;
    lstm_calls a self (snd r) steps'
  end.

(** A state in which the test on the placeholder passes: the next call is
    the first one, or a placeholder is there. *)
Definition has_placeholder (st : cell_state) : Prop :=
  _counter st = mx.rnn.reset_counter \/ exists z, _shape_fix st = Some z.

Fixpoint gru_calls (a : args) (self : LayerNormGRUCell.t) (st : cell_state)
  (steps : list (tensor R * list (tensor R))) : result cell_state :=
  match steps with
  | [] => Ok st
  | (inputs, states) :: steps' =>
    r <- LayerNormGRUCell.__call__ a self st inputs states ;;
    gru_calls a self (snd r) steps'
  end.

(** Inputs and a state for a batch of two rows. *)
Definition example_x2 : tensor R := full [2; 1] 1%R.
Definition example_h2 : tensor R := full [2; 2] 0%R.

(** * Part II: proofs *)

Lemma bind_Ok {A B} (a : A) (k : A -> result B) : bind (Ok a) k = k a.
Proof. reflexivity. Qed.

(** *** Index arithmetic *)

Lemma in_bounds_nil idx : in_bounds [] idx <-> idx = [].
Proof.
  split; intros H.
  - inversion H; reflexivity.
  - subst; constructor.
Qed.

Lemma in_bounds_cons d sh idx :
  in_bounds (d :: sh) idx <->
  exists i idx', idx = i :: idx' /\ i < d /\ in_bounds sh idx'.
Proof.
  split.
  - intros H; inversion H; subst; eauto.
  - intros (i & idx' & -> & Hi & Hb); constructor; assumption.
Qed.

Lemma in_bounds_length sh idx : in_bounds sh idx -> length idx = length sh.
Proof. apply Forall2_length. Qed.

Lemma ravel_lt sh : forall idx, in_bounds sh idx -> ravel sh idx < size sh.
Proof.
  induction sh as [|d sh IH]; intros idx Hb.
  - apply in_bounds_nil in Hb; subst; simpl; lia.
  - apply in_bounds_cons in Hb as (i & idx' & -> & Hi & Hb).
    specialize (IH _ Hb); simpl; nia.
Qed.

Lemma unravel_ravel sh : forall idx, in_bounds sh idx -> unravel sh (ravel sh idx) = idx.
Proof.
  induction sh as [|d sh IH]; intros idx Hb.
  - apply in_bounds_nil in Hb; subst; reflexivity.
  - apply in_bounds_cons in Hb as (i & idx' & -> & Hi & Hb).
    pose proof (ravel_lt Hb) as Hlt.
    simpl. f_equal.
    + rewrite Nat.div_add_l by lia. rewrite Nat.div_small by assumption. lia.
    + rewrite Nat.add_comm, Nat.Div0.mod_add, Nat.mod_small by assumption.
      apply IH; assumption.
Qed.

Lemma unravel_in_bounds sh : forall j, j < size sh -> in_bounds sh (unravel sh j).
Proof.
  induction sh as [|d sh IH]; intros j Hj; simpl.
  - constructor.
  - simpl in Hj.
    assert (size sh <> 0) by (intros E; rewrite E in Hj; lia).
    constructor.
    + apply Nat.Div0.div_lt_upper_bound; lia.
    + apply IH, Nat.mod_upper_bound; assumption.
Qed.

Lemma ravel_unravel sh : forall j, j < size sh -> ravel sh (unravel sh j) = j.
Proof.
  induction sh as [|d sh IH]; intros j Hj; simpl.
  - simpl in Hj; lia.
  - simpl in Hj.
    assert (size sh <> 0) by (intros E; rewrite E in Hj; lia).
    rewrite IH by (apply Nat.mod_upper_bound; assumption).
    rewrite (Nat.div_mod_eq j (size sh)) at 3. lia.
Qed.

(** *** Tabulation *)

Lemma shape_tabulate {A} sh (f : list nat -> A) : shape (tabulate sh f) = sh.
Proof. reflexivity. Qed.

Lemma mk_data_tabulate {A} sh (f : list nat -> A) :
  mkTensor sh (data (tabulate sh f)) = tabulate sh f.
Proof. reflexivity. Qed.

Lemma wf_tabulate {A} sh (f : list nat -> A) : wf (tabulate sh f).
Proof. unfold wf; simpl. rewrite length_map, length_seq. reflexivity. Qed.

Lemma nth_data_tabulate {A} `{Default A} sh (f : list nat -> A) j :
  j < size sh -> nth j (data (tabulate sh f)) dflt = f (unravel sh j).
Proof.
  intros Hj. simpl.
  rewrite nth_indep with (d' := f (unravel sh 0))
    by (rewrite length_map, length_seq; assumption).
  rewrite (map_nth (fun j => f (unravel sh j)) (seq 0 (size sh)) 0 j).
  rewrite seq_nth by assumption. reflexivity.
Qed.

Lemma tget_tabulate {A} `{Default A} sh (f : list nat -> A) idx :
  in_bounds sh idx -> tget (tabulate sh f) idx = f idx.
Proof.
  intros Hb. unfold tget. rewrite shape_tabulate.
  rewrite nth_data_tabulate by (apply ravel_lt; assumption).
  rewrite unravel_ravel by assumption. reflexivity.
Qed.

Lemma tabulate_ext {A} sh (f g : list nat -> A) :
  (forall idx, in_bounds sh idx -> f idx = g idx) -> tabulate sh f = tabulate sh g.
Proof.
  intros Hfg. unfold tabulate. f_equal.
  apply map_ext_in. intros j Hj. apply in_seq in Hj.
  apply Hfg, unravel_in_bounds. lia.
Qed.

Lemma tabulate_tget {A} `{Default A} (t : tensor A) :
  wf t -> tabulate (shape t) (fun idx => tget t idx) = t.
Proof.
  destruct t as [sh dt]. unfold wf, tabulate, tget. simpl. intros Hwf. f_equal.
  apply nth_ext with (d := dflt) (d' := dflt).
  - rewrite length_map, length_seq. symmetry; assumption.
  - rewrite length_map, length_seq. intros j Hj.
    rewrite nth_indep with (d' := nth (ravel sh (unravel sh 0)) dt dflt)
      by (rewrite length_map, length_seq; assumption).
    rewrite (map_nth (fun j => nth (ravel sh (unravel sh j)) dt dflt) (seq 0 (size sh)) 0 j).
    rewrite seq_nth by assumption. simpl.
    rewrite ravel_unravel by assumption. reflexivity.
Qed.

Lemma shape_eqb_refl sh : shape_eqb sh sh = true.
Proof. unfold shape_eqb. destruct (list_eq_dec Nat.eq_dec sh sh); congruence. Qed.

Lemma shape_eqb_eq s1 s2 : shape_eqb s1 s2 = true -> s1 = s2.
Proof. unfold shape_eqb. destruct (list_eq_dec Nat.eq_dec s1 s2); congruence. Qed.

(** ** Shape inference of reshape *)

Lemma infer_reshape_pos src n spec :
  0 < n ->
  mx.sym.infer_reshape src (Z.of_nat n :: spec) =
  (r <- mx.sym.infer_reshape (tl src) spec ;; Ok (Some n :: r)).
Proof.
  intros Hn. cbn [mx.sym.infer_reshape].
  destruct (Z.eqb_spec (Z.of_nat n) 0); [lia|].
  destruct (Z.eqb_spec (Z.of_nat n) (-1)); [lia|].
  destruct (Z.eqb_spec (Z.of_nat n) (-2)); [lia|].
  destruct (Z.eqb_spec (Z.of_nat n) (-3)); [lia|].
  destruct (Z.eqb_spec (Z.of_nat n) (-4)); [lia|].
  destruct (Z.ltb_spec 0 (Z.of_nat n)); [|lia].
  rewrite Nat2Z.id. reflexivity.
Qed.

Lemma infer_reshape_nil src : mx.sym.infer_reshape src [] = Ok [].
Proof. reflexivity. Qed.

Lemma infer_reshape_copy d src spec :
  mx.sym.infer_reshape (d :: src) (0%Z :: spec) =
  (r <- mx.sym.infer_reshape src spec ;; Ok (Some d :: r)).
Proof. reflexivity. Qed.

Lemma infer_reshape_infer src spec :
  mx.sym.infer_reshape src ((-1)%Z :: spec) =
  (r <- mx.sym.infer_reshape (tl src) spec ;; Ok (None :: r)).
Proof. reflexivity. Qed.

Lemma infer_reshape_merge d1 d2 src spec :
  mx.sym.infer_reshape (d1 :: d2 :: src) ((-3)%Z :: spec) =
  (r <- mx.sym.infer_reshape src spec ;; Ok (Some (d1 * d2) :: r)).
Proof. reflexivity. Qed.

Lemma infer_reshape_split d0 src p1 p2 spec :
  mx.sym.infer_reshape (d0 :: src) ((-4)%Z :: p1 :: p2 :: spec) =
  (' (d1, d2) <- mx.sym.split_dim d0 p1 p2 ;;
   r <- mx.sym.infer_reshape src spec ;; Ok (Some d1 :: Some d2 :: r)).
Proof. reflexivity. Qed.

Lemma reshape_ok {A} (t : tensor A) spec dims sh :
  mx.sym.infer_reshape (shape t) spec = Ok dims ->
  mx.sym.fill_inferred (size (shape t)) dims = Ok sh ->
  size sh = size (shape t) ->
  reshape t spec = Ok (mkTensor sh (data t)).
Proof.
  intros Hd Hf Hs. unfold reshape. rewrite Hd. cbn [bind]. rewrite Hf. cbn [bind].
  rewrite Hs, Nat.eqb_refl. reflexivity.
Qed.

Lemma split_dim_infer_left n m :
  0 < m -> mx.sym.split_dim (n * m) (-1) (Z.of_nat m) = Ok (n, m).
Proof.
  intros Hm. unfold mx.sym.split_dim.
  replace ((-1 =? -1)%Z) with true by reflexivity.
  destruct (Z.eqb_spec (Z.of_nat m) (-1)); [lia|].
  destruct (Z.ltb_spec (Z.of_nat m) (-1)); [lia|].
  destruct (Z.eqb_spec (Z.of_nat m) 0); [lia|].
  cbn [andb orb Z.ltb Z.eqb Z.compare].
  rewrite Nat2Z.id, Nat.div_mul by lia. rewrite Nat.eqb_refl. reflexivity.
Qed.

Lemma fill_inferred_known total dims :
  mx.sym.fill_inferred total (map Some dims) = Ok dims.
Proof.
  unfold mx.sym.fill_inferred.
  assert (Hf : filter mx.sym.is_None (map Some dims) = []).
  { induction dims; simpl; auto. }
  rewrite Hf. cbn. f_equal. rewrite map_map. apply map_id.
Qed.

(** Splits an index within the bounds of a shape of known rank into its
    components. *)
Ltac bounds H :=
  repeat (let i := fresh "i" in
          let Hi := fresh "Hi" in
          apply in_bounds_cons in H as (i & ? & -> & Hi & H));
  apply in_bounds_nil in H; subst.

Section Heads.

Context {A : Type} `{Default A}.
Variables b L h d : nat.
Hypothesis Hb : 0 < b.
Hypothesis HL : 0 < L.
Hypothesis Hh : 0 < h.
Hypothesis Hd : 0 < d.

(** (batch, length, depth) to (batch, length, heads, depth_per_head). *)
Lemma reshape_split_depth (x : tensor A) :
  shape x = [b; L; h * d] ->
  reshape x [0; Z.of_nat L; Z.of_nat h; -1]%Z = Ok (mkTensor [b; L; h; d] (data x)).
Proof.
  intros Hs. apply reshape_ok with (dims := [Some b; Some L; Some h; None]).
  - rewrite Hs, infer_reshape_copy, !infer_reshape_pos by assumption.
    cbn [tl]. rewrite infer_reshape_infer, infer_reshape_nil. reflexivity.
  - rewrite Hs. unfold mx.sym.fill_inferred. cbn [filter mx.sym.is_None List.length map mx.sym.known_dim].
    assert (Hk : size [b; L; h; 1] <> 0) by (simpl; nia).
    destruct (Nat.eqb_spec (size [b; L; h; 1]) 0); [contradiction|].
    do 5 f_equal. simpl.
    replace (b * (L * (h * d * 1))) with (d * (b * (L * (h * (1 * 1))))) by ring.
    apply Nat.div_mul. simpl in Hk. lia.
  - rewrite Hs. simpl. ring.
Qed.

(** (batch, heads, length, depth_per_head) to (batch * heads, length, depth_per_head). *)
Lemma reshape_merge_heads (x : tensor A) :
  shape x = [b; h; L; d] ->
  reshape x [-3; Z.of_nat L; -1]%Z = Ok (mkTensor [b * h; L; d] (data x)).
Proof.
  intros Hs. apply reshape_ok with (dims := [Some (b * h); Some L; None]).
  - rewrite Hs, infer_reshape_merge, infer_reshape_pos by assumption.
    cbn [tl]. rewrite infer_reshape_infer, infer_reshape_nil. reflexivity.
  - rewrite Hs. unfold mx.sym.fill_inferred.
    cbn [filter mx.sym.is_None List.length map mx.sym.known_dim].
    assert (Hk : size [b * h; L; 1] <> 0) by (simpl; nia).
    destruct (Nat.eqb_spec (size [b * h; L; 1]) 0); [contradiction|].
    do 4 f_equal. simpl.
    replace (b * (h * (L * (d * 1)))) with (d * (b * h * (L * (1 * 1)))) by ring.
    apply Nat.div_mul. simpl in Hk. lia.
  - rewrite Hs. simpl. ring.
Qed.

(** (batch * heads, length, depth_per_head) to (batch, heads, length, depth_per_head). *)
Lemma reshape_split_heads (x : tensor A) :
  shape x = [b * h; L; d] ->
  reshape x [-4; -1; Z.of_nat h; Z.of_nat L; 0]%Z = Ok (mkTensor [b; h; L; d] (data x)).
Proof.
  intros Hs. apply reshape_ok with (dims := map Some [b; h; L; d]).
  - rewrite Hs, infer_reshape_split, split_dim_infer_left by assumption.
    cbn [bind]. rewrite infer_reshape_pos by assumption.
    cbn [tl]. rewrite infer_reshape_copy, infer_reshape_nil. reflexivity.
  - apply fill_inferred_known.
  - rewrite Hs. simpl. ring.
Qed.

(** (batch, length, heads, depth_per_head) to (batch, length, depth). *)
Lemma reshape_merge_depth (x : tensor A) :
  shape x = [b; L; h; d] ->
  reshape x [-1; Z.of_nat L; -3]%Z = Ok (mkTensor [b; L; h * d] (data x)).
Proof.
  intros Hs. apply reshape_ok with (dims := [None; Some L; Some (h * d)]).
  - rewrite Hs, infer_reshape_infer. cbn [tl].
    rewrite infer_reshape_pos by assumption. cbn [tl].
    rewrite infer_reshape_merge, infer_reshape_nil. reflexivity.
  - rewrite Hs. unfold mx.sym.fill_inferred.
    cbn [filter mx.sym.is_None List.length map mx.sym.known_dim].
    assert (Hk : size [1; L; h * d] <> 0) by (simpl; nia).
    destruct (Nat.eqb_spec (size [1; L; h * d]) 0); [contradiction|].
    do 2 f_equal. simpl.
    replace (b * (L * (h * (d * 1)))) with (b * (L * (h * d * 1) + 0)) by ring.
    apply Nat.div_mul. simpl in Hk. lia.
  - rewrite Hs. simpl. ring.
Qed.

Lemma transpose_0213 (x : tensor A) n0 n1 n2 n3 :
  shape x = [n0; n1; n2; n3] ->
  transpose x [0; 2; 1; 3] =
  Ok (tabulate [n0; n2; n1; n3]
        (fun idx => tget x [nth 0 idx 0; nth 2 idx 0; nth 1 idx 0; nth 3 idx 0])).
Proof.
  intros Hs. unfold transpose, rank. rewrite Hs. reflexivity.
Qed.

Lemma split_heads_ok (x : tensor A) :
  shape x = [b; L; h * d] ->
  split_heads x (Z.of_nat L) (Z.of_nat h) = Ok (heads_split b L h d x).
Proof.
  intros Hs. unfold split_heads.
  rewrite reshape_split_depth by assumption. cbn [bind].
  rewrite transpose_0213 with (n0 := b) (n1 := L) (n2 := h) (n3 := d) by reflexivity.
  cbn [bind]. rewrite reshape_merge_heads by reflexivity. reflexivity.
Qed.

Lemma combine_heads_split (x : tensor A) :
  shape x = [b; L; h * d] -> wf x ->
  combine_heads (heads_split b L h d x) (Z.of_nat L) (Z.of_nat h) = Ok x.
Proof.
  intros Hs Hwf. unfold combine_heads, heads_split.
  rewrite reshape_split_heads by reflexivity. cbn [bind data].
  rewrite transpose_0213 with (n0 := b) (n1 := h) (n2 := L) (n3 := d) by reflexivity.
  cbn [bind]. rewrite reshape_merge_depth by reflexivity.
  f_equal. destruct x as [sh dt]. simpl in Hs. subst sh. f_equal. cbn [data].
  set (x4 := mkTensor [b; L; h; d] dt).
  assert (Hwf4 : wf x4).
  { unfold wf in *. simpl in *. rewrite Hwf. ring. }
  change dt with (data x4). f_equal.
  transitivity (tabulate (shape x4) (fun idx => tget x4 idx));
    [|apply tabulate_tget; assumption].
  cbn [shape x4]. apply tabulate_ext. intros idx Hi.
  bounds Hi. cbn [nth]. rewrite mk_data_tabulate.
  rewrite tget_tabulate by (repeat constructor; assumption).
  reflexivity.
Qed.

End Heads.

(** C2: for every tensor [x] of shape (batch, length, depth) whose depth is
    divisible by the number of heads, [split_heads] followed by [combine_heads]
    with the same length and heads returns exactly [x].  (The dimensions of an
    MXNet tensor are positive.) *)
Theorem combine_heads_split_heads {A} `{Default A} (batch length heads depth : nat)
  (x : tensor A) :
  0 < batch -> 0 < length -> 0 < heads -> 0 < depth ->
  depth mod heads = 0 ->
  shape x = [batch; length; depth] -> wf x ->
  (y <- split_heads x (Z.of_nat length) (Z.of_nat heads) ;;
   combine_heads y (Z.of_nat length) (Z.of_nat heads)) = Ok x.
Proof.
  intros Hb HL Hh Hdepth Hdiv Hs Hwf.
  apply Nat.Div0.div_exact in Hdiv.
  set (d := depth / heads) in *.
  assert (Hd : 0 < d) by nia.
  rewrite Hdiv in Hs.
  rewrite (split_heads_ok Hb HL Hh Hd x Hs). cbn [bind].
  apply combine_heads_split; assumption.
Qed.

Lemma combine_heads_split_heads_witness :
  (y <- split_heads example_tensor 2 2 ;; combine_heads y 2 2) = Ok example_tensor.
Proof.
  apply (@combine_heads_split_heads nat _ 1 2 2 4 example_tensor);
    solve [lia | reflexivity].
Defined.

(** ** The length mask of the attention *)

Lemma transpose_201 {A} `{Default A} (x : tensor A) n0 n1 n2 :
  shape x = [n0; n1; n2] ->
  transpose x [2; 0; 1] =
  Ok (tabulate [n2; n0; n1] (fun idx => tget x [nth 1 idx 0; nth 2 idx 0; nth 0 idx 0])).
Proof.
  intros Hs. unfold transpose, rank. rewrite Hs. reflexivity.
Qed.

Lemma transpose_120 {A} `{Default A} (x : tensor A) n0 n1 n2 :
  shape x = [n0; n1; n2] ->
  transpose x [1; 2; 0] =
  Ok (tabulate [n1; n2; n0] (fun idx => tget x [nth 2 idx 0; nth 0 idx 0; nth 1 idx 0])).
Proof.
  intros Hs. unfold transpose, rank. rewrite Hs. reflexivity.
Qed.

(** The lengths, one per (sequence, head) pair. *)
Lemma broadcast_lengths_ok {A} `{Default A} (x : tensor A) (b h : nat) :
  0 < b -> 0 < h -> shape x = [b] ->
  exists y,
    broadcast_lengths x (Z.of_nat h) = Ok y /\ shape y = [b * h] /\
    forall i j, i < b -> j < h -> tget y [i * h + j] = tget x [i].
Proof.
  intros Hb Hh Hs. unfold broadcast_lengths, expand_dims, rank.
  rewrite Hs. cbn [List.length Nat.leb bind firstn skipn app].
  unfold broadcast_to. cbn [shape mx.sym.broadcast_to_shape Z.eqb Z.ltb Z.compare].
  rewrite Nat.eqb_refl. cbn [orb bind].
  destruct (Z.eqb_spec (Z.of_nat h) 0); [lia|].
  destruct (Z.ltb_spec (Z.of_nat h) 0); [lia|].
  rewrite Nat2Z.id. cbn [Nat.eqb orb bind]. rewrite orb_true_r. cbn [bind].
  match goal with |- context [tabulate [b; h] ?f] => set (g := f) end.
  assert (Hr : reshape (tabulate [b; h] g) [-3]%Z = Ok (mkTensor [b * h] (data (tabulate [b; h] g)))).
  { apply reshape_ok with (dims := map Some [b * h]).
    - rewrite shape_tabulate, infer_reshape_merge, infer_reshape_nil. reflexivity.
    - apply fill_inferred_known.
    - rewrite shape_tabulate. simpl. ring. }
  rewrite Hr. eexists. split; [reflexivity|]. split; [reflexivity|].
  intros i j Hi Hj. unfold tget at 1. cbn [shape data ravel size fold_right].
  replace ((i * h + j) * 1 + 0) with (ravel [b; h] [i; j]) by (simpl; ring).
  change (tget (tabulate [b; h] g) [i; j] = tget x [i]).
  rewrite tget_tabulate by (repeat constructor; assumption).
  unfold g, tget. cbn [shape data mx.sym.bcast_index Nat.eqb].
  rewrite Hs. destruct (Nat.eqb_spec b 1).
  - assert (i = 0) by lia. subst i. reflexivity.
  - simpl. f_equal; ring.
Qed.

(** Row [i * h + j] of the split tensor is head [j] of sequence [i]. *)
Lemma split_heads_layout {A} `{Default A} (b L h d : nat) (x : tensor A) i j l c :
  shape x = [b; L; h * d] ->
  i < b -> j < h -> l < L -> c < d ->
  tget (heads_split b L h d x) [i * h + j; l; c] = tget x [i; l; j * d + c].
Proof.
  intros Hs Hi Hj Hl Hc. unfold heads_split, tget at 1. cbn [shape data].
  replace (ravel [b * h; L; d] [i * h + j; l; c]) with (ravel [b; h; L; d] [i; j; l; c])
    by (simpl; ring).
  rewrite nth_data_tabulate by (apply ravel_lt; repeat constructor; assumption).
  rewrite unravel_ravel by (repeat constructor; assumption).
  cbn [nth]. unfold tget. rewrite Hs. cbn [shape data]. f_equal. simpl. ring.
Qed.

Lemma head_row_lt b h i j : i < b -> j < h -> i * h + j < b * h.
Proof. intros. nia. Qed.

(** C1: the length mask of [on].  The logits, one (length, length) matrix per
    (sequence, head) pair, are masked before [on_contexts] takes their softmax:
    the entry for query [q] and key [k] of head [j] of sequence [i] is replaced
    by -99999999, a finite value, exactly when [k] is at or beyond the valid
    length of sequence [i], the same length for every head [j]; the query
    position [q] plays no part, so rows beyond the valid length are kept as
    computed.  Row [i * h + j] is head [j] of sequence [i]: this is where
    [split_heads] puts it. *)
Theorem on_length_mask (a : args) (mask : list nat -> R) (self : MultiHeadAttention.t)
  (b h L : nat) (inputs logits : tensor R) (inputs_length : tensor nat) (length : Z) :
  0 < b -> 0 < h -> 0 < L ->
  MultiHeadAttention.heads self = Z.of_nat h ->
  shape logits = [b * h; L; L] ->
  shape inputs_length = [b] ->
  MultiHeadAttention.on a mask self inputs inputs_length length =
    (lv <- MultiHeadAttention.on_logits a self inputs length ;;
     masked <- MultiHeadAttention.on_mask self (fst lv) inputs_length ;;
     MultiHeadAttention.on_contexts a mask self masked (snd lv) length) /\
  MultiHeadAttention.mask_value = (- 99999999)%R /\
  (exists masked,
    MultiHeadAttention.on_mask self logits inputs_length = Ok masked /\
    shape masked = [b * h; L; L] /\
    forall i j q k, i < b -> j < h -> q < L -> k < L ->
      tget masked [i * h + j; q; k] =
      if k <? tget inputs_length [i] then tget logits [i * h + j; q; k]
      else (- 99999999)%R) /\
  (forall (d : nat) (x : tensor R),
      0 < d -> shape x = [b; L; h * d] ->
      exists y,
        split_heads x (Z.of_nat L) (MultiHeadAttention.heads self) = Ok y /\
        shape y = [b * h; L; d] /\
        forall i j l c, i < b -> j < h -> l < L -> c < d ->
          tget y [i * h + j; l; c] = tget x [i; l; j * d + c]).
Proof.
  intros Hb Hh HL Hheads Hs Hlen. split; [|split; [reflexivity|split]].
  - unfold MultiHeadAttention.on.
    destruct (MultiHeadAttention.on_logits a self inputs length) as [[l v]|e]; reflexivity.
  - unfold MultiHeadAttention.on_mask.
    rewrite transpose_201 with (n0 := b * h) (n1 := L) (n2 := L) by assumption.
    cbn [bind]. rewrite Hheads.
    destruct (broadcast_lengths_ok inputs_length Hb Hh Hlen) as (y & Hy & Hsy & Hyv).
    rewrite Hy. cbn [bind]. unfold SequenceMask.
    rewrite shape_tabulate, Hsy, shape_eqb_refl. cbn [bind].
    rewrite transpose_120 with (n0 := L) (n1 := b * h) (n2 := L) by reflexivity.
    eexists. split; [reflexivity|]. split; [reflexivity|].
    intros i j q k Hi Hj Hq Hk.
    pose proof (head_row_lt Hi Hj) as Hrow.
    rewrite tget_tabulate by (repeat constructor; assumption). cbn [nth].
    rewrite tget_tabulate by (repeat constructor; assumption). cbn [nth].
    rewrite Hyv by assumption.
    destruct (k <? tget inputs_length [i]); [|reflexivity].
    rewrite tget_tabulate by (repeat constructor; assumption). reflexivity.
  - intros d x Hd Hx. rewrite Hheads.
    rewrite (split_heads_ok Hb HL Hh Hd x Hx).
    eexists. split; [reflexivity|]. split; [reflexivity|].
    intros i j l c Hi Hj Hl Hc. apply split_heads_layout; assumption.
Qed.

Lemma on_length_mask_witness :
  MultiHeadAttention.on example_args (fun _ => 1%R) example_attention
    example_inputs example_lengths 2 =
    (lv <- MultiHeadAttention.on_logits example_args example_attention example_inputs 2 ;;
     masked <- MultiHeadAttention.on_mask example_attention (fst lv) example_lengths ;;
     MultiHeadAttention.on_contexts example_args (fun _ => 1%R) example_attention
       masked (snd lv) 2) /\
  MultiHeadAttention.mask_value = (- 99999999)%R /\
  (exists masked,
    MultiHeadAttention.on_mask example_attention example_logits example_lengths = Ok masked /\
    shape masked = [1 * 2; 2; 2] /\
    forall i j q k, i < 1 -> j < 2 -> q < 2 -> k < 2 ->
      tget masked [i * 2 + j; q; k] =
      if k <? tget example_lengths [i] then tget example_logits [i * 2 + j; q; k]
      else (- 99999999)%R) /\
  (forall (d : nat) (x : tensor R),
      0 < d -> shape x = [1; 2; 2 * d] ->
      exists y,
        split_heads x (Z.of_nat 2) (MultiHeadAttention.heads example_attention) = Ok y /\
        shape y = [1 * 2; 2; d] /\
        forall i j l c, i < 1 -> j < 2 -> l < 2 -> c < d ->
          tget y [i * 2 + j; l; c] = tget x [i; l; j * d + c]).
Proof.
  apply (@on_length_mask example_args (fun _ => 1%R) example_attention 1 2 2
           example_inputs example_logits example_lengths 2);
    solve [lia | reflexivity].
Defined.

(** ** The initialisers of the per-gate LSTM cell *)

(** What the constructor of the per-gate LSTM cell does.  The variable it
    passes as the scale of each unit is the one named "_shift", initialised to
    [norm_shift]; the variable it passes as the shift is the one named
    "_scale", initialised to [norm_scale], or to [forget_bias] for the forget
    gate. *)
Lemma per_gate_lstm_init_roles (forget_bias norm_scale norm_shift : R) :
  exists c,
    LayerNormPerGateLSTMCell.__init__ 2 "lnglstm_" None forget_bias norm_scale norm_shift
    = Ok c /\
    map (fun l => var_init (LayerNormalization.shift l))
        (LayerNormPerGateLSTMCell._norm_layers c)
    = [Some norm_scale; Some forget_bias; Some norm_scale; Some norm_scale; Some norm_scale] /\
    map (fun l => var_init (LayerNormalization.scale l))
        (LayerNormPerGateLSTMCell._norm_layers c)
    = [Some norm_shift; Some norm_shift; Some norm_shift; Some norm_shift; Some norm_shift] /\
    map (fun l => var_name (LayerNormalization.shift l))
        (LayerNormPerGateLSTMCell._norm_layers c)
    = ["lnglstm_i_scale"; "lnglstm_f_scale"; "lnglstm_c_scale"; "lnglstm_o_scale";
       "lnglstm_s_scale"]%string /\
    map (fun l => var_name (LayerNormalization.scale l))
        (LayerNormPerGateLSTMCell._norm_layers c)
    = ["lnglstm_i_shift"; "lnglstm_f_shift"; "lnglstm_c_shift"; "lnglstm_o_shift";
       "lnglstm_s_shift"]%string.
Proof.
  eexists. split; [vm_compute; reflexivity|].
  repeat split.
Qed.

(** C3: the per-gate LSTM cell constructed with forget bias 1.0 and the default
    initialisers.  The shift of the forget unit starts at 1.0, but so does the
    shift of the input, candidate and output units (not at 0.0), and the scale
    of every unit starts at 0.0, the shift initialiser (not at 1.0, the scale
    initialiser). *)
Theorem per_gate_lstm_initialisers :
  exists c,
    LayerNormPerGateLSTMCell.__init__ 2 "lnglstm_" None
      forget_bias_default norm_scale_default norm_shift_default = Ok c /\
    map (fun l => var_init (LayerNormalization.shift l))
        (LayerNormPerGateLSTMCell._norm_layers c)
    = [Some 1%R; Some 1%R; Some 1%R; Some 1%R; Some 1%R] /\
    map (fun l => var_init (LayerNormalization.scale l))
        (LayerNormPerGateLSTMCell._norm_layers c)
    = [Some 0%R; Some 0%R; Some 0%R; Some 0%R; Some 0%R].
Proof.
  destruct (per_gate_lstm_init_roles forget_bias_default norm_scale_default
              norm_shift_default) as (c & Hc & Hshift & Hscale & _).
  exists c. repeat split; assumption.
Qed.

(** ** Construction and configuration errors *)

Lemma range_nonpos n : (n <= 0)%Z -> range n = [].
Proof.
  intros Hn. unfold range. destruct n; try reflexivity. lia.
Qed.

Lemma range_pos n : (0 < n)%Z -> exists rest, range n = 0%Z :: rest.
Proof.
  intros Hn. unfold range.
  destruct (Z.to_nat n) as [|k] eqn:E; [lia|].
  simpl. eexists. reflexivity.
Qed.

Lemma unknown_cell_type_raises C config prefix rnn layer :
  known_cell_type C (cell_type config) = false ->
  get_stacked_rnn_layer C config prefix rnn layer = Raise NotImplementedError.
Proof.
  unfold known_cell_type. intros Hk.
  repeat (apply orb_false_elim in Hk; destruct Hk as [Hk ?]).
  unfold get_stacked_rnn_layer.
  repeat match goal with E : String.eqb _ _ = false |- _ => rewrite E; clear E end.
  reflexivity.
Qed.

Lemma LayerNormalization_init_ok num_hidden prefix scale shift scale_init shift_init :
  (1 < num_hidden)%Z ->
  exists ln,
    LayerNormalization.__init__ num_hidden prefix scale shift scale_init shift_init = Ok ln.
Proof.
  intros Hn. unfold LayerNormalization.__init__, utils.check_condition.
  destruct (Z.ltb_spec 1 num_hidden); [|lia]. eexists. reflexivity.
Qed.

(** C10: with no layer to build, the stack builder returns the empty stack and
    raises nothing, whatever the cell type; it raises only when the layer count
    is positive. *)
Theorem get_stacked_rnn_no_layers (C : constants) (config : RNNConfig) (prefix : string) :
  (num_layers config = 0%Z -> get_stacked_rnn C config prefix = Ok []) /\
  (forall e, get_stacked_rnn C config prefix = Raise e -> (1 <= num_layers config)%Z).
Proof.
  assert (Hempty : (num_layers config <= 0)%Z -> get_stacked_rnn C config prefix = Ok []).
  { intros Hn. unfold get_stacked_rnn. rewrite range_nonpos by assumption. reflexivity. }
  split.
  - intros Hn. apply Hempty. lia.
  - intros e He. destruct (Z_le_gt_dec (num_layers config) 0) as [Hle|Hgt]; [|lia].
    rewrite Hempty in He by assumption. discriminate.
Qed.

Lemma get_stacked_rnn_no_layers_witness :
  get_stacked_rnn sockeye_constants (unknown_config 0) "rnn_" = Ok [] /\
  (1 <= num_layers (unknown_config 1))%Z.
Proof.
  split.
  - apply (proj1 (get_stacked_rnn_no_layers sockeye_constants (unknown_config 0) "rnn_")).
    reflexivity.
  - apply (proj2 (get_stacked_rnn_no_layers sockeye_constants (unknown_config 1) "rnn_")
             NotImplementedError).
    reflexivity.
Defined.

(** C4, as stated, fails: an unrecognised cell type makes the stack builder
    raise NotImplementedError, which is not the configuration error. *)
Lemma unknown_cell_type_not_config_error :
  get_stacked_rnn sockeye_constants (unknown_config 1) "rnn_" = Raise NotImplementedError /\
  is_config_error (get_stacked_rnn sockeye_constants (unknown_config 1) "rnn_") = false.
Proof. split; reflexivity. Qed.

(** C4, amended: a normalised dimension of at most 1 and an attention depth
    that a non-zero number of heads does not divide raise the configuration
    error at construction, the latter with both values in its message;
    dimension 2 and depth 512 with 8 heads construct; an unrecognised cell
    type makes the stack builder raise NotImplementedError as soon as there is
    a layer to build. *)
Theorem static_misconfiguration :
  (forall num_hidden prefix scale shift scale_init shift_init,
      (num_hidden <= 1)%Z ->
      is_config_error
        (LayerNormalization.__init__ num_hidden prefix scale shift scale_init shift_init)
      = true) /\
  (forall prefix depth_att heads depth_out dropout,
      heads <> 0%Z -> (depth_att mod heads <> 0)%Z ->
      MultiHeadAttention.__init__ prefix depth_att heads depth_out dropout =
      Raise (SockeyeError ("Number of heads (" ++ fmt_d heads ++
                           ") must divide attention depth (" ++ fmt_d depth_att ++ ")"))) /\
  (forall prefix scale shift scale_init shift_init,
      exists ln,
        LayerNormalization.__init__ 2 prefix scale shift scale_init shift_init = Ok ln) /\
  (forall prefix depth_out dropout,
      exists att,
        MultiHeadAttention.__init__ prefix 512 8 depth_out dropout = Ok att /\
        MultiHeadAttention.depth_per_head att = 64%Z) /\
  (forall C config prefix,
      known_cell_type C (cell_type config) = false ->
      (1 <= num_layers config)%Z ->
      get_stacked_rnn C config prefix = Raise NotImplementedError).
Proof.
  repeat split.
  - intros num_hidden prefix scale shift scale_init shift_init Hn.
    unfold LayerNormalization.__init__, utils.check_condition.
    destruct (Z.ltb_spec 1 num_hidden); [lia|]. reflexivity.
  - intros prefix depth_att heads depth_out dropout Hh Hm.
    unfold MultiHeadAttention.__init__, py_mod, utils.check_condition.
    destruct (Z.eqb_spec heads 0); [contradiction|]. cbn [bind].
    destruct (Z.eqb_spec (depth_att mod heads) 0); [contradiction|]. reflexivity.
  - intros. apply LayerNormalization_init_ok. lia.
  - intros. eexists. split; reflexivity.
  - intros C config prefix Hk Hn. unfold get_stacked_rnn.
    destruct (@range_pos (num_layers config)) as [rest ->]; [lia|].
    cbn [for_each]. rewrite unknown_cell_type_raises by assumption. reflexivity.
Qed.

Lemma static_misconfiguration_witness :
  is_config_error (LayerNormalization.__init__ 1 (Some "ln"%string) None None 1 0) = true /\
  is_config_error (MultiHeadAttention.__init__ "att_" 512 7 512 0) = true /\
  get_stacked_rnn sockeye_constants (unknown_config 2) "rnn_" = Raise NotImplementedError.
Proof.
  destruct static_misconfiguration as (Hln & Hatt & _ & _ & Hrnn).
  split; [|split].
  - apply Hln. lia.
  - rewrite Hatt by (vm_compute; discriminate). reflexivity.
  - apply Hrnn; [reflexivity | simpl; lia].
Defined.

(** ** Operators on (batch, hidden) tensors *)

Lemma rsum_ext n (f g : nat -> R) :
  (forall j, j < n -> f j = g j) -> rsum n f = rsum n g.
Proof.
  induction n as [|n IH]; intros Hfg; simpl; [reflexivity|].
  rewrite IH by (intros; apply Hfg; lia). rewrite Hfg by lia. reflexivity.
Qed.

Lemma tensor_eta {A} (t : tensor A) : mkTensor (shape t) (data t) = t.
Proof. destruct t; reflexivity. Qed.

Lemma bcast_index_id sh : forall idx, in_bounds sh idx -> mx.sym.bcast_index sh idx = idx.
Proof.
  induction sh as [|d sh IH]; intros idx Hb.
  - apply in_bounds_nil in Hb. subst. reflexivity.
  - apply in_bounds_cons in Hb as (i & idx' & -> & Hi & Hb).
    simpl. rewrite IH by assumption.
    destruct (Nat.eqb_spec d 1); [|reflexivity]. f_equal. lia.
Qed.

Lemma shape_tmap {A B} `{Default A} (f : A -> B) (t : tensor A) : shape (tmap f t) = shape t.
Proof. reflexivity. Qed.

Lemma tget_tmap {A B} `{Default A} `{Default B} (f : A -> B) (t : tensor A) idx :
  in_bounds (shape t) idx -> tget (tmap f t) idx = f (tget t idx).
Proof. intros Hb. unfold tmap. rewrite tget_tabulate by assumption. reflexivity. Qed.

Lemma broadcast_shape_col B H : mx.sym.broadcast_shape [B; H] [B; 1] = Ok [B; H].
Proof.
  cbn [mx.sym.broadcast_shape]. rewrite Nat.eqb_refl.
  destruct (Nat.eqb_spec H 1) as [->|H1]; [reflexivity|].
  destruct (Nat.eqb_spec H 0) as [->|H0]; [reflexivity|].
  cbn [Nat.eqb orb bind]. rewrite Nat.max_l by lia. reflexivity.
Qed.

Lemma broadcast_shape_row B H : mx.sym.broadcast_shape [B; H] [1; H] = Ok [B; H].
Proof.
  cbn [mx.sym.broadcast_shape]. rewrite Nat.eqb_refl.
  destruct (Nat.eqb_spec B 1) as [->|B1]; [reflexivity|].
  destruct (Nat.eqb_spec B 0) as [->|B0]; [reflexivity|].
  cbn [Nat.eqb orb bind]. rewrite Nat.max_l by lia. reflexivity.
Qed.

(** A (batch, hidden) tensor against a (batch, 1) column. *)
Lemma broadcast_col f (x m : tensor R) B H :
  shape x = [B; H] -> shape m = [B; 1] ->
  exists y,
    broadcast f x m = Ok y /\ shape y = [B; H] /\
    forall i j, i < B -> j < H -> tget y [i; j] = f (tget x [i; j]) (tget m [i; 0]).
Proof.
  intros Hx Hm. unfold broadcast, rank. rewrite Hx, Hm.
  cbn [List.length Nat.max mx.sym.pad_shape Nat.sub repeat app].
  rewrite broadcast_shape_col. cbn [bind].
  eexists. split; [reflexivity|]. split; [reflexivity|].
  intros i j Hi Hj.
  rewrite tget_tabulate by (repeat constructor; assumption).
  rewrite bcast_index_id by (repeat constructor; assumption).
  rewrite <- Hx, tensor_eta. f_equal.
  rewrite <- Hm at 1. rewrite tensor_eta.
  cbn [mx.sym.bcast_index Nat.eqb].
  destruct (Nat.eqb_spec B 1); [|reflexivity].
  assert (i = 0) by lia. subst i. reflexivity.
Qed.

(** A (batch, hidden) tensor against a (hidden) vector. *)
Lemma broadcast_row f (x s : tensor R) B H :
  shape x = [B; H] -> shape s = [H] ->
  exists y,
    broadcast f x s = Ok y /\ shape y = [B; H] /\
    forall i j, i < B -> j < H -> tget y [i; j] = f (tget x [i; j]) (tget s [j]).
Proof.
  intros Hx Hs. unfold broadcast, rank. rewrite Hx, Hs.
  cbn [List.length Nat.max mx.sym.pad_shape Nat.sub repeat app].
  rewrite broadcast_shape_row. cbn [bind].
  eexists. split; [reflexivity|]. split; [reflexivity|].
  intros i j Hi Hj.
  rewrite tget_tabulate by (repeat constructor; assumption).
  rewrite bcast_index_id by (repeat constructor; assumption).
  rewrite <- Hx, tensor_eta. f_equal.
  unfold tget. rewrite Hs. cbn [shape data mx.sym.bcast_index Nat.eqb ravel size fold_right].
  f_equal. destruct (Nat.eqb_spec H 1); [|lia].
  assert (j = 0) by lia. subst j. reflexivity.
Qed.

Lemma mean_rows (x : tensor R) B H :
  shape x = [B; H] ->
  exists m,
    mean x 1 = Ok m /\ shape m = [B; 1] /\
    forall i, i < B -> tget m [i; 0] = row_mean H (fun j => tget x [i; j]).
Proof.
  intros Hx. unfold mean, rank. rewrite Hx.
  cbn [List.length Nat.ltb Nat.leb nth tset firstn skipn app].
  eexists. split; [reflexivity|]. split; [reflexivity|].
  intros i Hi. rewrite tget_tabulate by (repeat constructor; lia).
  reflexivity.
Qed.

Lemma moments_rows (x : tensor R) B H :
  shape x = [B; H] ->
  exists mean var,
    LayerNormalization.moments x = Ok (mean, var) /\
    shape mean = [B; 1] /\ shape var = [B; 1] /\
    forall i, i < B ->
      tget mean [i; 0] = row_mean H (fun j => tget x [i; j]) /\
      tget var [i; 0] = row_var H (fun j => tget x [i; j]).
Proof.
  intros Hx. unfold LayerNormalization.moments.
  destruct (mean_rows x Hx) as (m & Hm & Hsm & Hmv). rewrite Hm. cbn [bind].
  destruct (broadcast_col Rminus x m Hx Hsm) as (c & Hc & Hsc & Hcv).
  unfold broadcast_minus. rewrite Hc. cbn [bind].
  assert (Hsq : shape (square c) = [B; H]) by (unfold square; rewrite shape_tmap; assumption).
  destruct (mean_rows (square c) Hsq) as (v & Hv & Hsv & Hvv). rewrite Hv. cbn [bind].
  exists m, v. split; [reflexivity|]. split; [assumption|]. split; [assumption|].
  intros i Hi. split; [apply Hmv; assumption|].
  rewrite Hvv by assumption. unfold row_var, row_mean at 1. f_equal.
  apply rsum_ext. intros j Hj. unfold square.
  rewrite tget_tmap by (rewrite Hsc; repeat constructor; assumption).
  rewrite Hcv, Hmv by assumption. reflexivity.
Qed.

Lemma normalize_rows (a : args) (self : LayerNormalization.t) (x : tensor R) (eps : R) B H :
  shape x = [B; H] ->
  shape (eval a (LayerNormalization.scale self)) = [H] ->
  shape (eval a (LayerNormalization.shift self)) = [H] ->
  exists y,
    LayerNormalization.normalize a self x eps = Ok y /\ shape y = [B; H] /\
    forall i j, i < B -> j < H ->
      tget y [i; j] =
      layer_norm H (scale_at a self) (shift_at a self) eps (fun j => tget x [i; j]) j.
Proof.
  intros Hx Hscale Hshift. unfold LayerNormalization.normalize.
  destruct (moments_rows x Hx) as (m & v & Hmo & Hsm & Hsv & Hmv). rewrite Hmo. cbn [bind].
  destruct (broadcast_col Rminus x m Hx Hsm) as (c & Hc & Hsc & Hcv).
  unfold broadcast_minus. rewrite Hc. cbn [bind].
  set (r := rsqrt (_plus_scalar v eps)).
  assert (Hsr : shape r = [B; 1]).
  { unfold r, rsqrt, _plus_scalar. rewrite !shape_tmap. assumption. }
  destruct (broadcast_col Rmult c r Hsc Hsr) as (n1 & Hn1 & Hsn1 & Hn1v).
  unfold broadcast_mul. rewrite Hn1. cbn [bind].
  destruct (broadcast_row Rmult n1 _ Hsn1 Hscale) as (n2 & Hn2 & Hsn2 & Hn2v).
  rewrite Hn2. cbn [bind].
  destruct (broadcast_row Rplus n2 _ Hsn2 Hshift) as (n3 & Hn3 & Hsn3 & Hn3v).
  unfold broadcast_add. rewrite Hn3. cbn [bind].
  exists n3. split; [reflexivity|]. split; [assumption|].
  intros i j Hi Hj.
  rewrite Hn3v, Hn2v, Hn1v, Hcv by assumption.
  destruct (Hmv i Hi) as [Hmean Hvar]. rewrite Hmean.
  unfold r, rsqrt, _plus_scalar.
  rewrite tget_tmap by (rewrite shape_tmap, Hsv; repeat constructor; lia).
  rewrite tget_tmap by (rewrite Hsv; repeat constructor; lia).
  rewrite Hvar. unfold layer_norm, scale_at, shift_at, Rdiv. ring.
Qed.

(** C7: for an input of shape (batch, H) with H > 1, [normalize] returns
    scale * (x - mean) / sqrt(var + eps) + shift, with the mean and the variance
    (the mean of the squared deviations from the mean) taken over each row and
    the scale and the shift, vectors of H entries, applied to every row. *)
Theorem normalize_layer_norm (a : args) (self : LayerNormalization.t) (x : tensor R)
  (eps : R) (batch H : nat) :
  1 < H ->
  shape x = [batch; H] ->
  shape (eval a (LayerNormalization.scale self)) = [H] ->
  shape (eval a (LayerNormalization.shift self)) = [H] ->
  exists y,
    LayerNormalization.normalize a self x eps = Ok y /\ shape y = [batch; H] /\
    forall i j, i < batch -> j < H ->
      tget y [i; j] =
      (scale_at a self j * (tget x [i; j] - row_mean H (fun j' => tget x [i; j']))
       / sqrt (row_var H (fun j' => tget x [i; j']) + eps) + shift_at a self j)%R.
Proof.
  intros _ Hx Hscale Hshift.
  destruct (@normalize_rows a self x eps batch H Hx Hscale Hshift) as (y & Hy & Hsy & Hyv).
  exists y. split; [assumption|]. split; [assumption|].
  intros i j Hi Hj. rewrite Hyv by assumption. reflexivity.
Qed.

(** ** The operators of the recurrent cells *)

Lemma tensor_ext {A} `{Default A} (s t : tensor A) :
  shape s = shape t -> wf s -> wf t ->
  (forall idx, in_bounds (shape s) idx -> tget s idx = tget t idx) -> s = t.
Proof.
  intros Hsh Hs Ht Hv.
  rewrite <- (tabulate_tget Hs), <- (tabulate_tget Ht), <- Hsh.
  apply tabulate_ext. assumption.
Qed.

Lemma elemwise_ok f (x y : tensor R) sh :
  shape x = sh -> shape y = sh ->
  exists z,
    elemwise f x y = Ok z /\ shape z = sh /\ wf z /\
    forall idx, in_bounds sh idx -> tget z idx = f (tget x idx) (tget y idx).
Proof.
  intros Hx Hy. unfold elemwise. rewrite Hx, Hy, shape_eqb_refl.
  eexists. split; [reflexivity|]. split; [reflexivity|]. split; [apply wf_tabulate|].
  intros idx Hb. rewrite tget_tabulate by assumption. reflexivity.
Qed.

Lemma FullyConnected_rows (a : args) (W b : Symbol) (x : tensor R) (num_hidden : Z) B I O :
  shape x = [B; I] ->
  (0 < num_hidden)%Z -> Z.to_nat num_hidden = O ->
  shape (eval a W) = [O; I] -> shape (eval a b) = [O] ->
  exists y,
    FullyConnected x (eval a W) (eval a b) num_hidden = Ok y /\
    y = tabulate [B; O] (fun idx => linear a W b I (row x (nth 0 idx 0)) (nth 1 idx 0)).
Proof.
  intros Hx Hn HO HW Hb. unfold FullyConnected. rewrite Hx.
  cbn [size fold_right]. rewrite Nat.mul_1_r, HO, HW, Hb, !shape_eqb_refl.
  destruct (Z.ltb_spec 0 num_hidden); [|lia]. cbn [andb].
  rewrite <- Hx, tensor_eta. eexists. split; reflexivity.
Qed.

Lemma tget_FullyConnected (a : args) (W b : Symbol) (x : tensor R) B I O i j :
  i < B -> j < O ->
  tget (tabulate [B; O] (fun idx => linear a W b I (row x (nth 0 idx 0)) (nth 1 idx 0))) [i; j]
  = linear a W b I (row x i) j.
Proof.
  intros Hi Hj. rewrite tget_tabulate by (repeat constructor; assumption). reflexivity.
Qed.

Lemma split4_cols (x : tensor R) B H :
  shape x = [B; H * 4] ->
  exists c0 c1 c2 c3,
    (chunks <- split x 4 1 ;; unpack4 chunks) = Ok (c0, c1, c2, c3) /\
    shape c0 = [B; H] /\ shape c1 = [B; H] /\ shape c2 = [B; H] /\ shape c3 = [B; H] /\
    forall i j, i < B -> j < H ->
      tget c0 [i; j] = tget x [i; j] /\
      tget c1 [i; j] = tget x [i; H + j] /\
      tget c2 [i; j] = tget x [i; 2 * H + j] /\
      tget c3 [i; j] = tget x [i; 3 * H + j].
Proof.
  intros Hx. unfold split, rank. rewrite Hx.
  cbn [List.length nth Nat.ltb Nat.leb andb].
  rewrite Nat.Div0.mod_mul, Nat.div_mul by discriminate.
  cbn [Nat.eqb seq map bind unpack4 tset firstn skipn app].
  do 4 eexists. split; [reflexivity|]. repeat (split; [reflexivity|]).
  intros i j Hi Hj.
  rewrite !tget_tabulate by (repeat constructor; assumption).
  cbn [nth tset firstn skipn app].
  repeat split; do 3 f_equal; lia.
Qed.

Lemma split3_cols (x : tensor R) B H :
  shape x = [B; H * 3] ->
  exists c0 c1 c2,
    (chunks <- split x 3 1 ;; unpack3 chunks) = Ok (c0, c1, c2) /\
    shape c0 = [B; H] /\ shape c1 = [B; H] /\ shape c2 = [B; H] /\
    forall i j, i < B -> j < H ->
      tget c0 [i; j] = tget x [i; j] /\
      tget c1 [i; j] = tget x [i; H + j] /\
      tget c2 [i; j] = tget x [i; 2 * H + j].
Proof.
  intros Hx. unfold split, rank. rewrite Hx.
  cbn [List.length nth Nat.ltb Nat.leb andb].
  rewrite Nat.Div0.mod_mul, Nat.div_mul by discriminate.
  cbn [Nat.eqb seq map bind unpack3 tset firstn skipn app].
  do 3 eexists. split; [reflexivity|]. repeat (split; [reflexivity|]).
  intros i j Hi Hj.
  rewrite !tget_tabulate by (repeat constructor; assumption).
  cbn [nth tset firstn skipn app].
  repeat split; do 3 f_equal; lia.
Qed.

(** The placeholder is neutral: zeros of the shape of a well-formed tensor,
    added to it, give the tensor back. *)
Lemma plus_zeros (z x : tensor R) :
  z = full (shape x) 0%R -> wf x -> _plus z x = Ok x.
Proof.
  intros -> Hwf. unfold _plus, elemwise, full. rewrite shape_tabulate, shape_eqb_refl.
  f_equal.
  transitivity (tabulate (shape x) (fun idx => tget x idx));
    [|apply tabulate_tget; assumption].
  apply tabulate_ext. intros idx Hb.
  rewrite tget_tabulate by assumption. apply Rplus_0_l.
Qed.

Lemma Activation_sigmoid x : Activation x "sigmoid" = Ok (tmap sigmoid x).
Proof. reflexivity. Qed.

Lemma Activation_tanh x : Activation x "tanh" = Ok (tmap tanh x).
Proof. reflexivity. Qed.

Lemma layer_norm_ext n scale shift eps (f g : nat -> R) j :
  (forall c, c < n -> f c = g c) -> j < n ->
  layer_norm n scale shift eps f j = layer_norm n scale shift eps g j.
Proof.
  intros Hfg Hj.
  assert (Hm : row_mean n f = row_mean n g).
  { unfold row_mean. f_equal. apply rsum_ext. assumption. }
  assert (Hv : row_var n f = row_var n g).
  { unfold row_var. rewrite Hm. f_equal. apply rsum_ext.
    intros c Hc. rewrite Hfg by assumption. reflexivity. }
  unfold layer_norm. rewrite Hm, Hv, Hfg by assumption. reflexivity.
Qed.

(** The placeholder a ready cell uses. *)
Lemma ready_placeholder (st : cell_state) (i2h : tensor R) sh :
  shape i2h = sh -> placeholder_ready st sh ->
  (if (_counter st + 1 =? 0)%Z then Ok (zeros_like i2h)
   else match _shape_fix st with
        | Some z => Ok z
        | None => Raise AssertionError
        end) = Ok (full sh 0%R).
Proof.
  intros Hs Hready.
  assert (Hz : zeros_like i2h = full sh 0%R) by (unfold zeros_like, full; rewrite Hs; reflexivity).
  destruct Hready as [Hc | Hf].
  - rewrite Hc. cbn. rewrite Hz. reflexivity.
  - rewrite Hf, Hz. destruct (_counter st + 1 =? 0)%Z; reflexivity.
Qed.

Lemma lstm_call_rows (a : args) (self : LayerNormLSTMCell.t) (st : cell_state)
  (x h_prev c_prev : tensor R) (B I H : nat) :
  0 < H -> lstm_shapes a self I H ->
  shape x = [B; I] -> shape h_prev = [B; H] -> shape c_prev = [B; H] ->
  placeholder_ready st [B; H * 4] ->
  exists h c,
    LayerNormLSTMCell.__call__ a self st x [h_prev; c_prev] =
      Ok (h, [h; c], mkCellState (_counter st + 1) (Some (full [B; H * 4] 0%R))) /\
    shape h = [B; H] /\ shape c = [B; H] /\ wf h /\ wf c /\
    forall i j, i < B -> j < H ->
      tget c [i; j] = lstm_c a self I H (row x i) (row h_prev i) (row c_prev i) j /\
      tget h [i; j] = lstm_h a self I H (row x i) (row h_prev i) (row c_prev i) j.
Proof.
  intros HH (Hn & HiW & HiB & HhW & HhB & HiNs & HiNb & HhNs & HhNb & HcNs & HcNb)
         Hx Hh Hc Hready.
  unfold LayerNormLSTMCell.__call__.
  assert (Hpos : (0 < mx.rnn._num_hidden (LayerNormLSTMCell.base self) * 4)%Z) by lia.
  assert (Hnat : Z.to_nat (mx.rnn._num_hidden (LayerNormLSTMCell.base self) * 4) = H * 4) by lia.
  destruct (FullyConnected_rows a _ _ x Hx Hpos Hnat HiW HiB) as (i2h & Ei2h & Di2h).
  rewrite Ei2h. cbn [bind].
  assert (Hsi2h : shape i2h = [B; H * 4]) by (rewrite Di2h; reflexivity).
  rewrite (ready_placeholder i2h Hsi2h Hready). cbn [bind getitem nth_error].
  destruct (FullyConnected_rows a _ _ h_prev Hh Hpos Hnat HhW HhB) as (h2h & Eh2h & Dh2h).
  rewrite Eh2h. cbn [bind].
  assert (Hsh2h : shape h2h = [B; H * 4]) by (rewrite Dh2h; reflexivity).
  assert (Hwh2h : wf h2h) by (rewrite Dh2h; apply wf_tabulate).
  destruct (@normalize_rows a (LayerNormLSTMCell._iN self) i2h LayerNormalization.eps_default
              B (H * 4) Hsi2h HiNs HiNb) as (ni & Eni & Hsni & Vni).
  rewrite Eni. cbn [bind].
  rewrite plus_zeros by (rewrite ?Hsh2h; auto). cbn [bind].
  destruct (@normalize_rows a (LayerNormLSTMCell._hN self) h2h LayerNormalization.eps_default
              B (H * 4) Hsh2h HhNs HhNb) as (nh & Enh & Hsnh & Vnh).
  rewrite Enh. cbn [bind].
  destruct (elemwise_ok Rplus ni nh Hsni Hsnh) as (gates & Eg & Hsg & _ & Vg).
  unfold _plus at 1. rewrite Eg. cbn [bind].
  destruct (@split4_cols gates B H Hsg) as (g0 & g1 & g2 & g3 & Es & Hs0 & Hs1 & Hs2 & Hs3 & Vs).
  rewrite Es. cbn [bind].
  rewrite (Activation_sigmoid g0), (Activation_sigmoid g1), (Activation_tanh g2),
    (Activation_sigmoid g3). cbn [bind].
  destruct (elemwise_ok Rmult (tmap sigmoid g1) c_prev (sh := [B; H]))
    as (kept & Ek & Hsk & _ & Vk); [rewrite shape_tmap; assumption | assumption |].
  unfold _mul at 1. rewrite Ek. cbn [bind].
  destruct (elemwise_ok Rmult (tmap sigmoid g0) (tmap tanh g2) (sh := [B; H]))
    as (written & Ew & Hsw & _ & Vw); [rewrite shape_tmap; assumption ..|].
  unfold _mul at 1. rewrite Ew. cbn [bind].
  destruct (elemwise_ok Rplus kept written Hsk Hsw) as (c & Ec & Hsc & Hwc & Vc).
  unfold _plus at 1. rewrite Ec. cbn [bind].
  destruct (@normalize_rows a (LayerNormLSTMCell._cN self) c LayerNormalization.eps_default
              B H Hsc HcNs HcNb) as (nc & Enc & Hsnc & Vnc).
  rewrite Enc. cbn [bind]. rewrite (Activation_tanh nc). cbn [bind].
  destruct (elemwise_ok Rmult (tmap sigmoid g3) (tmap tanh nc) (sh := [B; H]))
    as (h & Eh & Hsh & Hwh & Vh); [rewrite shape_tmap; assumption ..|].
  unfold _mul. rewrite Eh. cbn [bind].
  exists h, c. split; [reflexivity|]. repeat (split; [assumption|]).
  (* the gates, entry by entry *)
  assert (Vgates : forall i j, i < B -> j < H * 4 ->
            tget gates [i; j] =
            lstm_gatesRaw a self I H (row x i) (row h_prev i) j).
  { intros i j Hi Hj.
    rewrite Vg by (repeat constructor; assumption).
    rewrite Vni, Vnh by assumption.
    unfold lstm_gatesRaw, unit_norm. f_equal.
    - apply layer_norm_ext; [|assumption]. intros c' Hc'.
      rewrite Di2h. apply tget_FullyConnected; assumption.
    - apply layer_norm_ext; [|assumption]. intros c' Hc'.
      rewrite Dh2h. apply tget_FullyConnected; assumption. }
  assert (Vcell : forall i j, i < B -> j < H ->
            tget c [i; j] = lstm_c a self I H (row x i) (row h_prev i) (row c_prev i) j).
  { intros i j Hi Hj.
    assert (Hb : in_bounds [B; H] [i; j]) by (repeat constructor; assumption).
    destruct (Vs i j Hi Hj) as (V0 & V1 & V2 & V3).
    rewrite Vc, Vk, Vw by assumption.
    rewrite !tget_tmap by (rewrite ?Hs0, ?Hs1, ?Hs2; assumption).
    rewrite V0, V1, V2, !Vgates by lia.
    reflexivity. }
  intros i j Hi Hj. split; [apply Vcell; assumption|].
  assert (Hb : in_bounds [B; H] [i; j]) by (repeat constructor; assumption).
  destruct (Vs i j Hi Hj) as (V0 & V1 & V2 & V3).
  rewrite Vh by assumption.
  rewrite !tget_tmap by (rewrite ?Hs3, ?Hsnc; assumption).
  rewrite V3, Vgates, Vnc by lia.
  unfold lstm_h, lstm_outGate, unit_norm. do 2 f_equal.
  apply layer_norm_ext; [|assumption]. intros c' Hc'. apply Vcell; assumption.
Qed.

Lemma gru_call_rows (a : args) (self : LayerNormGRUCell.t) (st : cell_state)
  (x h_prev : tensor R) (B I H : nat) :
  0 < H -> gru_shapes a self I H ->
  shape x = [B; I] -> shape h_prev = [B; H] ->
  placeholder_ready st [B; H * 3] ->
  exists h,
    LayerNormGRUCell.__call__ a self st x [h_prev] =
      Ok (h, [h], mkCellState (_counter st + 1) (Some (full [B; H * 3] 0%R))) /\
    shape h = [B; H] /\ wf h /\
    forall i j, i < B -> j < H ->
      tget h [i; j] = gru_h a self I H (row x i) (row h_prev i) j.
Proof.
  intros HH (Hn & HiW & HiB & HhW & HhB & HiNs & HiNb & HhNs & HhNb) Hx Hh Hready.
  unfold LayerNormGRUCell.__call__. cbn [bind getitem nth_error].
  assert (Hpos : (0 < mx.rnn._num_hidden (LayerNormGRUCell.base self) * 3)%Z) by lia.
  assert (Hnat : Z.to_nat (mx.rnn._num_hidden (LayerNormGRUCell.base self) * 3) = H * 3) by lia.
  destruct (FullyConnected_rows a _ _ x Hx Hpos Hnat HiW HiB) as (i2h & Ei2h & Di2h).
  rewrite Ei2h. cbn [bind].
  assert (Hsi2h : shape i2h = [B; H * 3]) by (rewrite Di2h; reflexivity).
  destruct (FullyConnected_rows a _ _ h_prev Hh Hpos Hnat HhW HhB) as (h2h & Eh2h & Dh2h).
  rewrite Eh2h. cbn [bind].
  assert (Hsh2h : shape h2h = [B; H * 3]) by (rewrite Dh2h; reflexivity).
  assert (Hwh2h : wf h2h) by (rewrite Dh2h; apply wf_tabulate).
  rewrite (ready_placeholder i2h Hsi2h Hready). cbn [bind].
  destruct (@normalize_rows a (LayerNormGRUCell._iN self) i2h LayerNormalization.eps_default
              B (H * 3) Hsi2h HiNs HiNb) as (ni & Eni & Hsni & Vni).
  rewrite Eni. cbn [bind].
  rewrite plus_zeros by (rewrite ?Hsh2h; auto). cbn [bind].
  destruct (@normalize_rows a (LayerNormGRUCell._hN self) h2h LayerNormalization.eps_default
              B (H * 3) Hsh2h HhNs HhNb) as (nh & Enh & Hsnh & Vnh).
  rewrite Enh. cbn [bind].
  destruct (@split3_cols ni B H Hsni) as (ir & iz & ic & Ei & Hsir & Hsiz & Hsic & Vi).
  rewrite Ei. cbn [bind].
  destruct (@split3_cols nh B H Hsnh) as (hr & hz & hc & Eh & Hshr & Hshz & Hshc & Vh).
  rewrite Eh. cbn [bind].
  destruct (elemwise_ok Rplus ir hr Hsir Hshr) as (rs & Ers & Hsrs & _ & Vrs).
  unfold _plus at 1. rewrite Ers. cbn [bind]. rewrite (Activation_sigmoid rs). cbn [bind].
  destruct (elemwise_ok Rplus iz hz Hsiz Hshz) as (zs & Ezs & Hszs & _ & Vzs).
  unfold _plus at 1. rewrite Ezs. cbn [bind]. rewrite (Activation_sigmoid zs). cbn [bind].
  destruct (elemwise_ok Rmult (tmap sigmoid rs) hc (sh := [B; H]))
    as (gated & Eg & Hsg & _ & Vg); [rewrite shape_tmap; assumption | assumption |].
  unfold _mul at 1. rewrite Eg. cbn [bind].
  destruct (elemwise_ok Rplus ic gated Hsic Hsg) as (hs & Ehs & Hshs & _ & Vhs).
  unfold _plus at 1. rewrite Ehs. cbn [bind]. rewrite (Activation_tanh hs). cbn [bind].
  destruct (elemwise_ok Rmult (_rminus_scalar 1 (tmap sigmoid zs)) (tmap tanh hs) (sh := [B; H]))
    as (fr & Efr & Hsfr & _ & Vfr);
    [unfold _rminus_scalar; rewrite !shape_tmap; assumption | rewrite shape_tmap; assumption |].
  unfold _mul at 1. rewrite Efr. cbn [bind].
  destruct (elemwise_ok Rmult (tmap sigmoid zs) h_prev (sh := [B; H]))
    as (kp & Ekp & Hskp & _ & Vkp); [rewrite shape_tmap; assumption | assumption |].
  unfold _mul. rewrite Ekp. cbn [bind].
  destruct (elemwise_ok Rplus fr kp Hsfr Hskp) as (h & Eh' & Hsh & Hwh & Vh').
  unfold _plus. rewrite Eh'. cbn [bind].
  exists h. split; [reflexivity|]. repeat (split; [assumption|]).
  assert (Vni' : forall i j, i < B -> j < H * 3 ->
            tget ni [i; j] = gru_i2h a self I H (row x i) j).
  { intros i j Hi Hj. rewrite Vni by assumption. unfold gru_i2h, unit_norm.
    apply layer_norm_ext; [|assumption]. intros c' Hc'.
    rewrite Di2h. apply tget_FullyConnected; assumption. }
  assert (Vnh' : forall i j, i < B -> j < H * 3 ->
            tget nh [i; j] = gru_h2h a self H (row h_prev i) j).
  { intros i j Hi Hj. rewrite Vnh by assumption. unfold gru_h2h, unit_norm.
    apply layer_norm_ext; [|assumption]. intros c' Hc'.
    rewrite Dh2h. apply tget_FullyConnected; assumption. }
  intros i j Hi Hj.
  assert (Hb : in_bounds [B; H] [i; j]) by (repeat constructor; assumption).
  destruct (Vi i j Hi Hj) as (Vi0 & Vi1 & Vi2).
  destruct (Vh i j Hi Hj) as (Vh0 & Vh1 & Vh2).
  rewrite Vh', Vfr, Vkp by assumption.
  unfold _rminus_scalar.
  rewrite !tget_tmap by (rewrite ?shape_tmap, ?Hszs, ?Hshs; assumption).
  rewrite Vzs, Vhs, Vg by assumption.
  rewrite !tget_tmap by (rewrite ?Hsrs; assumption).
  rewrite Vrs by assumption.
  rewrite Vi0, Vi1, Vi2, Vh0, Vh1, Vh2, !Vni', !Vnh' by lia.
  reflexivity.
Qed.

(** ** The steps of the across-gates cells *)

(** C5: the across-gates LSTM step.  The raw gates are the sum of the two
    normalised projections, [lstm_gatesRaw]; their four chunks of H entries are
    the input gate, the forget gate, the candidate and the output gate, in this
    order, through sigmoid, sigmoid, tanh and sigmoid; the cell memory is
    forgetGate * c_prev + inGate * candidate, the output is
    outGate * tanh(normCell(c)), and the call returns the output h with the
    new state (h, c). *)
Theorem lstm_step_equations (a : args) (self : LayerNormLSTMCell.t) (st : cell_state)
  (x h_prev c_prev : tensor R) (B I H : nat) :
  0 < H -> lstm_shapes a self I H ->
  shape x = [B; I] -> shape h_prev = [B; H] -> shape c_prev = [B; H] ->
  placeholder_ready st [B; H * 4] ->
  exists h c st',
    LayerNormLSTMCell.__call__ a self st x [h_prev; c_prev] = Ok (h, [h; c], st') /\
    shape h = [B; H] /\ shape c = [B; H] /\
    forall i j, i < B -> j < H ->
      let gatesRaw := lstm_gatesRaw a self I H (row x i) (row h_prev i) in
      let inGate := sigmoid (gatesRaw j) in
      let forgetGate := sigmoid (gatesRaw (H + j)) in
      let candidate := tanh (gatesRaw (2 * H + j)) in
      let outGate := sigmoid (gatesRaw (3 * H + j)) in
      tget c [i; j] = (forgetGate * tget c_prev [i; j] + inGate * candidate)%R /\
      tget h [i; j] =
        (outGate * tanh (unit_norm a (LayerNormLSTMCell._cN self) H (row c i) j))%R.
Proof.
  intros HH Hshapes Hx Hh Hc Hready.
  destruct (@lstm_call_rows a self st x h_prev c_prev B I H HH Hshapes Hx Hh Hc Hready)
    as (h & c & Ecall & Hsh & Hsc & _ & _ & V).
  exists h, c. eexists. split; [exact Ecall|]. split; [assumption|]. split; [assumption|].
  intros i j Hi Hj. cbv zeta.
  destruct (V i j Hi Hj) as [Vc Vh]. split; [rewrite Vc; reflexivity|].
  rewrite Vh. unfold lstm_h, lstm_outGate, unit_norm. do 2 f_equal.
  apply layer_norm_ext; [|assumption].
  intros c' Hc'. symmetry. apply V; assumption.
Qed.

(** C6: the across-gates GRU step.  Each projection is normalised whole by its
    own unit ([gru_i2h], [gru_h2h], over 3H entries); their chunks give
    resetGate = sigmoid(i2h_r + h2h_r), updateGate = sigmoid(i2h_z + h2h_z),
    candidate = tanh(i2h_c + resetGate * h2h_c), and the new hidden state
    (1 - updateGate) * candidate + updateGate * h_prev, which is the output. *)
Theorem gru_step_equations (a : args) (self : LayerNormGRUCell.t) (st : cell_state)
  (x h_prev : tensor R) (B I H : nat) :
  0 < H -> gru_shapes a self I H ->
  shape x = [B; I] -> shape h_prev = [B; H] ->
  placeholder_ready st [B; H * 3] ->
  exists h st',
    LayerNormGRUCell.__call__ a self st x [h_prev] = Ok (h, [h], st') /\
    shape h = [B; H] /\
    forall i j, i < B -> j < H ->
      let i2h := gru_i2h a self I H (row x i) in
      let h2h := gru_h2h a self H (row h_prev i) in
      let resetGate := sigmoid (i2h j + h2h j) in
      let updateGate := sigmoid (i2h (H + j) + h2h (H + j)) in
      let candidate := tanh (i2h (2 * H + j) + resetGate * h2h (2 * H + j)) in
      tget h [i; j] = ((1 - updateGate) * candidate + updateGate * tget h_prev [i; j])%R.
Proof.
  intros HH Hshapes Hx Hh Hready.
  destruct (@gru_call_rows a self st x h_prev B I H HH Hshapes Hx Hh Hready) as (h & Ecall & Hsh & _ & V).
  exists h. eexists. split; [exact Ecall|]. split; [assumption|].
  intros i j Hi Hj. cbv zeta. rewrite V by assumption. reflexivity.
Qed.

Lemma lstm_call_step (a : args) (self : LayerNormLSTMCell.t) (st : cell_state)
  (x h_prev c_prev : tensor R) (B I H : nat) :
  0 < H -> lstm_shapes a self I H ->
  shape x = [B; I] -> shape h_prev = [B; H] -> shape c_prev = [B; H] ->
  placeholder_ready st [B; H * 4] ->
  outputs (LayerNormLSTMCell.__call__ a self st x [h_prev; c_prev]) =
  Ok (lstm_step a self B I H x h_prev c_prev).
Proof.
  intros HH Hshapes Hx Hh Hc Hready.
  destruct (@lstm_call_rows a self st x h_prev c_prev B I H HH Hshapes Hx Hh Hc Hready)
    as (h & c & Ecall & Hsh & Hsc & Hwh & Hwc & V).
  rewrite Ecall. unfold outputs, lstm_step.
  assert (Eh : h = tabulate [B; H] (fun idx =>
             lstm_h a self I H (row x (nth 0 idx 0)) (row h_prev (nth 0 idx 0))
               (row c_prev (nth 0 idx 0)) (nth 1 idx 0))).
  { apply tensor_ext; [assumption | assumption | apply wf_tabulate |].
    rewrite Hsh. intros idx Hb. bounds Hb.
    rewrite tget_tabulate by (repeat constructor; assumption). apply V; assumption. }
  assert (Ec : c = tabulate [B; H] (fun idx =>
             lstm_c a self I H (row x (nth 0 idx 0)) (row h_prev (nth 0 idx 0))
               (row c_prev (nth 0 idx 0)) (nth 1 idx 0))).
  { apply tensor_ext; [assumption | assumption | apply wf_tabulate |].
    rewrite Hsc. intros idx Hb. bounds Hb.
    rewrite tget_tabulate by (repeat constructor; assumption). apply V; assumption. }
  rewrite <- Eh, <- Ec. reflexivity.
Qed.

Lemma gru_call_step (a : args) (self : LayerNormGRUCell.t) (st : cell_state)
  (x h_prev : tensor R) (B I H : nat) :
  0 < H -> gru_shapes a self I H ->
  shape x = [B; I] -> shape h_prev = [B; H] ->
  placeholder_ready st [B; H * 3] ->
  outputs (LayerNormGRUCell.__call__ a self st x [h_prev]) =
  Ok (gru_step a self B I H x h_prev).
Proof.
  intros HH Hshapes Hx Hh Hready.
  destruct (@gru_call_rows a self st x h_prev B I H HH Hshapes Hx Hh Hready) as (h & Ecall & Hsh & Hwh & V).
  rewrite Ecall. unfold outputs, gru_step.
  assert (Eh : h = tabulate [B; H] (fun idx =>
             gru_h a self I H (row x (nth 0 idx 0)) (row h_prev (nth 0 idx 0)) (nth 1 idx 0))).
  { apply tensor_ext; [assumption | assumption | apply wf_tabulate |].
    rewrite Hsh. intros idx Hb. bounds Hb.
    rewrite tget_tabulate by (repeat constructor; assumption). apply V; assumption. }
  rewrite <- Eh. reflexivity.
Qed.

Lemma fresh_state_ready sh : placeholder_ready fresh_state sh.
Proof. left. reflexivity. Qed.

Lemma state_after_call_ready n sh : placeholder_ready (mkCellState n (Some (full sh 0%R))) sh.
Proof. right. reflexivity. Qed.

(** C9: the placeholder of the across-gates cells is neutral.  Zeros of the
    shape of the projection, added to the hidden-side projection before its
    normalisation, change nothing; a cell is ready at its first call and stays
    ready after every call, and from every ready state, the first call as the
    later ones, the LSTM and the GRU call return the output and the new state
    of the one recurrence that has no placeholder. *)
Theorem placeholder_is_neutral :
  (forall (a : args) (ln : LayerNormalization.t) (i2h h2h : tensor R) (eps : R),
      shape i2h = shape h2h -> wf h2h ->
      (s <- _plus (zeros_like i2h) h2h ;; LayerNormalization.normalize a ln s eps) =
      LayerNormalization.normalize a ln h2h eps) /\
  (forall sh, placeholder_ready fresh_state sh) /\
  (forall (a : args) (self : LayerNormLSTMCell.t) (st : cell_state)
          (x h_prev c_prev : tensor R) (B I H : nat),
      0 < H -> lstm_shapes a self I H ->
      shape x = [B; I] -> shape h_prev = [B; H] -> shape c_prev = [B; H] ->
      placeholder_ready st [B; H * 4] ->
      exists st',
        LayerNormLSTMCell.__call__ a self st x [h_prev; c_prev] =
          Ok (lstm_step a self B I H x h_prev c_prev, st') /\
        placeholder_ready st' [B; H * 4]) /\
  (forall (a : args) (self : LayerNormGRUCell.t) (st : cell_state)
          (x h_prev : tensor R) (B I H : nat),
      0 < H -> gru_shapes a self I H ->
      shape x = [B; I] -> shape h_prev = [B; H] ->
      placeholder_ready st [B; H * 3] ->
      exists st',
        LayerNormGRUCell.__call__ a self st x [h_prev] =
          Ok (gru_step a self B I H x h_prev, st') /\
        placeholder_ready st' [B; H * 3]).
Proof.
  split; [|split; [|split]].
  - intros a ln i2h h2h eps Hs Hwf.
    rewrite plus_zeros; [reflexivity | | assumption].
    unfold zeros_like, full. rewrite Hs. reflexivity.
  - apply fresh_state_ready.
  - intros a self st x h_prev c_prev B I H HH Hshapes Hx Hh Hc Hready.
    pose proof (@lstm_call_step a self st x h_prev c_prev B I H HH Hshapes Hx Hh Hc Hready)
      as Hstep.
    destruct (@lstm_call_rows a self st x h_prev c_prev B I H HH Hshapes Hx Hh Hc Hready)
      as (h & c & Ecall & _).
    rewrite Ecall in Hstep. cbn [outputs] in Hstep.
    exists (mkCellState (_counter st + 1) (Some (full [B; H * 4] 0%R))).
    split; [|apply state_after_call_ready].
    rewrite Ecall. congruence.
  - intros a self st x h_prev B I H HH Hshapes Hx Hh Hready.
    pose proof (@gru_call_step a self st x h_prev B I H HH Hshapes Hx Hh Hready) as Hstep.
    destruct (@gru_call_rows a self st x h_prev B I H HH Hshapes Hx Hh Hready)
      as (h & Ecall & _).
    rewrite Ecall in Hstep. cbn [outputs] in Hstep.
    exists (mkCellState (_counter st + 1) (Some (full [B; H * 3] 0%R))).
    split; [|apply state_after_call_ready].
    rewrite Ecall. congruence.
Qed.

(** ** Determinism without dropout *)

Lemma no_dropout_test (p : R) (X : Type) (u v : X) :
  p = 0%R -> (if Rgt_dec p 0 then u else v) = v.
Proof.
  intros ->. destruct (Rgt_dec 0 0) as [Hgt|_]; [|reflexivity].
  exfalso. lra.
Qed.

Lemma for_each_invariant {S X} (P : S -> Prop) (body : S -> X -> result S) :
  (forall s x s', P s -> body s x = Ok s' -> P s') ->
  forall xs s s', P s -> for_each body xs s = Ok s' -> P s'.
Proof.
  intros Hbody. induction xs as [|x xs IH]; intros s s' Hs Hrun; simpl in Hrun.
  - injection Hrun as <-. assumption.
  - destruct (body s x) as [s1|e] eqn:E; [|discriminate].
    cbn [bind] in Hrun. eapply IH; [|eassumption]. eapply Hbody; eassumption.
Qed.

Lemma existsb_snoc {X} (f : X -> bool) (l : list X) (x : X) :
  existsb f (l ++ [x]) = existsb f l || f x.
Proof. rewrite existsb_app. simpl. rewrite orb_false_r. reflexivity. Qed.

Lemma layer_adds_no_dropout C config prefix rnn layer rnn' :
  dropout config = 0%R ->
  existsb is_dropout rnn = false ->
  get_stacked_rnn_layer C config prefix rnn layer = Ok rnn' ->
  existsb is_dropout rnn' = false.
Proof.
  intros Hd Hrnn. unfold get_stacked_rnn_layer.
  match goal with |- bind ?m _ = _ -> _ => destruct m as [c|e] eqn:Ec end;
    [|discriminate].
  cbn [bind]. rewrite no_dropout_test by assumption.
  intros Hr. injection Hr as <-.
  rewrite existsb_snoc, Hrnn. cbn [orb].
  assert (Hc : is_dropout c = false).
  { repeat match type of Ec with
           | (if ?b then _ else _) = _ => destruct b
           | bind ?m _ = _ => destruct m; cbn [bind] in Ec
           end;
      try discriminate; injection Ec as <-; reflexivity. }
  destruct (residual config && (0 <? layer)%Z); [reflexivity | assumption].
Qed.

(** Runs a chain of operations on both sides at once: either a step raises
    on both sides, or both go on with the same value. *)
Ltac same_steps :=
  repeat (cbn [bind];
          match goal with
          | |- outputs (bind ?m _) = outputs (bind ?m _) =>
            destruct m; cbn [bind]; [|reflexivity]
          | |- outputs (match ?p with pair _ _ => _ end) = _ => destruct p
          end);
  reflexivity.

(** C8: with a dropout rate of 0 the operations do not depend on what the
    runtime draws, nor on the calls made before.  [on] and [apply] return the
    same result for any two masks; the across-gates cells return the same
    output and new state from any two ready states, the per-gate cells for any
    two values of the call counter; and the stack builder adds no dropout
    cell. *)
Theorem dropout_zero_deterministic :
  (forall (a : args) (m1 m2 : list nat -> R) (self : MultiHeadAttention.t)
          (inputs : tensor R) (inputs_length : tensor nat) (length : Z),
      MultiHeadAttention.dropout self = 0%R ->
      MultiHeadAttention.on a m1 self inputs inputs_length length =
      MultiHeadAttention.on a m2 self inputs inputs_length length) /\
  (forall (a : args) (m1 m2 : list nat -> R) (self : FFNRelu.t) (x : tensor R) (length : Z),
      FFNRelu.dropout self = 0%R ->
      FFNRelu.apply a m1 self x length = FFNRelu.apply a m2 self x length) /\
  (forall (a : args) (self : LayerNormLSTMCell.t) (st1 st2 : cell_state)
          (x h_prev c_prev : tensor R) (B I H : nat),
      0 < H -> lstm_shapes a self I H ->
      shape x = [B; I] -> shape h_prev = [B; H] -> shape c_prev = [B; H] ->
      placeholder_ready st1 [B; H * 4] -> placeholder_ready st2 [B; H * 4] ->
      outputs (LayerNormLSTMCell.__call__ a self st1 x [h_prev; c_prev]) =
      outputs (LayerNormLSTMCell.__call__ a self st2 x [h_prev; c_prev])) /\
  (forall (a : args) (self : LayerNormGRUCell.t) (st1 st2 : cell_state)
          (x h_prev : tensor R) (B I H : nat),
      0 < H -> gru_shapes a self I H ->
      shape x = [B; I] -> shape h_prev = [B; H] ->
      placeholder_ready st1 [B; H * 3] -> placeholder_ready st2 [B; H * 3] ->
      outputs (LayerNormGRUCell.__call__ a self st1 x [h_prev]) =
      outputs (LayerNormGRUCell.__call__ a self st2 x [h_prev])) /\
  (forall (a : args) (self : LayerNormPerGateLSTMCell.t) (n1 n2 : Z)
          (x : tensor R) (states : list (tensor R)),
      outputs (LayerNormPerGateLSTMCell.__call__ a self n1 x states) =
      outputs (LayerNormPerGateLSTMCell.__call__ a self n2 x states)) /\
  (forall (a : args) (self : LayerNormPerGateGRUCell.t) (n1 n2 : Z)
          (x : tensor R) (states : list (tensor R)),
      outputs (LayerNormPerGateGRUCell.__call__ a self n1 x states) =
      outputs (LayerNormPerGateGRUCell.__call__ a self n2 x states)) /\
  (forall (C : constants) (config : RNNConfig) (prefix : string) (rnn : SequentialRNNCell),
      dropout config = 0%R ->
      get_stacked_rnn C config prefix = Ok rnn ->
      existsb is_dropout rnn = false).
Proof.
  repeat match goal with |- _ /\ _ => split end.
  - intros a m1 m2 self inputs inputs_length length Hd.
    unfold MultiHeadAttention.on.
    destruct (MultiHeadAttention.on_logits a self inputs length) as [[l v]|e]; [|reflexivity].
    cbn [bind].
    destruct (MultiHeadAttention.on_mask self l inputs_length) as [m|e]; [|reflexivity].
    cbn [bind]. unfold MultiHeadAttention.on_contexts.
    destruct (softmax m (-1)) as [p|e]; [|reflexivity].
    cbn [bind]. rewrite !no_dropout_test by assumption. reflexivity.
  - intros a m1 m2 self x length Hd. unfold FFNRelu.apply.
    destruct (reshape x [-3; -1]%Z) as [x'|e]; [|reflexivity]. cbn [bind].
    match goal with |- bind ?m _ = _ => destruct m as [h|e]; [|reflexivity] end.
    cbn [bind].
    destruct (Activation h "relu") as [h'|e]; [|reflexivity].
    cbn [bind]. rewrite !no_dropout_test by assumption. reflexivity.
  - intros a self st1 st2 x h_prev c_prev B I H HH Hshapes Hx Hh Hc Hr1 Hr2.
    rewrite (@lstm_call_step a self st1 x h_prev c_prev B I H) by assumption.
    rewrite (@lstm_call_step a self st2 x h_prev c_prev B I H) by assumption.
    reflexivity.
  - intros a self st1 st2 x h_prev B I H HH Hshapes Hx Hh Hr1 Hr2.
    rewrite (@gru_call_step a self st1 x h_prev B I H) by assumption.
    rewrite (@gru_call_step a self st2 x h_prev B I H) by assumption.
    reflexivity.
  - intros a self n1 n2 x states. unfold LayerNormPerGateLSTMCell.__call__. same_steps.
  - intros a self n1 n2 x states. unfold LayerNormPerGateGRUCell.__call__. same_steps.
  - intros C config prefix rnn Hd Hrun. unfold get_stacked_rnn in Hrun.
    apply (for_each_invariant (fun rnn => existsb is_dropout rnn = false)
             (get_stacked_rnn_layer C config prefix)) with (3 := Hrun); [|reflexivity].
    intros s x s' Hs Hbody. eapply layer_adds_no_dropout; eassumption.
Qed.

(** ** The theorems at concrete inputs *)

Lemma example_lstm_shapes : lstm_shapes (example_cell_args "lnlstm_" 8) example_lstm 1 2.
Proof. repeat split. Qed.

Lemma example_gru_shapes : gru_shapes (example_cell_args "lngru_" 6) example_gru 1 2.
Proof. repeat split. Qed.

Lemma normalize_layer_norm_witness :
  exists y,
    LayerNormalization.normalize example_norm_args (example_ln "ln" 2) example_h
      LayerNormalization.eps_default = Ok y /\
    shape y = [1; 2] /\
    forall i j, i < 1 -> j < 2 ->
      tget y [i; j] =
      (scale_at example_norm_args (example_ln "ln" 2) j *
       (tget example_h [i; j] - row_mean 2 (fun j' => tget example_h [i; j']))
       / sqrt (row_var 2 (fun j' => tget example_h [i; j']) + LayerNormalization.eps_default)
       + shift_at example_norm_args (example_ln "ln" 2) j)%R.
Proof.
  apply (@normalize_layer_norm example_norm_args (example_ln "ln" 2) example_h
           LayerNormalization.eps_default 1 2);
    solve [lia | reflexivity].
Defined.

Lemma lstm_step_equations_witness :
  exists h c st',
    LayerNormLSTMCell.__call__ (example_cell_args "lnlstm_" 8) example_lstm fresh_state
      example_x [example_h; example_h] = Ok (h, [h; c], st') /\
    shape h = [1; 2] /\ shape c = [1; 2] /\
    forall i j, i < 1 -> j < 2 ->
      let gatesRaw := lstm_gatesRaw (example_cell_args "lnlstm_" 8) example_lstm 1 2
                        (row example_x i) (row example_h i) in
      let inGate := sigmoid (gatesRaw j) in
      let forgetGate := sigmoid (gatesRaw (2 + j)) in
      let candidate := tanh (gatesRaw (2 * 2 + j)) in
      let outGate := sigmoid (gatesRaw (3 * 2 + j)) in
      tget c [i; j] = (forgetGate * tget example_h [i; j] + inGate * candidate)%R /\
      tget h [i; j] =
        (outGate * tanh (unit_norm (example_cell_args "lnlstm_" 8)
                           (LayerNormLSTMCell._cN example_lstm) 2 (row c i) j))%R.
Proof.
  apply (@lstm_step_equations (example_cell_args "lnlstm_" 8) example_lstm fresh_state
           example_x example_h example_h 1 1 2);
    solve [lia | reflexivity | apply example_lstm_shapes | apply fresh_state_ready].
Defined.

Lemma gru_step_equations_witness :
  exists h st',
    LayerNormGRUCell.__call__ (example_cell_args "lngru_" 6) example_gru fresh_state
      example_x [example_h] = Ok (h, [h], st') /\
    shape h = [1; 2] /\
    forall i j, i < 1 -> j < 2 ->
      let i2h := gru_i2h (example_cell_args "lngru_" 6) example_gru 1 2 (row example_x i) in
      let h2h := gru_h2h (example_cell_args "lngru_" 6) example_gru 2 (row example_h i) in
      let resetGate := sigmoid (i2h j + h2h j) in
      let updateGate := sigmoid (i2h (2 + j) + h2h (2 + j)) in
      let candidate := tanh (i2h (2 * 2 + j) + resetGate * h2h (2 * 2 + j)) in
      tget h [i; j] = ((1 - updateGate) * candidate + updateGate * tget example_h [i; j])%R.
Proof.
  apply (@gru_step_equations (example_cell_args "lngru_" 6) example_gru fresh_state
           example_x example_h 1 1 2);
    solve [lia | reflexivity | apply example_gru_shapes | apply fresh_state_ready].
Defined.

Lemma placeholder_is_neutral_witness :
  (s <- _plus (zeros_like (full [1; 8] 1%R)) (full [1; 8] 2%R) ;;
   LayerNormalization.normalize example_norm_args (example_ln "ln" 8) s
     LayerNormalization.eps_default) =
  LayerNormalization.normalize example_norm_args (example_ln "ln" 8) (full [1; 8] 2%R)
    LayerNormalization.eps_default /\
  (exists st',
      LayerNormLSTMCell.__call__ (example_cell_args "lnlstm_" 8) example_lstm fresh_state
        example_x [example_h; example_h] =
      Ok (lstm_step (example_cell_args "lnlstm_" 8) example_lstm 1 1 2
            example_x example_h example_h, st') /\
      placeholder_ready st' [1; 2 * 4]) /\
  (exists st',
      LayerNormGRUCell.__call__ (example_cell_args "lngru_" 6) example_gru fresh_state
        example_x [example_h] =
      Ok (gru_step (example_cell_args "lngru_" 6) example_gru 1 1 2 example_x example_h, st') /\
      placeholder_ready st' [1; 2 * 3]).
Proof.
  destruct placeholder_is_neutral as (Hplus & Hfresh & Hlstm & Hgru).
  split; [|split].
  - apply Hplus; [reflexivity | apply wf_tabulate].
  - apply Hlstm;
      solve [lia | reflexivity | apply example_lstm_shapes | apply Hfresh].
  - apply Hgru;
      solve [lia | reflexivity | apply example_gru_shapes | apply Hfresh].
Defined.

Lemma dropout_zero_deterministic_witness :
  MultiHeadAttention.on example_args (fun _ => 0%R) example_attention
    example_inputs example_lengths 2 =
  MultiHeadAttention.on example_args (fun _ => 2%R) example_attention
    example_inputs example_lengths 2 /\
  FFNRelu.apply example_args (fun _ => 0%R) example_ffn example_inputs 2 =
  FFNRelu.apply example_args (fun _ => 2%R) example_ffn example_inputs 2 /\
  outputs (LayerNormLSTMCell.__call__ (example_cell_args "lnlstm_" 8) example_lstm
             fresh_state example_x [example_h; example_h]) =
  outputs (LayerNormLSTMCell.__call__ (example_cell_args "lnlstm_" 8) example_lstm
             (mkCellState 0 (Some (full [1; 2 * 4] 0%R))) example_x [example_h; example_h]) /\
  outputs (LayerNormGRUCell.__call__ (example_cell_args "lngru_" 6) example_gru
             fresh_state example_x [example_h]) =
  outputs (LayerNormGRUCell.__call__ (example_cell_args "lngru_" 6) example_gru
             (mkCellState 0 (Some (full [1; 2 * 3] 0%R))) example_x [example_h]) /\
  existsb is_dropout [] = false.
Proof.
  destruct dropout_zero_deterministic as (Hon & Happly & Hlstm & Hgru & _ & _ & Hstack).
  repeat match goal with |- _ /\ _ => split end.
  - apply Hon. reflexivity.
  - apply Happly. reflexivity.
  - apply Hlstm with (B := 1) (I := 1) (H := 2);
      solve [lia | reflexivity | apply example_lstm_shapes | apply fresh_state_ready
             | apply state_after_call_ready].
  - apply Hgru with (B := 1) (I := 1) (H := 2);
      solve [lia | reflexivity | apply example_gru_shapes | apply fresh_state_ready
             | apply state_after_call_ready].
  - apply (Hstack sockeye_constants (unknown_config 0) "rnn_"%string); reflexivity.
Defined.

(** * Part III: further properties of the code *)

(** ** The steps of the per-gate cells *)

Lemma FullyConnected_base (a : args) (W b : Symbol) (x : tensor R) (num_hidden : Z) B I O :
  shape x = [B; I] ->
  (0 < num_hidden)%Z -> Z.to_nat num_hidden = O ->
  shape (eval a W) = [O; I] -> shape (eval a b) = [O] ->
  exists y,
    FullyConnected x (eval a W) (eval a b) num_hidden = Ok y /\
    shape y = [B; O] /\ wf y /\
    forall i j, i < B -> j < O -> tget y [i; j] = linear a W b I (row x i) j.
Proof.
  intros Hx Hn HO HW Hb.
  destruct (FullyConnected_rows a W b x Hx Hn HO HW Hb) as (y & Ey & Dy).
  exists y. split; [assumption|]. rewrite Dy.
  split; [reflexivity|]. split; [apply wf_tabulate|].
  intros i j Hi Hj. apply tget_FullyConnected; assumption.
Qed.

(** X1: the per-gate LSTM step.  The two projections are added without
    normalisation; each of the four chunks of the sum goes through its own
    normalisation unit (units 0 to 3) and then its activation; the cell memory
    is forgetGate * c_prev + inGate * candidate, and the output is
    outGate * tanh(unit 4 (c)).  The call returns the output with the new
    state (h, c) and the counter advanced by one. *)
Theorem per_gate_lstm_step_equations (a : args) (self : LayerNormPerGateLSTMCell.t)
  (counter : Z) (n0 n1 n2 n3 n4 : LayerNormalization.t)
  (x h_prev c_prev : tensor R) (B I H : nat) :
  0 < H ->
  base_shapes a (LayerNormPerGateLSTMCell.base self) 4 I H ->
  LayerNormPerGateLSTMCell._norm_layers self = [n0; n1; n2; n3; n4] ->
  Forall (unit_shapes a H) [n0; n1; n2; n3; n4] ->
  shape x = [B; I] -> shape h_prev = [B; H] -> shape c_prev = [B; H] ->
  exists h c,
    LayerNormPerGateLSTMCell.__call__ a self counter x [h_prev; c_prev] =
      Ok (h, [h; c], (counter + 1)%Z) /\
    shape h = [B; H] /\ shape c = [B; H] /\
    forall i j, i < B -> j < H ->
      let b := LayerNormPerGateLSTMCell.base self in
      let gates := fun k =>
        (linear a (mx.rnn._iW b) (mx.rnn._iB b) I (row x i) k +
         linear a (mx.rnn._hW b) (mx.rnn._hB b) H (row h_prev i) k)%R in
      let inGate := sigmoid (unit_norm a n0 H (fun k => gates k) j) in
      let forgetGate := sigmoid (unit_norm a n1 H (fun k => gates (H + k)) j) in
      let candidate := tanh (unit_norm a n2 H (fun k => gates (2 * H + k)) j) in
      let outGate := sigmoid (unit_norm a n3 H (fun k => gates (3 * H + k)) j) in
      tget c [i; j] = (forgetGate * tget c_prev [i; j] + inGate * candidate)%R /\
      tget h [i; j] = (outGate * tanh (unit_norm a n4 H (row c i) j))%R.
Proof.
  intros HH (Hn & HiW & HiB & HhW & HhB) Hlayers Hunits Hx Hh Hc.
  inversion Hunits as [|? ? [H0s H0b] Hu1]; subst.
  inversion Hu1 as [|? ? [H1s H1b] Hu2]; subst.
  inversion Hu2 as [|? ? [H2s H2b] Hu3]; subst.
  inversion Hu3 as [|? ? [H3s H3b] Hu4]; subst.
  inversion Hu4 as [|? ? [H4s H4b] _]; subst.
  unfold LayerNormPerGateLSTMCell.__call__. rewrite Hlayers.
  set (b := LayerNormPerGateLSTMCell.base self) in *.
  assert (Hpos : (0 < mx.rnn._num_hidden b * 4)%Z) by lia.
  assert (Hnat : Z.to_nat (mx.rnn._num_hidden b * 4) = H * 4) by lia.
  destruct (FullyConnected_base a _ _ x Hx Hpos Hnat HiW HiB) as (i2h & Ei2h & Hsi & _ & Vi).
  rewrite Ei2h. cbn [bind getitem nth_error].
  destruct (FullyConnected_base a _ _ h_prev Hh Hpos Hnat HhW HhB) as (h2h & Eh2h & Hsh2 & _ & Vh2).
  rewrite Eh2h. cbn [bind].
  destruct (elemwise_ok Rplus i2h h2h Hsi Hsh2) as (gates & Eg & Hsg & _ & Vg).
  unfold _plus at 1. rewrite Eg. cbn [bind].
  destruct (@split4_cols gates B H Hsg) as (g0 & g1 & g2 & g3 & Es & Hs0 & Hs1 & Hs2 & Hs3 & Vs).
  rewrite Es. cbn [bind].
  destruct (@normalize_rows a n0 g0 LayerNormalization.eps_default B H Hs0 H0s H0b)
    as (m0 & E0 & Hm0 & V0). rewrite E0. cbn [bind].
  destruct (@normalize_rows a n1 g1 LayerNormalization.eps_default B H Hs1 H1s H1b)
    as (m1 & E1 & Hm1 & V1). rewrite E1. cbn [bind].
  destruct (@normalize_rows a n2 g2 LayerNormalization.eps_default B H Hs2 H2s H2b)
    as (m2 & E2 & Hm2 & V2). rewrite E2. cbn [bind].
  destruct (@normalize_rows a n3 g3 LayerNormalization.eps_default B H Hs3 H3s H3b)
    as (m3 & E3 & Hm3 & V3). rewrite E3. cbn [bind].
  rewrite (Activation_sigmoid m0), (Activation_sigmoid m1), (Activation_tanh m2),
    (Activation_sigmoid m3). cbn [bind].
  destruct (elemwise_ok Rmult (tmap sigmoid m1) c_prev (sh := [B; H]))
    as (kept & Ek & Hsk & _ & Vk); [rewrite shape_tmap; assumption | assumption |].
  unfold _mul at 1. rewrite Ek. cbn [bind].
  destruct (elemwise_ok Rmult (tmap sigmoid m0) (tmap tanh m2) (sh := [B; H]))
    as (written & Ew & Hsw & _ & Vw); [rewrite shape_tmap; assumption ..|].
  unfold _mul at 1. rewrite Ew. cbn [bind].
  destruct (elemwise_ok Rplus kept written Hsk Hsw) as (c & Ec & Hsc & _ & Vc).
  unfold _plus. rewrite Ec. cbn [bind].
  destruct (@normalize_rows a n4 c LayerNormalization.eps_default B H Hsc H4s H4b)
    as (nc & Enc & Hsnc & Vnc). rewrite Enc. cbn [bind].
  rewrite (Activation_tanh nc). cbn [bind].
  destruct (elemwise_ok Rmult (tmap sigmoid m3) (tmap tanh nc) (sh := [B; H]))
    as (h & Eh & Hsh & _ & Vh); [rewrite shape_tmap; assumption ..|].
  unfold _mul. rewrite Eh. cbn [bind].
  exists h, c. split; [reflexivity|]. split; [assumption|]. split; [assumption|].
  assert (Vgates : forall i k, i < B -> k < H * 4 ->
            tget gates [i; k] =
            (linear a (mx.rnn._iW b) (mx.rnn._iB b) I (row x i) k +
             linear a (mx.rnn._hW b) (mx.rnn._hB b) H (row h_prev i) k)%R).
  { intros i k Hi Hk. rewrite Vg by (repeat constructor; assumption).
    rewrite Vi, Vh2 by assumption. reflexivity. }
  intros i j Hi Hj. cbv zeta.
  assert (Hb : in_bounds [B; H] [i; j]) by (repeat constructor; assumption).
  split.
  - rewrite Vc, Vk, Vw by assumption.
    rewrite !tget_tmap by (rewrite ?Hm0, ?Hm1, ?Hm2; assumption).
    rewrite V0, V1, V2 by assumption. unfold unit_norm.
    f_equal; [f_equal; f_equal | f_equal; f_equal];
      (apply layer_norm_ext; [|assumption]; intros k Hk;
       destruct (Vs i k Hi Hk) as (W0 & W1 & W2 & W3);
       rewrite ?W0, ?W1, ?W2; apply Vgates; [assumption | lia]).
  - rewrite Vh by assumption.
    rewrite !tget_tmap by (rewrite ?Hm3, ?Hsnc; assumption).
    rewrite V3, Vnc by assumption. unfold unit_norm, row.
    f_equal. f_equal.
    apply layer_norm_ext; [|assumption]. intros k Hk.
    destruct (Vs i k Hi Hk) as (W0 & W1 & W2 & W3).
    rewrite W3. apply Vgates; [assumption | lia].
Qed.

(** X2: the per-gate GRU step.  The projections are split without
    normalisation; the reset gate, the update gate and the candidate each
    normalise their summed pre-activation with their own unit (units 0, 1 and
    2), the candidate after the reset gate has scaled the hidden-side part;
    the new hidden state is (1 - updateGate) * candidate + updateGate * h_prev. *)
Theorem per_gate_gru_step_equations (a : args) (self : LayerNormPerGateGRUCell.t)
  (counter : Z) (n0 n1 n2 : LayerNormalization.t)
  (x h_prev : tensor R) (B I H : nat) :
  0 < H ->
  base_shapes a (LayerNormPerGateGRUCell.base self) 3 I H ->
  LayerNormPerGateGRUCell._norm_layers self = [n0; n1; n2] ->
  Forall (unit_shapes a H) [n0; n1; n2] ->
  shape x = [B; I] -> shape h_prev = [B; H] ->
  exists h,
    LayerNormPerGateGRUCell.__call__ a self counter x [h_prev] =
      Ok (h, [h], (counter + 1)%Z) /\
    shape h = [B; H] /\
    forall i j, i < B -> j < H ->
      let b := LayerNormPerGateGRUCell.base self in
      let i2h := linear a (mx.rnn._iW b) (mx.rnn._iB b) I (row x i) in
      let h2h := linear a (mx.rnn._hW b) (mx.rnn._hB b) H (row h_prev i) in
      let resetGate := fun k => sigmoid (unit_norm a n0 H (fun k' => i2h k' + h2h k')%R k) in
      let updateGate :=
        sigmoid (unit_norm a n1 H (fun k => i2h (H + k)%nat + h2h (H + k)%nat)%R j) in
      let candidate :=
        tanh (unit_norm a n2 H
                (fun k => i2h (2 * H + k)%nat + resetGate k * h2h (2 * H + k)%nat)%R j) in
      tget h [i; j] = ((1 - updateGate) * candidate + updateGate * tget h_prev [i; j])%R.
Proof.
  intros HH (Hn & HiW & HiB & HhW & HhB) Hlayers Hunits Hx Hh.
  inversion Hunits as [|? ? [H0s H0b] Hu1]; subst.
  inversion Hu1 as [|? ? [H1s H1b] Hu2]; subst.
  inversion Hu2 as [|? ? [H2s H2b] _]; subst.
  unfold LayerNormPerGateGRUCell.__call__. rewrite Hlayers.
  set (b := LayerNormPerGateGRUCell.base self) in *.
  cbn [bind getitem nth_error].
  assert (Hpos : (0 < mx.rnn._num_hidden b * 3)%Z) by lia.
  assert (Hnat : Z.to_nat (mx.rnn._num_hidden b * 3) = H * 3) by lia.
  destruct (FullyConnected_base a _ _ x Hx Hpos Hnat HiW HiB) as (i2h & Ei2h & Hsi & _ & Vi).
  rewrite Ei2h. cbn [bind].
  destruct (FullyConnected_base a _ _ h_prev Hh Hpos Hnat HhW HhB) as (h2h & Eh2h & Hsh2 & _ & Vh2).
  rewrite Eh2h. cbn [bind].
  destruct (@split3_cols i2h B H Hsi) as (ir & iz & ic & Ei & Hsir & Hsiz & Hsic & Wi).
  rewrite Ei. cbn [bind].
  destruct (@split3_cols h2h B H Hsh2) as (hr & hz & hc & Eh & Hshr & Hshz & Hshc & Wh).
  rewrite Eh. cbn [bind].
  destruct (elemwise_ok Rplus ir hr Hsir Hshr) as (rs & Ers & Hsrs & _ & Vrs).
  unfold _plus at 1. rewrite Ers. cbn [bind].
  destruct (@normalize_rows a n0 rs LayerNormalization.eps_default B H Hsrs H0s H0b)
    as (rn & Ern & Hsrn & Vrn). rewrite Ern. cbn [bind].
  rewrite (Activation_sigmoid rn). cbn [bind].
  destruct (elemwise_ok Rplus iz hz Hsiz Hshz) as (zs & Ezs & Hszs & _ & Vzs).
  unfold _plus at 1. rewrite Ezs. cbn [bind].
  destruct (@normalize_rows a n1 zs LayerNormalization.eps_default B H Hszs H1s H1b)
    as (zn & Ezn & Hszn & Vzn). rewrite Ezn. cbn [bind].
  rewrite (Activation_sigmoid zn). cbn [bind].
  destruct (elemwise_ok Rmult (tmap sigmoid rn) hc (sh := [B; H]))
    as (gated & Eg & Hsg & _ & Vg); [rewrite shape_tmap; assumption | assumption |].
  unfold _mul at 1. rewrite Eg. cbn [bind].
  destruct (elemwise_ok Rplus ic gated Hsic Hsg) as (hs & Ehs & Hshs & _ & Vhs).
  unfold _plus at 1. rewrite Ehs. cbn [bind].
  destruct (@normalize_rows a n2 hs LayerNormalization.eps_default B H Hshs H2s H2b)
    as (hn & Ehn & Hshn & Vhn). rewrite Ehn. cbn [bind].
  rewrite (Activation_tanh hn). cbn [bind].
  destruct (elemwise_ok Rmult (_rminus_scalar 1 (tmap sigmoid zn)) (tmap tanh hn) (sh := [B; H]))
    as (fr & Efr & Hsfr & _ & Vfr);
    [unfold _rminus_scalar; rewrite !shape_tmap; assumption | rewrite shape_tmap; assumption |].
  unfold _mul at 1. rewrite Efr. cbn [bind].
  destruct (elemwise_ok Rmult (tmap sigmoid zn) h_prev (sh := [B; H]))
    as (kp & Ekp & Hskp & _ & Vkp); [rewrite shape_tmap; assumption | assumption |].
  unfold _mul. rewrite Ekp. cbn [bind].
  destruct (elemwise_ok Rplus fr kp Hsfr Hskp) as (h & Eh' & Hsh & _ & Vh').
  unfold _plus. rewrite Eh'. cbn [bind].
  exists h. split; [reflexivity|]. split; [assumption|].
  (* the reset gate, entry by entry *)
  assert (Vreset : forall i k, i < B -> k < H ->
            tget (tmap sigmoid rn) [i; k] =
            sigmoid (unit_norm a n0 H
                       (fun k' => linear a (mx.rnn._iW b) (mx.rnn._iB b) I (row x i) k' +
                                  linear a (mx.rnn._hW b) (mx.rnn._hB b) H (row h_prev i) k')%R
                       k)).
  { intros i k Hi Hk.
    rewrite tget_tmap by (rewrite Hsrn; repeat constructor; assumption).
    rewrite Vrn by assumption. unfold unit_norm. f_equal.
    apply layer_norm_ext; [|assumption]. intros k' Hk'.
    rewrite Vrs by (repeat constructor; assumption).
    destruct (Wi i k' Hi Hk') as (Wi0 & _). destruct (Wh i k' Hi Hk') as (Wh0 & _).
    rewrite Wi0, Wh0, Vi, Vh2 by lia. reflexivity. }
  intros i j Hi Hj. cbv zeta.
  assert (Hb : in_bounds [B; H] [i; j]) by (repeat constructor; assumption).
  rewrite Vh', Vfr, Vkp by assumption. unfold _rminus_scalar.
  rewrite !tget_tmap by (rewrite ?shape_tmap, ?Hszn, ?Hshn; assumption).
  rewrite Vzn, Vhn by assumption. unfold unit_norm.
  assert (Ez : layer_norm H (scale_at a n1) (shift_at a n1) LayerNormalization.eps_default
                 (fun j0 => tget zs [i; j0]) j =
               layer_norm H (scale_at a n1) (shift_at a n1) LayerNormalization.eps_default
                 (fun k => linear a (mx.rnn._iW b) (mx.rnn._iB b) I (row x i) (H + k)%nat +
                           linear a (mx.rnn._hW b) (mx.rnn._hB b) H (row h_prev i) (H + k)%nat)%R j).
  { apply layer_norm_ext; [|assumption]. intros k Hk.
    rewrite Vzs by (repeat constructor; assumption).
    destruct (Wi i k Hi Hk) as (_ & Wi1 & _). destruct (Wh i k Hi Hk) as (_ & Wh1 & _).
    rewrite Wi1, Wh1, Vi, Vh2 by lia. reflexivity. }
  assert (Ec : layer_norm H (scale_at a n2) (shift_at a n2) LayerNormalization.eps_default
                 (fun j0 => tget hs [i; j0]) j =
               layer_norm H (scale_at a n2) (shift_at a n2) LayerNormalization.eps_default
                 (fun k => linear a (mx.rnn._iW b) (mx.rnn._iB b) I (row x i) (2 * H + k)%nat +
                   sigmoid (unit_norm a n0 H
                     (fun k' => linear a (mx.rnn._iW b) (mx.rnn._iB b) I (row x i) k' +
                                linear a (mx.rnn._hW b) (mx.rnn._hB b) H (row h_prev i) k')%R k) *
                   linear a (mx.rnn._hW b) (mx.rnn._hB b) H (row h_prev i) (2 * H + k)%nat)%R j).
  { apply layer_norm_ext; [|assumption]. intros k Hk.
    rewrite Vhs, Vg by (repeat constructor; assumption).
    rewrite Vreset by assumption.
    destruct (Wi i k Hi Hk) as (_ & _ & Wi2). destruct (Wh i k Hi Hk) as (_ & _ & Wh2).
    rewrite Wi2, Wh2, Vi, Vh2 by lia. reflexivity. }
  rewrite Ez, Ec. reflexivity.
Qed.

Lemma per_gate_lstm_step_equations_witness :
  exists h c,
    LayerNormPerGateLSTMCell.__call__ (example_pg_args "lnglstm_" 8) example_pg_lstm (-1)
      example_x [example_h; example_h] = Ok (h, [h; c], (-1 + 1)%Z) /\
    shape h = [1; 2] /\ shape c = [1; 2] /\
    forall i j, i < 1 -> j < 2 ->
      let a := example_pg_args "lnglstm_" 8 in
      let b := LayerNormPerGateLSTMCell.base example_pg_lstm in
      let gates := fun k =>
        (linear a (mx.rnn._iW b) (mx.rnn._iB b) 1 (row example_x i) k +
         linear a (mx.rnn._hW b) (mx.rnn._hB b) 2 (row example_h i) k)%R in
      let inGate := sigmoid (unit_norm a (example_ln "lnglstm_i" 2) 2 (fun k => gates k) j) in
      let forgetGate :=
        sigmoid (unit_norm a (example_ln "lnglstm_f" 2) 2 (fun k => gates (2 + k)%nat) j) in
      let candidate :=
        tanh (unit_norm a (example_ln "lnglstm_c" 2) 2 (fun k => gates (2 * 2 + k)%nat) j) in
      let outGate :=
        sigmoid (unit_norm a (example_ln "lnglstm_o" 2) 2 (fun k => gates (3 * 2 + k)) j) in
      tget c [i; j] = (forgetGate * tget example_h [i; j] + inGate * candidate)%R /\
      tget h [i; j] = (outGate * tanh (unit_norm a (example_ln "lnglstm_s" 2) 2 (row c i) j))%R.
Proof.
  apply (@per_gate_lstm_step_equations (example_pg_args "lnglstm_" 8) example_pg_lstm (-1)
           (example_ln "lnglstm_i" 2) (example_ln "lnglstm_f" 2) (example_ln "lnglstm_c" 2)
           (example_ln "lnglstm_o" 2) (example_ln "lnglstm_s" 2)
           example_x example_h example_h 1 1 2);
    solve [lia | reflexivity | repeat split | repeat constructor].
Defined.

Lemma per_gate_gru_step_equations_witness :
  exists h,
    LayerNormPerGateGRUCell.__call__ (example_pg_args "lnggru_" 6) example_pg_gru (-1)
      example_x [example_h] = Ok (h, [h], (-1 + 1)%Z) /\
    shape h = [1; 2] /\
    forall i j, i < 1 -> j < 2 ->
      let a := example_pg_args "lnggru_" 6 in
      let b := LayerNormPerGateGRUCell.base example_pg_gru in
      let i2h := linear a (mx.rnn._iW b) (mx.rnn._iB b) 1 (row example_x i) in
      let h2h := linear a (mx.rnn._hW b) (mx.rnn._hB b) 2 (row example_h i) in
      let resetGate :=
        fun k => sigmoid (unit_norm a (example_ln "lnggru_r" 2) 2
                            (fun k' => i2h k' + h2h k')%R k) in
      let updateGate :=
        sigmoid (unit_norm a (example_ln "lnggru_z" 2) 2
                   (fun k => i2h (2 + k)%nat + h2h (2 + k)%nat)%R j) in
      let candidate :=
        tanh (unit_norm a (example_ln "lnggru_o" 2) 2
                (fun k => i2h (2 * 2 + k)%nat + resetGate k * h2h (2 * 2 + k)%nat)%R j) in
      tget h [i; j] = ((1 - updateGate) * candidate + updateGate * tget example_h [i; j])%R.
Proof.
  apply (@per_gate_gru_step_equations (example_pg_args "lnggru_" 6) example_pg_gru (-1)
           (example_ln "lnggru_r" 2) (example_ln "lnggru_z" 2) (example_ln "lnggru_o" 2)
           example_x example_h 1 1 2);
    solve [lia | reflexivity | repeat split | repeat constructor].
Defined.

(** ** Heads: the other round trip, and the failures *)

Lemma combine_heads_ok {A} `{Default A} (b L h d : nat) (y : tensor A) :
  0 < b -> 0 < L -> 0 < h -> 0 < d ->
  shape y = [b * h; L; d] ->
  combine_heads y (Z.of_nat L) (Z.of_nat h) = Ok (heads_combined b L h d y).
Proof.
  intros Hb HL Hh Hd Hs. unfold combine_heads.
  rewrite reshape_split_heads with (b := b) (h := h) (L := L) (d := d) by assumption.
  cbn [bind data].
  rewrite transpose_0213 with (n0 := b) (n1 := h) (n2 := L) (n3 := d) by reflexivity.
  cbn [bind].
  rewrite reshape_merge_depth with (b := b) (h := h) (L := L) (d := d)
    by (assumption || reflexivity).
  reflexivity.
Qed.

(** X3: [combine_heads] followed by [split_heads], with the same length and
    heads, gives back every tensor of shape (batch * heads, length,
    depth_per_head): the two functions are inverse in both orders. *)
Theorem split_heads_combine_heads {A} `{Default A} (batch length heads depth_per_head : nat)
  (y : tensor A) :
  0 < batch -> 0 < length -> 0 < heads -> 0 < depth_per_head ->
  shape y = [batch * heads; length; depth_per_head] -> wf y ->
  (x <- combine_heads y (Z.of_nat length) (Z.of_nat heads) ;;
   split_heads x (Z.of_nat length) (Z.of_nat heads)) = Ok y.
Proof.
  intros Hb HL Hh Hd Hs Hwf.
  rewrite combine_heads_ok with (b := batch) (d := depth_per_head) by assumption.
  cbn [bind].
  rewrite split_heads_ok with (b := batch) (d := depth_per_head)
    by (assumption || reflexivity).
  unfold heads_split, heads_combined. cbn [data]. rewrite mk_data_tabulate.
  destruct y as [sh dt]. simpl in Hs. subst sh. f_equal. f_equal.
  set (y4 := mkTensor [batch; heads; length; depth_per_head] dt).
  assert (Hwf4 : wf y4).
  { unfold wf in *. simpl in *. rewrite Hwf. ring. }
  change dt with (data y4). f_equal.
  transitivity (tabulate (shape y4) (fun idx => tget y4 idx));
    [|apply tabulate_tget; assumption].
  cbn [shape y4]. apply tabulate_ext. intros idx Hi.
  bounds Hi. cbn [nth].
  rewrite tget_tabulate by (repeat constructor; assumption).
  reflexivity.
Qed.

Lemma split_heads_combine_heads_witness :
  (x <- combine_heads example_heads 2 2 ;; split_heads x 2 2) = Ok example_heads.
Proof.
  apply (@split_heads_combine_heads nat _ 1 2 2 2 example_heads);
    solve [lia | reflexivity].
Defined.

(** X4: when the number of heads does not divide the depth, [split_heads]
    raises: its first reshape cannot keep the number of entries. *)
Theorem split_heads_not_divisible {A} `{Default A} (batch length heads depth : nat)
  (x : tensor A) :
  0 < batch -> 0 < length -> 0 < heads ->
  depth mod heads <> 0 ->
  shape x = [batch; length; depth] ->
  split_heads x (Z.of_nat length) (Z.of_nat heads) = Raise MXNetError.
Proof.
  intros Hb HL Hh Hdiv Hs. unfold split_heads, reshape.
  rewrite Hs, infer_reshape_copy, !infer_reshape_pos by assumption.
  cbn [tl]. rewrite infer_reshape_infer, infer_reshape_nil. cbn [bind].
  unfold mx.sym.fill_inferred.
  cbn [filter mx.sym.is_None List.length map mx.sym.known_dim].
  assert (Hk : size [batch; length; heads; 1] <> 0) by (simpl; nia).
  destruct (Nat.eqb_spec (size [batch; length; heads; 1]) 0); [contradiction|].
  cbn [bind].
  match goal with |- context [if ?c then _ else _] => destruct c eqn:E end;
    [|reflexivity].
  exfalso. apply Nat.eqb_eq in E. cbn [size fold_right] in E.
  replace (batch * (length * (depth * 1))) with (batch * length * depth) in E by ring.
  replace (batch * (length * (heads * (1 * 1)))) with (batch * length * heads) in E by ring.
  rewrite Nat.Div0.div_mul_cancel_l in E by nia.
  pose proof (Nat.div_mod_eq depth heads) as Hdm.
  set (q := depth / heads) in *.
  assert (Hc : batch * length * (heads * q) = batch * length * depth) by (rewrite <- E; ring).
  apply Nat.mul_cancel_l in Hc; [lia | nia].
Qed.

Lemma split_heads_not_divisible_witness :
  split_heads example_ragged 2 2 = Raise MXNetError.
Proof.
  apply (@split_heads_not_divisible nat _ 1 2 2 3 example_ragged);
    solve [lia | reflexivity | discriminate].
Defined.

(** X5: [broadcast_lengths] takes a vector with one length per sequence and
    returns a vector with one length per (sequence, head) pair, the length at
    position [r] being that of sequence [r / heads]; on an operand of shape
    (batch, 1), the shape its docstring gives, it raises. *)
Theorem broadcast_lengths_entries {A} `{Default A} (batch heads : nat) :
  0 < batch -> 0 < heads ->
  (forall x : tensor A,
      shape x = [batch] ->
      exists y,
        broadcast_lengths x (Z.of_nat heads) = Ok y /\ shape y = [batch * heads] /\
        forall r, r < batch * heads -> tget y [r] = tget x [r / heads]) /\
  (forall x : tensor A,
      shape x = [batch; 1] ->
      broadcast_lengths x (Z.of_nat heads) = Raise MXNetError).
Proof.
  intros Hb Hh. split.
  - intros x Hs.
    destruct (broadcast_lengths_ok x Hb Hh Hs) as (y & Ey & Hsy & Vy).
    exists y. split; [assumption|]. split; [assumption|].
    intros r Hr.
    assert (Hq : r / heads < batch) by (apply Nat.Div0.div_lt_upper_bound; lia).
    assert (Hm : r mod heads < heads) by (apply Nat.mod_upper_bound; lia).
    rewrite <- (Vy (r / heads) (r mod heads) Hq Hm). do 2 f_equal.
    rewrite (Nat.div_mod_eq r heads) at 1. ring.
  - intros x Hs. unfold broadcast_lengths, expand_dims, rank. rewrite Hs.
    cbn [List.length Nat.leb bind firstn skipn app].
    unfold broadcast_to. cbn [shape mx.sym.broadcast_to_shape Z.eqb Z.ltb Z.compare].
    rewrite Nat.eqb_refl. cbn [orb].
    destruct (Z.of_nat heads <? 0)%Z; [reflexivity|].
    destruct ((1 =? (if (Z.of_nat heads =? 0)%Z then 1 else Z.to_nat (Z.of_nat heads)))
              || (1 =? 1)); reflexivity.
Qed.

Lemma broadcast_lengths_entries_witness :
  (forall x : tensor nat,
      shape x = [2] ->
      exists y,
        broadcast_lengths x (Z.of_nat 3) = Ok y /\ shape y = [2 * 3] /\
        forall r, r < 2 * 3 -> tget y [r] = tget x [r / 3]) /\
  (forall x : tensor nat,
      shape x = [2; 1] ->
      broadcast_lengths x (Z.of_nat 3) = Raise MXNetError).
Proof.
  apply (@broadcast_lengths_entries nat _ 2 3); lia.
Defined.

(** ** Shapes through the attention *)

Lemma reshape_flatten {A} (x : tensor A) b L D :
  0 < b -> 0 < L -> shape x = [b; L; D] ->
  reshape x [-3; -1]%Z = Ok (mkTensor [b * L; D] (data x)).
Proof.
  intros Hb HL Hs. apply reshape_ok with (dims := [Some (b * L); None]).
  - rewrite Hs, infer_reshape_merge, infer_reshape_infer, infer_reshape_nil. reflexivity.
  - rewrite Hs. unfold mx.sym.fill_inferred.
    cbn [filter mx.sym.is_None List.length map mx.sym.known_dim].
    assert (Hk : size [b * L; 1] <> 0) by (simpl; nia).
    destruct (Nat.eqb_spec (size [b * L; 1]) 0); [contradiction|].
    do 3 f_equal. simpl.
    replace (b * (L * (D * 1))) with (D * (b * L * (1 * 1))) by ring.
    apply Nat.div_mul. simpl in Hk. lia.
  - rewrite Hs. simpl. ring.
Qed.

Lemma reshape_unflatten {A} (y : tensor A) b L M :
  0 < L -> 0 < M -> shape y = [b * L; M] ->
  reshape y [-1; Z.of_nat L; Z.of_nat M]%Z = Ok (mkTensor [b; L; M] (data y)).
Proof.
  intros HL HM Hs. apply reshape_ok with (dims := [None; Some L; Some M]).
  - rewrite Hs, infer_reshape_infer. cbn [tl].
    rewrite !infer_reshape_pos by assumption. cbn [tl].
    rewrite infer_reshape_nil. reflexivity.
  - rewrite Hs. unfold mx.sym.fill_inferred.
    cbn [filter mx.sym.is_None List.length map mx.sym.known_dim].
    assert (Hk : size [1; L; M] <> 0) by (simpl; nia).
    destruct (Nat.eqb_spec (size [1; L; M]) 0); [contradiction|].
    do 2 f_equal. simpl.
    replace (b * L * (M * 1)) with (b * (L * (M * 1) + 0)) by ring.
    apply Nat.div_mul. simpl in Hk. lia.
  - rewrite Hs. simpl. ring.
Qed.





(** The masked logits, entry by entry. *)
Lemma on_mask_entries (self : MultiHeadAttention.t) (b h L : nat)
  (logits : tensor R) (inputs_length : tensor nat) :
  0 < b -> 0 < h ->
  MultiHeadAttention.heads self = Z.of_nat h ->
  shape logits = [b * h; L; L] ->
  shape inputs_length = [b] ->
  exists masked,
    MultiHeadAttention.on_mask self logits inputs_length = Ok masked /\
    shape masked = [b * h; L; L] /\ wf masked /\
    forall i j q k, i < b -> j < h -> q < L -> k < L ->
      tget masked [i * h + j; q; k] =
      if k <? tget inputs_length [i] then tget logits [i * h + j; q; k]
      else MultiHeadAttention.mask_value.
Proof.
  intros Hb Hh Hheads Hs Hlen.
  unfold MultiHeadAttention.on_mask.
  rewrite transpose_201 with (n0 := b * h) (n1 := L) (n2 := L) by assumption.
  cbn [bind]. rewrite Hheads.
  destruct (broadcast_lengths_ok inputs_length Hb Hh Hlen) as (y & Hy & Hsy & Hyv).
  rewrite Hy. cbn [bind]. unfold SequenceMask.
  rewrite shape_tabulate, Hsy, shape_eqb_refl. cbn [bind].
  rewrite transpose_120 with (n0 := L) (n1 := b * h) (n2 := L) by reflexivity.
  eexists. split; [reflexivity|]. split; [reflexivity|]. split; [apply wf_tabulate|].
  intros i j q k Hi Hj Hq Hk.
  pose proof (head_row_lt Hi Hj) as Hrow.
  rewrite tget_tabulate by (repeat constructor; assumption). cbn [nth].
  rewrite tget_tabulate by (repeat constructor; assumption). cbn [nth].
  rewrite Hyv by assumption.
  destruct (k <? tget inputs_length [i]); [|reflexivity].
  rewrite tget_tabulate by (repeat constructor; assumption). reflexivity.
Qed.







(** ** The attention probabilities *)






(** X8: when every sequence is valid to its full length, the mask changes
    nothing: [on_mask] returns the logits it was given. *)
Theorem on_mask_full_length (self : MultiHeadAttention.t) (b h L : nat)
  (logits : tensor R) (inputs_length : tensor nat) :
  0 < b -> 0 < h ->
  MultiHeadAttention.heads self = Z.of_nat h ->
  shape logits = [b * h; L; L] -> wf logits ->
  shape inputs_length = [b] ->
  (forall i, i < b -> L <= tget inputs_length [i]) ->
  MultiHeadAttention.on_mask self logits inputs_length = Ok logits.
Proof.
  intros Hb Hh Hheads Hs Hwf Hlen Hfull.
  destruct (@on_mask_entries self b h L logits inputs_length Hb Hh Hheads Hs Hlen)
    as (masked & Em & Hsm & Hwm & Vm).
  rewrite Em. f_equal.
  apply tensor_ext; [congruence | assumption | assumption |].
  rewrite Hsm. intros idx Hidx. bounds Hidx.
  match goal with Hr : ?r < b * h |- tget masked [?r; ?q; ?k] = _ =>
    assert (Hq : r / h < b) by (apply Nat.Div0.div_lt_upper_bound; lia);
    assert (Hm : r mod h < h) by (apply Nat.mod_upper_bound; lia);
    assert (Er : r = r / h * h + r mod h) by (rewrite (Nat.div_mod_eq r h) at 1; ring);
    rewrite Er; rewrite (Vm (r / h) (r mod h) q k) by assumption;
    specialize (Hfull (r / h) Hq);
    destruct (Nat.ltb_spec k (tget inputs_length [r / h])); [reflexivity | lia]
  end.
Qed.

Lemma on_mask_full_length_witness :
  MultiHeadAttention.on_mask example_attention example_logits (mkTensor [1] [2]) =
  Ok example_logits.
Proof.
  apply (@on_mask_full_length example_attention 1 2 2 example_logits (mkTensor [1] [2]));
    try solve [lia | reflexivity | apply wf_tabulate].
  intros i Hi. assert (i = 0) by lia. subst i. apply Nat.le_refl.
Defined.

(** ** The feed-forward network *)

Lemma Activation_relu x : Activation x "relu" = Ok (tmap relu x).
Proof. reflexivity. Qed.

Lemma linear_ext (a : args) (W b : Symbol) n (f g : nat -> R) j :
  (forall c, c < n -> f c = g c) -> linear a W b n f j = linear a W b n g j.
Proof.
  intros Hfg. unfold linear. f_equal. apply rsum_ext.
  intros c Hc. rewrite Hfg by assumption. reflexivity.
Qed.

(** Position (i, l) of a (b, L, D) tensor is row i * L + l of the same data
    read as (b * L, D). *)
Lemma tget_flattened {A} `{Default A} (dt : list A) b L D i l c :
  tget (mkTensor [b * L; D] dt) [i * L + l; c] = tget (mkTensor [b; L; D] dt) [i; l; c].
Proof. unfold tget. cbn [shape data]. f_equal. simpl. ring. Qed.

(** X9: the feed-forward network without dropout is position-wise.  On an
    input of shape (batch, length, depth) it returns a tensor of shape
    (batch, length, num_model) whose entries at position (i, l) are the second
    projection of the ReLU of the first projection of the input entries at
    that same position. *)
Theorem ffn_position_wise (a : args) (mask : list nat -> R) (self : FFNRelu.t)
  (x : tensor R) (b L D K M : nat) :
  0 < b -> 0 < L -> 0 < K -> 0 < M ->
  FFNRelu.dropout self = 0%R ->
  ffn_shapes a self D K M ->
  shape x = [b; L; D] ->
  exists y,
    FFNRelu.apply a mask self x (Z.of_nat L) = Ok y /\
    shape y = [b; L; M] /\
    forall i l o, i < b -> l < L -> o < M ->
      tget y [i; l; o] =
      linear a (FFNRelu.w_h2o self) (FFNRelu.b_h2o self) K
        (fun k => relu (linear a (FFNRelu.w_i2h self) (FFNRelu.b_i2h self) D
                          (fun c => tget x [i; l; c]) k)) o.
Proof.
  intros Hb HL HK HM Hdrop (Hnh & Hnm & HW1 & HB1 & HW2 & HB2) Hx.
  unfold FFNRelu.apply.
  rewrite (reshape_flatten x Hb HL Hx). cbn [bind]. rewrite Hnh, Hnm.
  assert (HposK : (0 < Z.of_nat K)%Z) by lia.
  assert (HposM : (0 < Z.of_nat M)%Z) by lia.
  destruct (FullyConnected_base a (FFNRelu.w_i2h self) (FFNRelu.b_i2h self)
              (mkTensor [b * L; D] (data x))
              (B := b * L) (I := D) (O := K) eq_refl HposK (Nat2Z.id _) HW1 HB1)
    as (h1 & E1 & Hs1 & _ & V1).
  rewrite E1. cbn [bind]. rewrite (Activation_relu h1). cbn [bind].
  rewrite no_dropout_test by assumption. cbn [bind].
  assert (Hsr : shape (tmap relu h1) = [b * L; K]) by (rewrite shape_tmap; assumption).
  destruct (FullyConnected_base a (FFNRelu.w_h2o self) (FFNRelu.b_h2o self)
              (tmap relu h1)
              (B := b * L) (I := K) (O := M) Hsr HposM (Nat2Z.id _) HW2 HB2)
    as (y2 & E2 & Hs2 & _ & V2).
  rewrite E2. cbn [bind].
  rewrite (@reshape_unflatten R y2 b L M) by assumption.
  eexists. split; [reflexivity|]. split; [reflexivity|].
  intros i l o Hi Hl Ho.
  assert (Hrow : i * L + l < b * L) by nia.
  rewrite <- tget_flattened.
  replace (mkTensor [b * L; M] (data y2)) with y2
    by (rewrite <- Hs2; symmetry; apply tensor_eta).
  rewrite V2 by assumption.
  apply linear_ext. intros k Hk. unfold row.
  rewrite tget_tmap by (rewrite Hs1; repeat constructor; assumption).
  rewrite V1 by assumption. f_equal.
  apply linear_ext. intros c Hc. unfold row.
  rewrite tget_flattened. rewrite <- Hx, tensor_eta. reflexivity.
Qed.

Lemma ffn_position_wise_witness :
  exists y,
    FFNRelu.apply example_ffn_args (fun _ => 1%R) example_ffn example_inputs (Z.of_nat 2)
    = Ok y /\
    shape y = [1; 2; 2] /\
    forall i l o, i < 1 -> l < 2 -> o < 2 ->
      tget y [i; l; o] =
      linear example_ffn_args (FFNRelu.w_h2o example_ffn) (FFNRelu.b_h2o example_ffn) 4
        (fun k => relu (linear example_ffn_args (FFNRelu.w_i2h example_ffn)
                          (FFNRelu.b_i2h example_ffn) 4
                          (fun c => tget example_inputs [i; l; c]) k)) o.
Proof.
  apply (@ffn_position_wise example_ffn_args (fun _ => 1%R) example_ffn example_inputs
           1 2 4 4 2);
    try solve [lia | reflexivity].
  repeat split.
Defined.

(** ** Layer normalisation: the moments *)












(** ** Constructors *)

(** X12: the attention constructor.  A head count of 0 raises
    ZeroDivisionError, not the configuration error; and every unit it
    returns, also one with a negative head count, has a non-zero head count
    that divides its depth, with depth_per_head * heads = depth. *)
Theorem attention_init_cases (prefix : string) (depth_att heads depth_out : Z) (dropout : R) :
  (heads = 0%Z ->
   MultiHeadAttention.__init__ prefix depth_att heads depth_out dropout =
   Raise ZeroDivisionError) /\
  (forall att,
      MultiHeadAttention.__init__ prefix depth_att heads depth_out dropout = Ok att ->
      heads <> 0%Z /\ (depth_att mod heads = 0)%Z /\
      MultiHeadAttention.depth att = depth_att /\
      MultiHeadAttention.heads att = heads /\
      (MultiHeadAttention.depth_per_head att * MultiHeadAttention.heads att =
       MultiHeadAttention.depth att)%Z).
Proof.
  split.
  - intros ->. reflexivity.
  - intros att. unfold MultiHeadAttention.__init__, py_mod, py_floordiv,
      utils.check_condition.
    destruct (Z.eqb_spec heads 0) as [|Hh]; [discriminate|]. cbn [bind].
    destruct (Z.eqb_spec (depth_att mod heads) 0) as [Hm|]; [|discriminate].
    cbn [bind]. intros E. injection E as <-.
    cbn [MultiHeadAttention.depth MultiHeadAttention.heads
         MultiHeadAttention.depth_per_head].
    repeat split; try assumption.
    pose proof (Z.div_mod depth_att heads Hh). lia.
Qed.

Lemma attention_init_cases_witness :
  MultiHeadAttention.__init__ "att_" 512 0 512 0 = Raise ZeroDivisionError /\
  (-8 <> 0)%Z /\ (512 mod -8 = 0)%Z /\
  MultiHeadAttention.depth
    (MultiHeadAttention.mk "att_" 512 (-8) 512 0 (-64)
       (Var "att_i2h_weight" None None) (Var "att_i2h_bias" None None)
       (Var "att_h2o_weight" None None) (Var "att_h2o_bias" None None)) = 512%Z.
Proof.
  split.
  - apply (proj1 (attention_init_cases "att_" 512 0 512 0)). reflexivity.
  - destruct (proj2 (attention_init_cases "att_" 512 (-8) 512 0)
                (MultiHeadAttention.mk "att_" 512 (-8) 512 0 (-64)
                   (Var "att_i2h_weight" None None) (Var "att_i2h_bias" None None)
                   (Var "att_h2o_weight" None None) (Var "att_h2o_bias" None None))
                eq_refl) as (H1 & H2 & H3 & _).
    repeat split; assumption.
Defined.

Lemma LayerNormalization_init_config_error num_hidden prefix scale shift scale_init shift_init :
  (num_hidden <= 1)%Z ->
  exists msg,
    LayerNormalization.__init__ num_hidden prefix scale shift scale_init shift_init =
    Raise (SockeyeError msg).
Proof.
  intros Hn. unfold LayerNormalization.__init__, utils.check_condition.
  destruct (Z.ltb_spec 1 num_hidden); [lia|]. eexists. reflexivity.
Qed.

Ltac split_gets :=
  repeat match goal with
         | |- context [get_constant ?p ?n ?k ?v] =>
           let s := fresh "s" in
           let p' := fresh "p" in
           destruct (get_constant p n k v) as [s p']
         end.

Ltac init_ok n :=
  match goal with
  | |- context [LayerNormalization.__init__ n ?pre ?sc ?sh ?si ?fi] =>
    let ln := fresh "ln" in
    let E := fresh "E" in
    destruct (@LayerNormalization_init_ok n pre sc sh si fi) as [ln E]; [lia|];
    rewrite E; cbn [bind]
  end.

Ltac init_error n :=
  match goal with
  | |- context [LayerNormalization.__init__ n ?pre ?sc ?sh ?si ?fi] =>
    let msg := fresh "msg" in
    let E := fresh "E" in
    destruct (@LayerNormalization_init_config_error n pre sc sh si fi) as [msg E]; [lia|];
    rewrite E; cbn [bind]
  end.

Lemma lnlstm_init_ok n prefix params fb ns nsh :
  (1 < n)%Z -> exists c, LayerNormLSTMCell.__init__ n prefix params fb ns nsh = Ok c.
Proof.
  intros Hn. unfold LayerNormLSTMCell.__init__. cbv zeta.
  do 2 (match goal with |- context [get_constant ?p ?nm ?k ?v] =>
          destruct (get_constant p nm k v) end).
  init_ok (n * 4)%Z.
  do 2 (match goal with |- context [get_constant ?p ?nm ?k ?v] =>
          destruct (get_constant p nm k v) end).
  init_ok (n * 4)%Z.
  do 2 (match goal with |- context [get_constant ?p ?nm ?k ?v] =>
          destruct (get_constant p nm k v) end).
  init_ok n. eexists. reflexivity.
Qed.

Lemma lnlstm_init_error n prefix params fb ns nsh :
  (n <= 1)%Z -> is_config_error (LayerNormLSTMCell.__init__ n prefix params fb ns nsh) = true.
Proof.
  intros Hn. unfold LayerNormLSTMCell.__init__. cbv zeta.
  do 2 (match goal with |- context [get_constant ?p ?nm ?k ?v] =>
          destruct (get_constant p nm k v) end).
  destruct (Z_le_gt_dec n 0).
  - init_error (n * 4)%Z. reflexivity.
  - init_ok (n * 4)%Z.
    do 2 (match goal with |- context [get_constant ?p ?nm ?k ?v] =>
            destruct (get_constant p nm k v) end).
    init_ok (n * 4)%Z.
    do 2 (match goal with |- context [get_constant ?p ?nm ?k ?v] =>
            destruct (get_constant p nm k v) end).
    init_error n. reflexivity.
Qed.

Lemma lngru_init_ok n prefix params ns nsh :
  (1 <= n)%Z -> exists c, LayerNormGRUCell.__init__ n prefix params ns nsh = Ok c.
Proof.
  intros Hn. unfold LayerNormGRUCell.__init__. cbv zeta.
  do 2 (match goal with |- context [get_constant ?p ?nm ?k ?v] =>
          destruct (get_constant p nm k v) end).
  init_ok (n * 3)%Z.
  do 2 (match goal with |- context [get_constant ?p ?nm ?k ?v] =>
          destruct (get_constant p nm k v) end).
  init_ok (n * 3)%Z. eexists. reflexivity.
Qed.

Lemma lngru_init_error n prefix params ns nsh :
  (n <= 0)%Z -> is_config_error (LayerNormGRUCell.__init__ n prefix params ns nsh) = true.
Proof.
  intros Hn. unfold LayerNormGRUCell.__init__. cbv zeta.
  do 2 (match goal with |- context [get_constant ?p ?nm ?k ?v] =>
          destruct (get_constant p nm k v) end).
  init_error (n * 3)%Z. reflexivity.
Qed.

Lemma lnglstm_loop_ok names : forall n prefix fb ns nsh p layers,
  (1 < n)%Z ->
  exists r,
    LayerNormPerGateLSTMCell.norm_layers_loop names n prefix fb ns nsh p layers = Ok r.
Proof.
  induction names as [|name names IH]; intros n prefix fb ns nsh p layers Hn.
  - eexists. reflexivity.
  - cbn [LayerNormPerGateLSTMCell.norm_layers_loop].
    do 2 (match goal with |- context [get_constant ?p ?nm ?k ?v] =>
            destruct (get_constant p nm k v) end).
    init_ok n. apply IH. assumption.
Qed.

Lemma lnggru_loop_ok names : forall n prefix ns nsh p layers,
  (1 < n)%Z ->
  exists r,
    LayerNormPerGateGRUCell.norm_layers_loop names n prefix ns nsh p layers = Ok r.
Proof.
  induction names as [|name names IH]; intros n prefix ns nsh p layers Hn.
  - eexists. reflexivity.
  - cbn [LayerNormPerGateGRUCell.norm_layers_loop].
    do 2 (match goal with |- context [get_constant ?p ?nm ?k ?v] =>
            destruct (get_constant p nm k v) end).
    init_ok n. apply IH. assumption.
Qed.

Lemma lnglstm_init_ok n prefix params fb ns nsh :
  (1 < n)%Z -> exists c, LayerNormPerGateLSTMCell.__init__ n prefix params fb ns nsh = Ok c.
Proof.
  intros Hn. unfold LayerNormPerGateLSTMCell.__init__. cbv zeta.
  match goal with |- context [LayerNormPerGateLSTMCell.norm_layers_loop ?l n ?pre ?f ?s ?t ?p ?ls] =>
    destruct (@lnglstm_loop_ok l n pre f s t p ls Hn) as [[p' ls'] E]
  end.
  rewrite E. eexists. reflexivity.
Qed.

Lemma lnglstm_init_error n prefix params fb ns nsh :
  (n <= 1)%Z ->
  is_config_error (LayerNormPerGateLSTMCell.__init__ n prefix params fb ns nsh) = true.
Proof.
  intros Hn. unfold LayerNormPerGateLSTMCell.__init__. cbv zeta.
  cbn [LayerNormPerGateLSTMCell.norm_layers_loop].
  do 2 (match goal with |- context [get_constant ?p ?nm ?k ?v] =>
          destruct (get_constant p nm k v) end).
  init_error n. reflexivity.
Qed.

Lemma lnggru_init_ok n prefix params ns nsh :
  (1 < n)%Z -> exists c, LayerNormPerGateGRUCell.__init__ n prefix params ns nsh = Ok c.
Proof.
  intros Hn. unfold LayerNormPerGateGRUCell.__init__. cbv zeta.
  match goal with |- context [LayerNormPerGateGRUCell.norm_layers_loop ?l n ?pre ?s ?t ?p ?ls] =>
    destruct (@lnggru_loop_ok l n pre s t p ls Hn) as [[p' ls'] E]
  end.
  rewrite E. eexists. reflexivity.
Qed.

Lemma lnggru_init_error n prefix params ns nsh :
  (n <= 1)%Z ->
  is_config_error (LayerNormPerGateGRUCell.__init__ n prefix params ns nsh) = true.
Proof.
  intros Hn. unfold LayerNormPerGateGRUCell.__init__. cbv zeta.
  cbn [LayerNormPerGateGRUCell.norm_layers_loop].
  do 2 (match goal with |- context [get_constant ?p ?nm ?k ?v] =>
          destruct (get_constant p nm k v) end).
  init_error n. reflexivity.
Qed.

(** X13: which hidden sizes the four layer-normalised cells accept, with
    fresh or shared parameters.  The across-gates LSTM and both per-gate
    cells need at least two hidden units, the across-gates GRU takes a single
    one; below that, construction raises the configuration error of
    LayerNormalization. *)
Theorem cell_hidden_size_bounds (n : Z) (prefix : string) (params : option mx.rnn.RNNParams)
  (fb ns nsh : R) :
  ((1 < n)%Z ->
   (exists c, LayerNormLSTMCell.__init__ n prefix params fb ns nsh = Ok c) /\
   (exists c, LayerNormPerGateLSTMCell.__init__ n prefix params fb ns nsh = Ok c) /\
   (exists c, LayerNormPerGateGRUCell.__init__ n prefix params ns nsh = Ok c)) /\
  ((n <= 1)%Z ->
   is_config_error (LayerNormLSTMCell.__init__ n prefix params fb ns nsh) = true /\
   is_config_error (LayerNormPerGateLSTMCell.__init__ n prefix params fb ns nsh) = true /\
   is_config_error (LayerNormPerGateGRUCell.__init__ n prefix params ns nsh) = true) /\
  ((1 <= n)%Z -> exists c, LayerNormGRUCell.__init__ n prefix params ns nsh = Ok c) /\
  ((n <= 0)%Z ->
   is_config_error (LayerNormGRUCell.__init__ n prefix params ns nsh) = true).
Proof.
  repeat split; intros.
  - apply lnlstm_init_ok; assumption.
  - apply lnglstm_init_ok; assumption.
  - apply lnggru_init_ok; assumption.
  - apply lnlstm_init_error; assumption.
  - apply lnglstm_init_error; assumption.
  - apply lnggru_init_error; assumption.
  - apply lngru_init_ok; assumption.
  - apply lngru_init_error; assumption.
Qed.

Lemma cell_hidden_size_bounds_witness :
  (exists c, LayerNormLSTMCell.__init__ 2 "lnlstm_" None 1 1 0 = Ok c) /\
  is_config_error (LayerNormLSTMCell.__init__ 1 "lnlstm_" None 1 1 0) = true /\
  (exists c, LayerNormGRUCell.__init__ 1 "lngru_" None 1 0 = Ok c) /\
  is_config_error (LayerNormGRUCell.__init__ 0 "lngru_" None 1 0) = true.
Proof.
  split; [|split; [|split]].
  - apply (proj1 (cell_hidden_size_bounds 2 "lnlstm_" None 1 1 0)). lia.
  - apply (proj1 (proj2 (cell_hidden_size_bounds 1 "lnlstm_" None 1 1 0))). lia.
  - apply (proj1 (proj2 (proj2 (cell_hidden_size_bounds 1 "lngru_" None 1 1 0)))). lia.
  - apply (proj2 (proj2 (proj2 (cell_hidden_size_bounds 0 "lngru_" None 1 1 0)))). lia.
Defined.

(** ** The stack builder *)

Lemma pos_layer (k : nat) : (0 <? Z.of_nat k)%Z = (0 <? k).
Proof. destruct k; reflexivity. Qed.

Lemma layer_result C config prefix rnn (k : nat) rnn' :
  get_stacked_rnn_layer C config prefix rnn (Z.of_nat k) = Ok rnn' ->
  exists c, is_layer_cell c = true /\ rnn' = rnn ++ layer_cells config prefix k c.
Proof.
  unfold get_stacked_rnn_layer, layer_cells.
  match goal with |- bind ?m _ = _ -> _ => destruct m as [c|e] eqn:Ec end;
    [|discriminate].
  cbn [bind]. rewrite pos_layer. intros Hr. exists c. split.
  - repeat match type of Ec with
           | (if ?b then _ else _) = _ => destruct b
           end;
    try discriminate;
    try (injection Ec as <-; reflexivity);
    match type of Ec with
    | bind ?m _ = _ => destruct m; cbn [bind] in Ec; [|discriminate]
    end;
    injection Ec as <-; reflexivity.
  - destruct (Rgt_dec (dropout config) 0); injection Hr as <-.
    + rewrite <- app_assoc. reflexivity.
    + reflexivity.
Qed.

Lemma for_each_layers C config prefix : forall m s acc rnn,
  for_each (get_stacked_rnn_layer C config prefix) (map Z.of_nat (seq s m)) acc = Ok rnn ->
  exists cs,
    length cs = m /\ forallb is_layer_cell cs = true /\
    rnn = acc ++ concat (map (fun kc => layer_cells config prefix (fst kc) (snd kc))
                             (combine (seq s m) cs)).
Proof.
  induction m as [|m IH]; intros s acc rnn Hrun.
  - injection Hrun as <-. exists []. rewrite app_nil_r. repeat split.
  - cbn [seq map for_each] in Hrun.
    destruct (get_stacked_rnn_layer C config prefix acc (Z.of_nat s)) as [acc1|e] eqn:E;
      [|discriminate].
    cbn [bind] in Hrun.
    destruct (layer_result _ _ _ _ _ E) as (c & Hc & ->).
    destruct (IH _ _ _ Hrun) as (cs & Hlen & Hall & ->).
    exists (c :: cs). split; [simpl; congruence|].
    split; [simpl; rewrite Hc, Hall; reflexivity|].
    cbn [seq combine map concat fst snd]. rewrite <- app_assoc. reflexivity.
Qed.

Lemma length_layers config prefix : forall (l : list (nat * cell)),
  length (concat (map (fun kc => layer_cells config prefix (fst kc) (snd kc)) l)) =
  length l * (if Rgt_dec (dropout config) 0 then 2 else 1).
Proof.
  induction l as [|kc l IH]; [reflexivity|].
  cbn [map concat]. rewrite length_app, IH. unfold layer_cells.
  destruct (Rgt_dec (dropout config) 0); simpl; lia.
Qed.

(** X14: the layout of every stack the builder returns.  The stack is the
    concatenation, for the layers 0, 1, ... in order, of the layer's cell,
    wrapped in a ResidualCell if and only if the configuration asks for
    residual connections and the layer is not the first, followed by a
    DropoutCell if and only if the dropout is positive; so it has one or two
    entries per layer. *)
Theorem stack_layout (C : constants) (config : RNNConfig) (prefix : string)
  (rnn : SequentialRNNCell) :
  get_stacked_rnn C config prefix = Ok rnn ->
  exists cs,
    length cs = Z.to_nat (num_layers config) /\
    forallb is_layer_cell cs = true /\
    rnn = concat (map (fun kc => layer_cells config prefix (fst kc) (snd kc))
                      (combine (seq 0 (Z.to_nat (num_layers config))) cs)) /\
    length rnn =
    Z.to_nat (num_layers config) * (if Rgt_dec (dropout config) 0 then 2 else 1).
Proof.
  unfold get_stacked_rnn, range. intros Hrun.
  destruct (for_each_layers _ _ _ _ _ _ Hrun) as (cs & Hlen & Hall & ->).
  exists cs. repeat split; try assumption.
  cbn [app]. rewrite length_layers, length_combine, length_seq, Hlen, Nat.min_id.
  reflexivity.
Qed.

Lemma for_each_ok {S X} (body : S -> X -> result S) :
  (forall s x, exists s', body s x = Ok s') ->
  forall xs s, exists s', for_each body xs s = Ok s'.
Proof.
  intros Hbody. induction xs as [|x xs IH]; intros s.
  - eexists. reflexivity.
  - cbn [for_each]. destruct (Hbody s x) as [s1 ->]. cbn [bind]. apply IH.
Qed.

Lemma layer_tail_ok config (cell_prefix : string) rnn (layer : Z) c :
  exists rnn',
    (let c := if residual config && (0 <? layer)%Z then ResidualCell c else c in
     let rnn := rnn ++ [c] in
     if Rgt_dec (dropout config) 0 then
       Ok (rnn ++ [DropoutCell (dropout config) (cell_prefix ++ "_dropout")%string])
     else Ok rnn) = Ok rnn'.
Proof. cbv zeta. destruct (Rgt_dec (dropout config) 0); eexists; reflexivity. Qed.

Lemma layer_ok_lstm C config prefix rnn layer :
  cell_type config = LSTM_TYPE C ->
  exists rnn', get_stacked_rnn_layer C config prefix rnn layer = Ok rnn'.
Proof.
  intros Ht. unfold get_stacked_rnn_layer. rewrite Ht, String.eqb_refl. cbn [bind].
  apply layer_tail_ok.
Qed.

Lemma layer_ok_known C config prefix rnn layer :
  known_cell_type C (cell_type config) = true -> (1 < num_hidden config)%Z ->
  exists rnn', get_stacked_rnn_layer C config prefix rnn layer = Ok rnn'.
Proof.
  unfold known_cell_type. intros Hk Hn. unfold get_stacked_rnn_layer.
  destruct (String.eqb (cell_type config) (LSTM_TYPE C)).
  { cbn [bind]. apply layer_tail_ok. }
  destruct (String.eqb (cell_type config) (LNLSTM_TYPE C)).
  { match goal with |- context [LayerNormLSTMCell.__init__ ?n ?p ?o ?f ?s ?t] =>
      destruct (@lnlstm_init_ok n p o f s t Hn) as [c ->] end.
    cbn [bind]. apply layer_tail_ok. }
  destruct (String.eqb (cell_type config) (LNGLSTM_TYPE C)).
  { match goal with |- context [LayerNormPerGateLSTMCell.__init__ ?n ?p ?o ?f ?s ?t] =>
      destruct (@lnglstm_init_ok n p o f s t Hn) as [c ->] end.
    cbn [bind]. apply layer_tail_ok. }
  destruct (String.eqb (cell_type config) (GRU_TYPE C)).
  { cbn [bind]. apply layer_tail_ok. }
  destruct (String.eqb (cell_type config) (LNGRU_TYPE C)).
  { match goal with |- context [LayerNormGRUCell.__init__ ?n ?p ?o ?s ?t] =>
      destruct (@lngru_init_ok n p o s t) as [c ->]; [lia|] end.
    cbn [bind]. apply layer_tail_ok. }
  destruct (String.eqb (cell_type config) (LNGGRU_TYPE C)).
  { match goal with |- context [LayerNormPerGateGRUCell.__init__ ?n ?p ?o ?s ?t] =>
      destruct (@lnggru_init_ok n p o s t Hn) as [c ->] end.
    cbn [bind]. apply layer_tail_ok. }
  discriminate.
Qed.

Lemma config_error_bind {A B} (m : result A) (k : A -> result B) :
  is_config_error m = true -> is_config_error (bind m k) = true.
Proof. destruct m as [x|e]; [discriminate|]. intros He. exact He. Qed.

Lemma layer_config_error C config prefix rnn layer :
  known_cell_type C (cell_type config) = true ->
  cell_type config <> LSTM_TYPE C -> cell_type config <> GRU_TYPE C ->
  (num_hidden config <= 0)%Z ->
  is_config_error (get_stacked_rnn_layer C config prefix rnn layer) = true.
Proof.
  unfold known_cell_type. intros Hk Hl Hg Hn. unfold get_stacked_rnn_layer.
  apply config_error_bind.
  destruct (String.eqb_spec (cell_type config) (LSTM_TYPE C)); [contradiction|].
  destruct (String.eqb_spec (cell_type config) (GRU_TYPE C)); [contradiction|].
  destruct (String.eqb (cell_type config) (LNLSTM_TYPE C)).
  { apply config_error_bind, lnlstm_init_error. lia. }
  destruct (String.eqb (cell_type config) (LNGLSTM_TYPE C)).
  { apply config_error_bind, lnglstm_init_error. lia. }
  destruct (String.eqb (cell_type config) (LNGRU_TYPE C)).
  { apply config_error_bind, lngru_init_error. lia. }
  destruct (String.eqb (cell_type config) (LNGGRU_TYPE C)).
  { apply config_error_bind, lnggru_init_error. lia. }
  discriminate.
Qed.

(** X15: when the builder succeeds.  A stack of plain LSTM cells is built for
    every hidden size and layer count, since mx.rnn.LSTMCell checks nothing;
    with more than one hidden unit a stack is built for each of the six
    known cell types; and for a layer-normalised type with no hidden unit
    and at least one layer, the builder raises the configuration error of
    the first cell it constructs. *)
Theorem stack_builds (C : constants) (config : RNNConfig) (prefix : string) :
  (cell_type config = LSTM_TYPE C ->
   exists rnn, get_stacked_rnn C config prefix = Ok rnn) /\
  (known_cell_type C (cell_type config) = true -> (1 < num_hidden config)%Z ->
   exists rnn, get_stacked_rnn C config prefix = Ok rnn) /\
  (known_cell_type C (cell_type config) = true ->
   cell_type config <> LSTM_TYPE C -> cell_type config <> GRU_TYPE C ->
   (num_hidden config <= 0)%Z -> (1 <= num_layers config)%Z ->
   is_config_error (get_stacked_rnn C config prefix) = true).
Proof.
  split; [|split].
  - intros Ht. unfold get_stacked_rnn. apply for_each_ok.
    intros s x. apply layer_ok_lstm. assumption.
  - intros Hk Hn. unfold get_stacked_rnn. apply for_each_ok.
    intros s x. apply layer_ok_known; assumption.
  - intros Hk Hl Hg Hn Hlayers. unfold get_stacked_rnn.
    destruct (@range_pos (num_layers config)) as [rest ->]; [lia|].
    cbn [for_each]. apply config_error_bind, layer_config_error; assumption.
Qed.

Lemma stack_layout_witness :
  exists rnn cs,
    get_stacked_rnn sockeye_constants (example_config "lnggru" 2 3 (1 / 2)) "rnn_" = Ok rnn /\
    length cs = 3 /\
    forallb is_layer_cell cs = true /\
    rnn = concat (map (fun kc => layer_cells (example_config "lnggru" 2 3 (1 / 2)) "rnn_"
                                   (fst kc) (snd kc))
                      (combine (seq 0 3) cs)) /\
    length rnn =
    3 * (if Rgt_dec (dropout (example_config "lnggru" 2 3 (1 / 2))) 0 then 2 else 1).
Proof.
  destruct (@for_each_ok _ _
              (get_stacked_rnn_layer sockeye_constants
                 (example_config "lnggru" 2 3 (1 / 2)) "rnn_")
              (fun s x => @layer_ok_known sockeye_constants
                            (example_config "lnggru" 2 3 (1 / 2)) "rnn_" s x
                            eq_refl eq_refl)
              (range 3) []) as [rnn Hrnn].
  destruct (@stack_layout sockeye_constants (example_config "lnggru" 2 3 (1 / 2)) "rnn_"
              rnn Hrnn) as (cs & H1 & H2 & H3 & H4).
  exists rnn, cs. repeat split; assumption.
Defined.

Lemma stack_builds_witness :
  (exists rnn, get_stacked_rnn sockeye_constants (example_config "lstm" 0 2 0) "rnn_" = Ok rnn) /\
  (exists rnn, get_stacked_rnn sockeye_constants (example_config "lngru" 2 2 0) "rnn_" = Ok rnn) /\
  is_config_error (get_stacked_rnn sockeye_constants (example_config "lngru" 0 2 0) "rnn_") = true.
Proof.
  split; [|split].
  - apply (proj1 (stack_builds sockeye_constants (example_config "lstm" 0 2 0) "rnn_")).
    reflexivity.
  - apply (proj1 (proj2 (stack_builds sockeye_constants (example_config "lngru" 2 2 0) "rnn_")));
      reflexivity.
  - apply (proj2 (proj2 (stack_builds sockeye_constants (example_config "lngru" 0 2 0) "rnn_")));
      try reflexivity; try discriminate; simpl; lia.
Defined.

(** ** The placeholder over a sequence of calls *)

Lemma bind_no_assert {A B} (m : result A) (k : A -> result B) :
  m <> Raise AssertionError ->
  (forall x, k x <> Raise AssertionError) ->
  bind m k <> Raise AssertionError.
Proof.
  intros Hm Hk. destruct m as [x|e]; [apply Hk|].
  cbn [bind]. intros E. apply Hm. injection E as ->. reflexivity.
Qed.

Lemma FullyConnected_no_assert x w b n : FullyConnected x w b n <> Raise AssertionError.
Proof.
  unfold FullyConnected. destruct (shape x); [discriminate|].
  match goal with |- (if ?c then _ else _) <> _ => destruct c end; discriminate.
Qed.

Lemma getitem_no_assert {A} (l : list A) i : getitem l i <> Raise AssertionError.
Proof. unfold getitem. destruct (nth_error l i); discriminate. Qed.

Lemma elemwise_no_assert f x y : elemwise f x y <> Raise AssertionError.
Proof. unfold elemwise. destruct (shape_eqb (shape x) (shape y)); discriminate. Qed.

Lemma Activation_no_assert x t : Activation x t <> Raise AssertionError.
Proof.
  unfold Activation.
  repeat match goal with |- (if ?c then _ else _) <> _ => destruct c end; discriminate.
Qed.

Lemma split_no_assert (x : tensor R) n axis : split x n axis <> Raise AssertionError.
Proof.
  unfold split.
  match goal with |- (if ?c then _ else _) <> _ => destruct c end; discriminate.
Qed.

Lemma unpack3_no_assert {A} (l : list A) : unpack3 l <> Raise AssertionError.
Proof. destruct l as [|? [|? [|? [|? ?]]]]; discriminate. Qed.

Lemma unpack4_no_assert {A} (l : list A) : unpack4 l <> Raise AssertionError.
Proof. destruct l as [|? [|? [|? [|? [|? ?]]]]]; discriminate. Qed.

Lemma mean_no_assert x axis : mean x axis <> Raise AssertionError.
Proof. unfold mean. destruct (axis <? rank x); discriminate. Qed.

Lemma broadcast_shape_no_assert : forall l r, broadcast_shape l r <> Raise AssertionError.
Proof.
  induction l as [|dl l IH]; intros [|dr r]; cbn [broadcast_shape]; try discriminate.
  repeat match goal with |- (if ?c then _ else _) <> _ => destruct c end;
    try discriminate; (apply bind_no_assert; [apply IH | discriminate]).
Qed.

Lemma broadcast_no_assert f x y : broadcast f x y <> Raise AssertionError.
Proof.
  unfold broadcast. cbv zeta.
  apply bind_no_assert; [apply broadcast_shape_no_assert | discriminate].
Qed.

Lemma moments_no_assert x : LayerNormalization.moments x <> Raise AssertionError.
Proof.
  unfold LayerNormalization.moments.
  apply bind_no_assert; [apply mean_no_assert | intros m].
  apply bind_no_assert; [apply broadcast_no_assert | intros c].
  apply bind_no_assert; [apply mean_no_assert | discriminate].
Qed.

Lemma normalize_no_assert a self x eps :
  LayerNormalization.normalize a self x eps <> Raise AssertionError.
Proof.
  unfold LayerNormalization.normalize.
  apply bind_no_assert; [apply moments_no_assert | intros [m v]].
  repeat (apply bind_no_assert; [apply broadcast_no_assert | intros ?]).
  discriminate.
Qed.

Ltac no_assert_step :=
  first [ apply FullyConnected_no_assert | apply getitem_no_assert
        | apply elemwise_no_assert | apply Activation_no_assert
        | apply normalize_no_assert | apply split_no_assert
        | apply unpack3_no_assert | apply unpack4_no_assert
        | discriminate ].

Ltac no_assert :=
  repeat first
    [ no_assert_step
    | apply bind_no_assert; [ | intros ? ]
    | match goal with |- (let '(_, _) := ?p in _) <> _ => destruct p end ].

Lemma placeholder_no_assert st (i2h : tensor R) :
  has_placeholder st ->
  (if (_counter st + 1 =? 0)%Z then Ok (zeros_like i2h)
   else match _shape_fix st with
        | Some z => Ok z
        | None => Raise AssertionError
        end) <> Raise AssertionError.
Proof.
  intros [Hc | [z Hz]].
  - rewrite Hc. discriminate.
  - rewrite Hz. destruct (_counter st + 1 =? 0)%Z; discriminate.
Qed.

Lemma lstm_call_no_assert a self st x states :
  has_placeholder st ->
  LayerNormLSTMCell.__call__ a self st x states <> Raise AssertionError.
Proof.
  intros Hst. unfold LayerNormLSTMCell.__call__. cbv zeta.
  apply bind_no_assert; [no_assert_step | intros i2h].
  apply bind_no_assert; [apply placeholder_no_assert; assumption | intros z].
  no_assert.
Qed.


Ltac invert_binds :=
  repeat first
    [ match goal with
      | |- bind ?m _ = Ok _ -> _ => destruct m; cbn [bind]; [ | discriminate ]
      end
    | match goal with
      | |- (let '(_, _) := ?p in _) = Ok _ -> _ => destruct p
      end ].

Lemma placeholder_chosen st (i2h z : tensor R) :
  (if (_counter st + 1 =? 0)%Z then Ok (zeros_like i2h)
   else match _shape_fix st with
        | Some z => Ok z
        | None => Raise AssertionError
        end) = Ok z ->
  (_counter st = mx.rnn.reset_counter /\ z = zeros_like i2h) \/
  (_counter st <> mx.rnn.reset_counter /\ _shape_fix st = Some z).
Proof.
  unfold mx.rnn.reset_counter. destruct (Z.eqb_spec (_counter st + 1) 0) as [Hc|Hc].
  - intros E. injection E as <-. left. split; [lia | reflexivity].
  - destruct (_shape_fix st) as [z'|]; [|discriminate].
    intros E. injection E as <-. right. split; [lia | reflexivity].
Qed.

Lemma lstm_call_state a self st x states r :
  LayerNormLSTMCell.__call__ a self st x states = Ok r ->
  exists i2h z,
    FullyConnected x (eval a (mx.rnn._iW (LayerNormLSTMCell.base self)))
      (eval a (mx.rnn._iB (LayerNormLSTMCell.base self)))
      (mx.rnn._num_hidden (LayerNormLSTMCell.base self) * 4) = Ok i2h /\
    snd r = mkCellState (_counter st + 1) (Some z) /\
    ((_counter st = mx.rnn.reset_counter /\ z = zeros_like i2h) \/
     (_counter st <> mx.rnn.reset_counter /\ _shape_fix st = Some z)).
Proof.
  unfold LayerNormLSTMCell.__call__. cbv zeta.
  match goal with |- bind ?m _ = _ -> _ => destruct m as [i2h|] eqn:Ei end;
    [|discriminate].
  cbn [bind].
  match goal with |- bind ?m _ = _ -> _ => destruct m as [z|] eqn:Ez end;
    [|discriminate].
  cbn [bind]. apply placeholder_chosen in Ez.
  invert_binds. intros E. injection E as <-.
  exists i2h, z. repeat split. assumption.
Qed.


Lemma lstm_calls_keep a self : forall steps st z,
  (0 <= _counter st)%Z -> _shape_fix st = Some z ->
  lstm_calls a self st steps <> Raise AssertionError /\
  forall st', lstm_calls a self st steps = Ok st' ->
    _counter st' = (_counter st + Z.of_nat (length steps))%Z /\ _shape_fix st' = Some z.
Proof.
  induction steps as [|[x states] steps IH]; intros st z Hc Hz.
  - split; [discriminate|]. intros st' E. injection E as <-. split; [simpl; lia | assumption].
  - cbn [lstm_calls].
    assert (Hst : has_placeholder st) by (right; exists z; assumption).
    pose proof (@lstm_call_no_assert a self st x states Hst) as Hna.
    destruct (LayerNormLSTMCell.__call__ a self st x states) as [r|e] eqn:E.
    + cbn [bind]. destruct (lstm_call_state _ _ _ _ _ E) as (i2h & z' & _ & Hr & Hcase).
      assert (z' = z) as ->.
      { destruct Hcase as [[Hc' _] | [_ Hz']];
          [unfold mx.rnn.reset_counter in Hc'; lia | congruence]. }
      rewrite Hr. destruct (IH (mkCellState (_counter st + 1) (Some z)) z) as [IH1 IH2];
        [simpl; lia | reflexivity |].
      split; [assumption|]. intros st' Hrun. destruct (IH2 st' Hrun) as [H1 H2].
      split; [|assumption]. rewrite H1. cbn [_counter length]. lia.
    + cbn [bind]. split; [|discriminate].
      intros E'. apply Hna. injection E' as ->. reflexivity.
Qed.


(** X16: the across-gates LSTM cell over a sequence of calls that starts from
    a fresh cell, whatever the inputs and states.  The assertion on the
    placeholder never fails; and if all calls succeed, the counter is the
    number of calls minus one and the placeholder is the zeros of the input
    projection of the FIRST call: later calls never replace it. *)
Theorem lstm_calls_placeholder (a : args) (self : LayerNormLSTMCell.t)
  (steps : list (tensor R * list (tensor R))) :
  lstm_calls a self fresh_state steps <> Raise AssertionError /\
  forall st', lstm_calls a self fresh_state steps = Ok st' ->
    _counter st' = (Z.of_nat (length steps) - 1)%Z /\
    forall x states rest, steps = (x, states) :: rest ->
      exists i2h,
        FullyConnected x (eval a (mx.rnn._iW (LayerNormLSTMCell.base self)))
          (eval a (mx.rnn._iB (LayerNormLSTMCell.base self)))
          (mx.rnn._num_hidden (LayerNormLSTMCell.base self) * 4) = Ok i2h /\
        _shape_fix st' = Some (zeros_like i2h).
Proof.
  destruct steps as [|[x states] steps].
  - split; [discriminate|]. intros st' E. injection E as <-.
    split; [reflexivity | discriminate].
  - cbn [lstm_calls].
    assert (Hst : has_placeholder fresh_state) by (left; reflexivity).
    pose proof (@lstm_call_no_assert a self fresh_state x states Hst) as Hna.
    destruct (LayerNormLSTMCell.__call__ a self fresh_state x states) as [r|e] eqn:E.
    + cbn [bind]. destruct (lstm_call_state _ _ _ _ _ E) as (i2h & z & Ei & Hr & Hcase).
      assert (z = zeros_like i2h) as ->.
      { destruct Hcase as [[_ Hz] | [Hc _]]; [assumption | contradiction Hc; reflexivity]. }
      rewrite Hr.
      destruct (@lstm_calls_keep a self steps
                  (mkCellState (_counter fresh_state + 1) (Some (zeros_like i2h)))
                  (zeros_like i2h)) as [K1 K2]; [simpl; lia | reflexivity |].
      split; [assumption|]. intros st' Hrun. destruct (K2 st' Hrun) as [H1 H2].
      split.
      * rewrite H1. cbn [_counter fresh_state length]. unfold mx.rnn.reset_counter. lia.
      * intros x' states' rest Heq. injection Heq as <- <- <-.
        exists i2h. split; assumption.
    + cbn [bind]. split; [|discriminate].
      intros E'. apply Hna. injection E' as ->. reflexivity.
Qed.


Lemma lstm_calls_placeholder_witness :
  exists st' i2h,
    lstm_calls (example_cell_args "lnlstm_" 8) example_lstm fresh_state
      [(example_x, [example_h; example_h]); (example_x, [example_h; example_h])] = Ok st' /\
    _counter st' = 1%Z /\
    FullyConnected example_x
      (eval (example_cell_args "lnlstm_" 8) (mx.rnn._iW (LayerNormLSTMCell.base example_lstm)))
      (eval (example_cell_args "lnlstm_" 8) (mx.rnn._iB (LayerNormLSTMCell.base example_lstm)))
      (mx.rnn._num_hidden (LayerNormLSTMCell.base example_lstm) * 4) = Ok i2h /\
    _shape_fix st' = Some (zeros_like i2h).
Proof.
  assert (Hrun : exists st',
             lstm_calls (example_cell_args "lnlstm_" 8) example_lstm fresh_state
               [(example_x, [example_h; example_h]); (example_x, [example_h; example_h])]
             = Ok st').
  { cbn [lstm_calls].
    destruct (@lstm_call_rows (example_cell_args "lnlstm_" 8) example_lstm fresh_state
                example_x example_h example_h 1 1 2) as (h & c & E & _);
      try solve [lia | reflexivity | apply example_lstm_shapes | apply fresh_state_ready].
    rewrite E. cbn [bind snd].
    destruct (@lstm_call_rows (example_cell_args "lnlstm_" 8) example_lstm
                (mkCellState (_counter fresh_state + 1) (Some (full [1; 2 * 4] 0%R)))
                example_x example_h example_h 1 1 2) as (h' & c' & E' & _);
      try solve [lia | reflexivity | apply example_lstm_shapes
                 | apply state_after_call_ready].
    rewrite E'. cbn [bind snd]. eexists. reflexivity. }
  destruct Hrun as [st' Hrun].
  destruct (proj2 (lstm_calls_placeholder (example_cell_args "lnlstm_" 8) example_lstm
                     [(example_x, [example_h; example_h]);
                      (example_x, [example_h; example_h])]) st' Hrun) as [Hc Hp].
  destruct (Hp _ _ _ eq_refl) as (i2h & Ei & Hz).
  exists st', i2h. repeat split; assumption.
Defined.


Lemma shape_eqb_rows (B B' n : nat) : B <> B' -> shape_eqb [B; n] [B'; n] = false.
Proof.
  intros Hne. unfold shape_eqb.
  destruct (list_eq_dec Nat.eq_dec [B; n] [B'; n]) as [E|]; [|reflexivity].
  injection E as E. contradiction.
Qed.

Lemma lstm_second_batch (a : args) (self : LayerNormLSTMCell.t) (n : Z)
  (x h_prev c_prev : tensor R) (B B' I H : nat) :
  0 < H -> lstm_shapes a self I H ->
  shape x = [B'; I] -> shape h_prev = [B'; H] -> B <> B' -> (n + 1 <> 0)%Z ->
  LayerNormLSTMCell.__call__ a self (mkCellState n (Some (full [B; H * 4] 0%R)))
    x [h_prev; c_prev] = Raise MXNetError.
Proof.
  intros HH (Hn & HiW & HiB & HhW & HhB & HiNs & HiNb & HhNs & HhNb & HcNs & HcNb)
         Hx Hh Hne Hcnt.
  unfold LayerNormLSTMCell.__call__.
  assert (Hpos : (0 < mx.rnn._num_hidden (LayerNormLSTMCell.base self) * 4)%Z) by lia.
  assert (Hnat : Z.to_nat (mx.rnn._num_hidden (LayerNormLSTMCell.base self) * 4) = H * 4) by lia.
  destruct (FullyConnected_rows a _ _ x Hx Hpos Hnat HiW HiB) as (i2h & Ei2h & Di2h).
  rewrite Ei2h. cbn [bind _counter _shape_fix].
  destruct (Z.eqb_spec (n + 1) 0) as [|_]; [contradiction|].
  cbn [bind getitem nth_error].
  destruct (FullyConnected_rows a _ _ h_prev Hh Hpos Hnat HhW HhB) as (h2h & Eh2h & Dh2h).
  rewrite Eh2h. cbn [bind].
  assert (Hsi2h : shape i2h = [B'; H * 4]) by (rewrite Di2h; reflexivity).
  destruct (@normalize_rows a (LayerNormLSTMCell._iN self) i2h
              LayerNormalization.eps_default B' (H * 4) Hsi2h HiNs HiNb) as (y & Ey & _).
  rewrite Ey. cbn [bind].
  unfold _plus, elemwise. rewrite Dh2h. unfold full at 1.
  cbn [shape tabulate]. rewrite shape_eqb_rows by assumption. reflexivity.
Qed.

Lemma gru_second_batch (a : args) (self : LayerNormGRUCell.t) (n : Z)
  (x h_prev : tensor R) (B B' I H : nat) :
  0 < H -> gru_shapes a self I H ->
  shape x = [B'; I] -> shape h_prev = [B'; H] -> B <> B' -> (n + 1 <> 0)%Z ->
  LayerNormGRUCell.__call__ a self (mkCellState n (Some (full [B; H * 3] 0%R)))
    x [h_prev] = Raise MXNetError.
Proof.
  intros HH (Hn & HiW & HiB & HhW & HhB & HiNs & HiNb & HhNs & HhNb) Hx Hh Hne Hcnt.
  unfold LayerNormGRUCell.__call__. cbn [bind getitem nth_error].
  assert (Hpos : (0 < mx.rnn._num_hidden (LayerNormGRUCell.base self) * 3)%Z) by lia.
  assert (Hnat : Z.to_nat (mx.rnn._num_hidden (LayerNormGRUCell.base self) * 3) = H * 3) by lia.
  destruct (FullyConnected_rows a _ _ x Hx Hpos Hnat HiW HiB) as (i2h & Ei2h & Di2h).
  rewrite Ei2h. cbn [bind].
  destruct (FullyConnected_rows a _ _ h_prev Hh Hpos Hnat HhW HhB) as (h2h & Eh2h & Dh2h).
  rewrite Eh2h. cbn [bind _counter _shape_fix].
  destruct (Z.eqb_spec (n + 1) 0) as [|_]; [contradiction|].
  cbn [bind].
  assert (Hsi2h : shape i2h = [B'; H * 3]) by (rewrite Di2h; reflexivity).
  destruct (@normalize_rows a (LayerNormGRUCell._iN self) i2h
              LayerNormalization.eps_default B' (H * 3) Hsi2h HiNs HiNb) as (y & Ey & _).
  rewrite Ey. cbn [bind].
  unfold _plus, elemwise. rewrite Dh2h. unfold full at 1.
  cbn [shape tabulate]. rewrite shape_eqb_rows by assumption. reflexivity.
Qed.

(** X18: the placeholder ties a cell to the batch size of its first call.
    An across-gates LSTM or GRU cell called on a batch of B rows and then,
    without a reset, on a batch of another number of rows fails in the second
    call: the placeholder of B rows and the hidden-side projection do not
    have one shape. *)
Theorem placeholder_batch_change :
  (forall (a : args) (self : LayerNormLSTMCell.t) (x1 h1 c1 x2 h2 c2 : tensor R)
          (B B' I H : nat),
      0 < H -> lstm_shapes a self I H ->
      shape x1 = [B; I] -> shape h1 = [B; H] -> shape c1 = [B; H] ->
      shape x2 = [B'; I] -> shape h2 = [B'; H] -> B <> B' ->
      lstm_calls a self fresh_state [(x1, [h1; c1]); (x2, [h2; c2])] = Raise MXNetError) /\
  (forall (a : args) (self : LayerNormGRUCell.t) (x1 h1 x2 h2 : tensor R)
          (B B' I H : nat),
      0 < H -> gru_shapes a self I H ->
      shape x1 = [B; I] -> shape h1 = [B; H] ->
      shape x2 = [B'; I] -> shape h2 = [B'; H] -> B <> B' ->
      gru_calls a self fresh_state [(x1, [h1]); (x2, [h2])] = Raise MXNetError).
Proof.
  split.
  - intros a self x1 h1 c1 x2 h2 c2 B B' I H HH Hs Hx1 Hh1 Hc1 Hx2 Hh2 Hne.
    cbn [lstm_calls].
    destruct (@lstm_call_rows a self fresh_state x1 h1 c1 B I H HH Hs Hx1 Hh1 Hc1
                (fresh_state_ready _)) as (h & c & E & _).
    rewrite E. cbn [bind snd].
    rewrite (@lstm_second_batch a self (_counter fresh_state + 1) x2 h2 c2 B B' I H)
      by (assumption || discriminate).
    reflexivity.
  - intros a self x1 h1 x2 h2 B B' I H HH Hs Hx1 Hh1 Hx2 Hh2 Hne.
    cbn [gru_calls].
    destruct (@gru_call_rows a self fresh_state x1 h1 B I H HH Hs Hx1 Hh1
                (fresh_state_ready _)) as (h & E & _).
    rewrite E. cbn [bind snd].
    rewrite (@gru_second_batch a self (_counter fresh_state + 1) x2 h2 B B' I H)
      by (assumption || discriminate).
    reflexivity.
Qed.

Lemma placeholder_batch_change_witness :
  lstm_calls (example_cell_args "lnlstm_" 8) example_lstm fresh_state
    [(example_x, [example_h; example_h]); (example_x2, [example_h2; example_h2])]
  = Raise MXNetError /\
  gru_calls (example_cell_args "lngru_" 6) example_gru fresh_state
    [(example_x, [example_h]); (example_x2, [example_h2])]
  = Raise MXNetError.
Proof.
  split.
  - apply (proj1 placeholder_batch_change) with (B := 1) (B' := 2) (I := 1) (H := 2);
      solve [lia | reflexivity | apply example_lstm_shapes].
  - apply (proj2 placeholder_batch_change) with (B := 1) (B' := 2) (I := 1) (H := 2);
      solve [lia | reflexivity | apply example_gru_shapes].
Defined.

(** ** Parameters of the cells *)

Lemma eqb_app_l (p a b : string) : String.eqb (p ++ a) (p ++ b) = String.eqb a b.
Proof.
  induction p as [|ch p IH]; [reflexivity|].
  cbn [String.append String.eqb]. rewrite Ascii.eqb_refl. assumption.
Qed.

Ltac decide_eqb :=
  repeat match goal with
         | |- context [String.eqb ?a ?b] =>
           let v := eval vm_compute in (String.eqb a b) in
           match v with
           | true => change (String.eqb a b) with true
           | false => change (String.eqb a b) with false
           end
         end.

Ltac resolve_gets :=
  repeat (progress
            (cbv beta iota zeta delta
               [get_constant mx.rnn.get mx.rnn.lookup mx.rnn.params_prefix mx.rnn.params_dict
                mx.rnn.params];
             cbn [String.append];
             rewrite ?eqb_app_l; decide_eqb)).

(** X19: the constructor of the per-gate GRU cell, for every prefix, hidden
    size above one and initialisers.  The variable each unit gets as its
    scale is the one named "_shift", initialised to [norm_shift], and the
    variable it gets as its shift is the one named "_scale", initialised to
    [norm_scale]: the roles are exchanged, as in the per-gate LSTM cell. *)
Theorem per_gate_gru_init_roles (n : Z) (prefix : string) (norm_scale norm_shift : R) :
  (1 < n)%Z ->
  exists c,
    LayerNormPerGateGRUCell.__init__ n prefix None norm_scale norm_shift = Ok c /\
    map (fun l => (var_name (LayerNormalization.scale l), var_init (LayerNormalization.scale l)))
        (LayerNormPerGateGRUCell._norm_layers c)
    = [((prefix ++ "r_shift")%string, Some norm_shift);
       ((prefix ++ "z_shift")%string, Some norm_shift);
       ((prefix ++ "o_shift")%string, Some norm_shift)] /\
    map (fun l => (var_name (LayerNormalization.shift l), var_init (LayerNormalization.shift l)))
        (LayerNormPerGateGRUCell._norm_layers c)
    = [((prefix ++ "r_scale")%string, Some norm_scale);
       ((prefix ++ "z_scale")%string, Some norm_scale);
       ((prefix ++ "o_scale")%string, Some norm_scale)].
Proof.
  intros Hn.
  unfold LayerNormPerGateGRUCell.__init__, mx.rnn.GRUCell_init, mx.rnn.BaseCell_init.
  cbn [LayerNormPerGateGRUCell.norm_layers_loop].
  unfold LayerNormalization.__init__, utils.check_condition.
  destruct (Z.ltb_spec 1 n) as [_|]; [|lia].
  resolve_gets.
  cbn [bind app]. eexists. split; [reflexivity|]. split; reflexivity.
Qed.

Lemma per_gate_gru_init_roles_witness :
  exists c,
    LayerNormPerGateGRUCell.__init__ 2 "lnggru_" None norm_scale_default norm_shift_default
    = Ok c /\
    map (fun l => (var_name (LayerNormalization.scale l), var_init (LayerNormalization.scale l)))
        (LayerNormPerGateGRUCell._norm_layers c)
    = [(("lnggru_" ++ "r_shift")%string, Some norm_shift_default);
       (("lnggru_" ++ "z_shift")%string, Some norm_shift_default);
       (("lnggru_" ++ "o_shift")%string, Some norm_shift_default)] /\
    map (fun l => (var_name (LayerNormalization.shift l), var_init (LayerNormalization.shift l)))
        (LayerNormPerGateGRUCell._norm_layers c)
    = [(("lnggru_" ++ "r_scale")%string, Some norm_scale_default);
       (("lnggru_" ++ "z_scale")%string, Some norm_scale_default);
       (("lnggru_" ++ "o_scale")%string, Some norm_scale_default)].
Proof.
  apply (@per_gate_gru_init_roles 2 "lnggru_" norm_scale_default norm_shift_default).
  lia.
Defined.

(** X20: weight sharing.  A second across-gates LSTM cell constructed over
    the parameter container of a first one gets the very same variables, the
    four projections and the scale and shift of the three units, with the
    names and initialisers the first cell gave them, whatever prefix, forget
    bias and initialisers the second is given; it adds nothing to the
    container, and only the prefixes of its units follow its own prefix. *)
Theorem shared_params_share_variables (n : Z) (prefix1 prefix2 : string)
  (fb1 ns1 nsh1 fb2 ns2 nsh2 : R) :
  (1 < n)%Z ->
  exists c1 c2,
    LayerNormLSTMCell.__init__ n prefix1 None fb1 ns1 nsh1 = Ok c1 /\
    LayerNormLSTMCell.__init__ n prefix2
      (Some (mx.rnn.params (LayerNormLSTMCell.base c1))) fb2 ns2 nsh2 = Ok c2 /\
    mx.rnn.params (LayerNormLSTMCell.base c2) = mx.rnn.params (LayerNormLSTMCell.base c1) /\
    mx.rnn._iW (LayerNormLSTMCell.base c2) = mx.rnn._iW (LayerNormLSTMCell.base c1) /\
    mx.rnn._iB (LayerNormLSTMCell.base c2) = mx.rnn._iB (LayerNormLSTMCell.base c1) /\
    mx.rnn._hW (LayerNormLSTMCell.base c2) = mx.rnn._hW (LayerNormLSTMCell.base c1) /\
    mx.rnn._hB (LayerNormLSTMCell.base c2) = mx.rnn._hB (LayerNormLSTMCell.base c1) /\
    map (fun l => (LayerNormalization.scale l, LayerNormalization.shift l))
        [LayerNormLSTMCell._iN c2; LayerNormLSTMCell._hN c2; LayerNormLSTMCell._cN c2] =
    map (fun l => (LayerNormalization.scale l, LayerNormalization.shift l))
        [LayerNormLSTMCell._iN c1; LayerNormLSTMCell._hN c1; LayerNormLSTMCell._cN c1] /\
    var_init (LayerNormalization.scale (LayerNormLSTMCell._iN c2)) = Some ns1 /\
    map LayerNormalization.prefix
        [LayerNormLSTMCell._iN c2; LayerNormLSTMCell._hN c2; LayerNormLSTMCell._cN c2] =
    [Some (prefix2 ++ "i2h")%string; Some (prefix2 ++ "h2h")%string;
     Some (prefix2 ++ "c")%string].
Proof.
  intros Hn.
  assert (H4 : (1 <? n * 4)%Z = true) by (apply Z.ltb_lt; lia).
  assert (H1 : (1 <? n)%Z = true) by (apply Z.ltb_lt; lia).
  eexists. eexists. split.
  { unfold LayerNormLSTMCell.__init__, mx.rnn.LSTMCell_init, mx.rnn.BaseCell_init,
      LayerNormalization.__init__, utils.check_condition, with_params.
    rewrite H4, H1. resolve_gets. cbn [bind]. reflexivity. }
  cbn [LayerNormLSTMCell.base LayerNormLSTMCell._iN LayerNormLSTMCell._hN
       LayerNormLSTMCell._cN mx.rnn.params mx.rnn._iW mx.rnn._iB mx.rnn._hW mx.rnn._hB].
  unfold LayerNormLSTMCell.__init__, mx.rnn.LSTMCell_init, mx.rnn.BaseCell_init,
    LayerNormalization.__init__, utils.check_condition, with_params.
  rewrite H4, H1. resolve_gets. cbn [bind].
  split; [reflexivity|].
  repeat split.
Qed.

Lemma shared_params_share_variables_witness :
  exists c1 c2,
    LayerNormLSTMCell.__init__ 2 "enc_" None 1 1 0 = Ok c1 /\
    LayerNormLSTMCell.__init__ 2 "dec_"
      (Some (mx.rnn.params (LayerNormLSTMCell.base c1))) 0 2 3 = Ok c2 /\
    mx.rnn._iW (LayerNormLSTMCell.base c2) = mx.rnn._iW (LayerNormLSTMCell.base c1) /\
    var_init (LayerNormalization.scale (LayerNormLSTMCell._iN c2)) = Some 1%R.
Proof.
  destruct (@shared_params_share_variables 2 "enc_" "dec_" 1 1 0 0 2 3)
    as (c1 & c2 & E1 & E2 & _ & HW & _ & _ & _ & _ & Hinit & _); [lia|].
  exists c1, c2. repeat split; assumption.
Defined.
